(** * EduWave backend: the identity lifecycle and course progress

    A shallow embedding of [controllers/authController.js],
    [middleware/auth.js], the token helpers ([generateTokens]),
    [utils/sendEmail.js], the user routes and
    [models/CourseProgress.js], followed by the properties the
    specification states about them and by further properties of the
    code.

    Conventions.
    - The [users] collection is a finite map from [_id] to document
      (MongoDB keeps [_id] unique); [findOne] returns the first match in
      the map's enumeration order.
    - What a request handler reads from the outside world (clock, random
      bytes, the driver's fresh [ObjectId], whether the mail provider
      accepted the message, whether the badge service raised) is passed
      in an [Env] record; handlers are functions
      [Env -> request -> Store -> Store * Response].
    - JavaScript numbers are IEEE 754 doubles: [JsNumber.fl] is rounding
      to the nearest double (ties to even) on the normal range, and the
      arithmetic the code performs on non-integers goes through it.
    - A string is the UTF-8 encoding of the JavaScript string. What the
      code takes from libraries that are not among the sources is a
      parameter: the hash functions ([Crypto]), the engine's case
      mapping and error message ([JsEngine]), the writing and casting
      of ids ([ObjectIds]) and the ODM's validation of an update. *)

From Stdlib Require Import ZArith QArith Qround Qpower String Ascii HexString List Lia Lqa.
From Stdlib Require Import Floats.PrimFloat Floats.SpecFloat Floats.FloatOps Uint63.
From stdpp Require Import gmap strings list fin_maps.

Open Scope string_scope.
Open Scope Z_scope.

(* ===================================================================== *)
(** * JavaScript numbers                                                  *)
(* ===================================================================== *)

Module JsNumber.

(** floor(log2 q) for a positive rational [q]. *)
Definition ilog2 (q : Q) : Z :=
  let e0 := Z.log2 (Qnum q) - Z.log2 (Zpos (Qden q)) in
  if Qle_bool (2 ^ e0)%Q q then e0 else e0 - 1.

(** Nearest integer, ties to the even one. *)
Definition round_half_even (q : Q) : Z :=
  let f := Qfloor q in
  match (q - inject_Z f ?= 1 # 2)%Q with
  | Lt => f
  | Gt => f + 1
  | Eq => if Z.even f then f else f + 1
  end.

(** The double nearest to a positive rational: 53 significant bits. *)
Definition fl_pos (q : Q) : Q :=
  let e := ilog2 q in
  (inject_Z (round_half_even (q * 2 ^ (52 - e))) * 2 ^ (e - 52))%Q.

(** The double nearest to [q] (normal range: no overflow, no
    subnormals). *)
Definition fl (q : Q) : Q :=
  match (q ?= 0)%Q with
  | Eq => 0%Q
  | Gt => fl_pos q
  | Lt => (- fl_pos (- q))%Q
  end.

(** The unit roundoff of binary64, [2 ^ -53]. *)
Definition u53 : Q := 1 # 9007199254740992.

(** [x / y] and [x * y] on doubles. *)
Definition div (x y : Q) : Q := fl (x / y).
Definition mul (x y : Q) : Q := fl (x * y).

(** [Math.round]: the nearest integer, ties towards +infinity. *)
Definition Math_round (x : Q) : Z := Qfloor (x + (1 # 2))%Q.

(** The same computation on Rocq's primitive binary64 floats, for
    cross-checking [fl] on concrete inputs. *)
Definition SF2Q (f : spec_float) : option Q :=
  match f with
  | S754_zero _ => Some 0%Q
  | S754_finite s m e =>
      let v := (inject_Z (Zpos m) * 2 ^ e)%Q in
      Some (if s then (- v)%Q else v)
  | _ => None
  end.

Definition prim_percent (c t : Z) : option Q :=
  SF2Q (Prim2SF (PrimFloat.mul
                   (PrimFloat.div (PrimFloat.of_uint63 (Uint63.of_Z c))
                                  (PrimFloat.of_uint63 (Uint63.of_Z t)))
                   (PrimFloat.of_uint63 100%uint63))).

Definition agrees (c t : Z) : bool :=
  match prim_percent c t with
  | Some q => Qeq_bool q (mul (div (inject_Z c) (inject_Z t)) 100)
  | None => false
  end.

End JsNumber.

(* ===================================================================== *)
(** * JavaScript strings                                                  *)
(* ===================================================================== *)

(** A string is the UTF-8 encoding of the JavaScript string, one [ascii]
    for each byte: equality, hashing, [includes] and [split] with an
    ASCII needle act on the encoding as they act on the string; white
    space and [length] are read through the encoding. *)
Module JsString.

Definition byte (c : ascii) : N := N_of_ascii c.

Definition is_upper (c : ascii) : bool :=
  let n := N_of_ascii c in (65 <=? n)%N && (n <=? 90)%N.

Definition lower_ascii (c : ascii) : ascii :=
  if is_upper c then ascii_of_N (N_of_ascii c + 32) else c.

(** [s.toLowerCase()] on a string of ASCII characters. *)
Fixpoint ascii_toLowerCase (s : string) : string :=
  match s with
  | EmptyString => EmptyString
  | String c s' => String (lower_ascii c) (ascii_toLowerCase s')
  end.

(** The white space and line terminators of one byte: TAB, LF, VT, FF,
    CR and space. *)
Definition is_space (c : ascii) : bool :=
  let n := N_of_ascii c in ((9 <=? n)%N && (n <=? 13)%N) || (n =? 32)%N.

(** U+00A0, encoded [C2 A0]. *)
Definition is_space2 (a b : ascii) : bool :=
  (byte a =? 194)%N && (byte b =? 160)%N.

(** The white space and line terminators of three bytes: U+1680
    [E1 9A 80]; U+2000 to U+200A [E2 80 80] to [E2 80 8A]; U+2028 and
    U+2029 [E2 80 A8], [E2 80 A9]; U+202F [E2 80 AF]; U+205F [E2 81 9F];
    U+3000 [E3 80 80]; U+FEFF [EF BB BF]. *)
Definition is_space3 (a b c : ascii) : bool :=
  let '(x, y, z) := (byte a, byte b, byte c) in
  ((x =? 225)%N && (y =? 154)%N && (z =? 128)%N)
  || ((x =? 226)%N && (y =? 128)%N
      && (((128 <=? z)%N && (z <=? 138)%N) || (z =? 168)%N || (z =? 169)%N || (z =? 175)%N))
  || ((x =? 226)%N && (y =? 129)%N && (z =? 159)%N)
  || ((x =? 227)%N && (y =? 128)%N && (z =? 128)%N)
  || ((x =? 239)%N && (y =? 187)%N && (z =? 191)%N).

(** [s.trimStart()]: the white space at the head of [s] removed, one
    character of one, two or three bytes at a time. *)
Fixpoint trimStart (s : string) : string :=
  match s with
  | EmptyString => EmptyString
  | String a r1 =>
      if is_space a then trimStart r1
      else
        match r1 with
        | EmptyString => s
        | String b r2 =>
            if is_space2 a b then trimStart r2
            else
              match r2 with
              | EmptyString => s
              | String c r3 => if is_space3 a b c then trimStart r3 else s
              end
        end
  end.

(** [s.trimEnd()]: the longest suffix made of white space removed. A
    suffix that starts inside a character is never made of white space,
    since no white-space character starts with a continuation byte. *)
Fixpoint trimEnd (s : string) : string :=
  match s with
  | EmptyString => EmptyString
  | String c s' => if String.eqb (trimStart s) "" then "" else String c (trimEnd s')
  end.

(** [s.trim()] *)
Definition trim (s : string) : string := trimEnd (trimStart s).

(** [s.length], the number of UTF-16 code units: one for each character
    of one, two or three bytes, two for each character of four bytes
    (lead byte [F0] and above); continuation bytes [80] to [BF] count
    for nothing. *)
Fixpoint code_units (s : string) : nat :=
  match s with
  | EmptyString => 0%nat
  | String c s' =>
      ((if (128 <=? byte c)%N && (byte c <? 192)%N then 0
        else if (240 <=? byte c)%N then 2 else 1) + code_units s')%nat
  end.

(** [s.split(sep)[0]]: the part of [s] before the first [sep]. *)
Fixpoint split_head (sep : ascii) (s : string) : string :=
  match s with
  | EmptyString => EmptyString
  | String c s' => if Ascii.eqb c sep then "" else String c (split_head sep s')
  end.

(** [s.includes(c)] for a one-character needle. *)
Fixpoint includes (c : ascii) (s : string) : bool :=
  match s with
  | EmptyString => false
  | String d s' => Ascii.eqb d c || includes c s'
  end.

(** A request field that may be missing; [!field] holds for a missing
    field and for the empty string. *)
Definition str (o : option string) : string := default "" o.
Definition falsy (o : option string) : bool := String.eqb (str o) "".

End JsString.
Import JsString.

(** What the code takes from the JavaScript engine and cannot be written
    out here: the Unicode case mapping of [String.prototype.toLowerCase],
    and the message of the [TypeError] thrown when the property [p] of
    [undefined] is read. *)
Class JsEngine := {
  toLowerCase : string -> string;
  TypeError_undefined : string -> string;
}.

(* ===================================================================== *)
(** * The credential store                                                *)
(* ===================================================================== *)

Abbreviation ObjectId := N (only parsing).

(** A signed token, [jwt.sign({ id }, secret, { expiresIn })] with the
    default HS256: the string is a function of the payload
    [{ id, iat, exp }] and of the signing secret, so a token is modelled
    by these four values and string equality by equality of records. *)
Record Jwt := mkJwt {
  jwt_id : ObjectId;
  jwt_iat : Z;        (* seconds since the epoch *)
  jwt_exp : Z;
  jwt_key : string;
}.

#[export] Instance Jwt_eq_dec : EqDecision Jwt.
Proof. solve_decision. Defined.

(** The [User] document. Dates are milliseconds since the epoch; a field
    that is [undefined] is [None]. *)
Record User := mkUser {
  fullName : string;
  email : string;
  password : string;                         (* the stored hash *)
  role : string;
  emailVerified : bool;
  emailVerificationToken : option string;
  emailVerificationExpire : option Z;
  passwordResetToken : option string;
  passwordResetExpire : option Z;
  refreshToken : option Jwt;
  loginStreak : option Z;
  lastLoginDate : option Z;
}.

Abbreviation Store := (gmap N User) (only parsing).

(** Modelled from the spec: [models/User.js] is not among the sources.
    The schema defaults are the data model's: [role] defaults to ['user'],
    [emailVerified] to [false], the streak to 0 and every nullable field
    to unset. *)
Definition default_role : string := "user".

(** The cryptographic capabilities the code calls: SHA-256 in hex
    ([crypto.createHash('sha256').update(s).digest('hex')]), the password
    hash applied when a document with a new password is saved, and
    [user.matchPassword(candidate)]. *)
Class Crypto := {
  sha256_hex : string -> string;
  hashPassword : string -> string;
  comparePassword : string -> string -> bool;   (* candidate, stored *)
}.

(** Ids as strings. [_id.toString()] writes an id in hexadecimal; the
    ODM casts the string given to [findById] and its like to an id
    before the query (the id, or the message of the CastError it
    throws), and the cast reads what [toString] wrote. The libraries are
    not among the sources. *)
Class ObjectIds := {
  toString : ObjectId -> string;
  castObjectId : string -> string + ObjectId;
  cast_toString : forall id, castObjectId (toString id) = inr id;
}.

Definition matchPassword `{Crypto} (u : User) (candidate : string) : bool :=
  comparePassword candidate (password u).

(** ** Field updates *)

Definition set_verification (tok : option string) (exp : option Z) (u : User) : User :=
  mkUser (fullName u) (email u) (password u) (role u) (emailVerified u)
         tok exp (passwordResetToken u) (passwordResetExpire u)
         (refreshToken u) (loginStreak u) (lastLoginDate u).

Definition set_emailVerified (b : bool) (u : User) : User :=
  mkUser (fullName u) (email u) (password u) (role u) b
         (emailVerificationToken u) (emailVerificationExpire u)
         (passwordResetToken u) (passwordResetExpire u)
         (refreshToken u) (loginStreak u) (lastLoginDate u).

Definition set_reset (tok : option string) (exp : option Z) (u : User) : User :=
  mkUser (fullName u) (email u) (password u) (role u) (emailVerified u)
         (emailVerificationToken u) (emailVerificationExpire u) tok exp
         (refreshToken u) (loginStreak u) (lastLoginDate u).

Definition set_refreshToken (t : option Jwt) (u : User) : User :=
  mkUser (fullName u) (email u) (password u) (role u) (emailVerified u)
         (emailVerificationToken u) (emailVerificationExpire u)
         (passwordResetToken u) (passwordResetExpire u)
         t (loginStreak u) (lastLoginDate u).

Definition set_login (streak : option Z) (last : option Z) (u : User) : User :=
  mkUser (fullName u) (email u) (password u) (role u) (emailVerified u)
         (emailVerificationToken u) (emailVerificationExpire u)
         (passwordResetToken u) (passwordResetExpire u)
         (refreshToken u) streak last.

Definition set_password (pw : string) (u : User) : User :=
  mkUser (fullName u) (email u) pw (role u) (emailVerified u)
         (emailVerificationToken u) (emailVerificationExpire u)
         (passwordResetToken u) (passwordResetExpire u)
         (refreshToken u) (loginStreak u) (lastLoginDate u).

(** ** Queries *)

(** [User.findOne(filter)]: the first document satisfying the filter. *)
Definition findOne (filter : User -> bool) (s : Store) : option (N * User) :=
  List.find (fun kv => filter (snd kv)) (map_to_list s).

(** [User.findById(id)] *)
Definition findById (id : ObjectId) (s : Store) : option User := s !! id.

(** [user.save()] writes the document back under its [_id]. *)
Definition save (id : ObjectId) (u : User) (s : Store) : Store := <[id := u]> s.

(** [User.findByIdAndDelete(id)] *)
Definition findByIdAndDelete (id : ObjectId) (s : Store) : Store := delete id s.

(** The filters the controllers use. *)
Definition by_email (e : string) (u : User) : bool := String.eqb (email u) e.

Definition opt_is (o : option string) (v : string) : bool :=
  match o with Some x => String.eqb x v | None => false end.

Definition by_verification_token (h : string) (u : User) : bool :=
  opt_is (emailVerificationToken u) h.

Definition expires_after (o : option Z) (now : Z) : bool :=
  match o with Some e => now <? e | None => false end.

Definition by_live_verification_token (h : string) (now : Z) (u : User) : bool :=
  opt_is (emailVerificationToken u) h && expires_after (emailVerificationExpire u) now.

Definition by_live_reset_token (h : string) (now : Z) (u : User) : bool :=
  opt_is (passwordResetToken u) h && expires_after (passwordResetExpire u) now.

(* ===================================================================== *)
(** * Signed tokens ([utils/generateToken])                               *)
(* ===================================================================== *)

(** [process.env]: a variable that is unset is [None]. Expiry spans are
    in seconds (['15m'] is 900, ['7d'] is 604800). *)
Record ProcessEnv := mkProcessEnv {
  JWT_ACCESS_SECRET : option string;
  JWT_REFRESH_SECRET : option string;
  JWT_ACCESS_EXPIRE : option Z;
  JWT_REFRESH_EXPIRE : option Z;
  FRONTEND_URL : option string;
}.

(** [process.env.X || fallback] on strings: unset and empty are falsy. *)
Definition env_or (x : option string) (fallback : string) : string :=
  if falsy x then fallback else str x.

Definition access_secret (P : ProcessEnv) : string :=
  env_or (JWT_ACCESS_SECRET P) "your-access-secret-key".
Definition refresh_secret (P : ProcessEnv) : string :=
  env_or (JWT_REFRESH_SECRET P) "your-refresh-secret-key".
Definition access_expire (P : ProcessEnv) : Z := default 900 (JWT_ACCESS_EXPIRE P).
Definition refresh_expire (P : ProcessEnv) : Z := default 604800 (JWT_REFRESH_EXPIRE P).

(** [jwt.sign(payload, secret, { expiresIn })] at clock [now] (ms): the
    library stamps [iat = floor(now / 1000)] and [exp = iat + expiresIn]. *)
Definition jwt_sign (id : ObjectId) (secret : string) (expiresIn : Z) (now : Z) : Jwt :=
  let iat := now / 1000 in
  mkJwt id iat (iat + expiresIn) secret.

Inductive JwtError := TokenExpiredError | JsonWebTokenError.

(** [jwt.verify(token, secret)]: the decoded payload's [id], or the error
    thrown (bad signature; [exp] not after the clock's second). *)
Definition jwt_verify (tok : Jwt) (secret : string) (now : Z) : JwtError + ObjectId :=
  if String.eqb (jwt_key tok) secret then
    if jwt_exp tok <=? now / 1000 then inl TokenExpiredError else inr (jwt_id tok)
  else inl JsonWebTokenError.

Definition generateAccessToken (P : ProcessEnv) (now : Z) (userId : ObjectId) : Jwt :=
  jwt_sign userId (access_secret P) (access_expire P) now.

Definition generateRefreshToken (P : ProcessEnv) (now : Z) (userId : ObjectId) : Jwt :=
  jwt_sign userId (refresh_secret P) (refresh_expire P) now.

(** [generateTokens(userId)]: the pair [(accessToken, refreshToken)]. *)
Definition generateTokens (P : ProcessEnv) (now : Z) (userId : ObjectId) : Jwt * Jwt :=
  (generateAccessToken P now userId, generateRefreshToken P now userId).

(* ===================================================================== *)
(** * Requests, responses and the environment of a request                *)
(* ===================================================================== *)

(** What one request reads from outside the store. *)
Record Env := mkEnv {
  env_now : Z;                      (* [Date.now()], milliseconds *)
  env_random : string;              (* [crypto.randomBytes(32).toString('hex')] *)
  env_oid : ObjectId;               (* the [_id] the driver generates on create *)
  env_mail_ok : bool;               (* [sendEmail] resolved (true) or threw *)
  env_badge_error : option string;  (* [badgeService.checkConsistent] threw this message *)
}.

(** The [user] object of a response body; the earlier controller omits
    [role]. *)
Record UserView := mkUserView {
  v_id : ObjectId;
  v_fullName : string;
  v_email : string;
  v_emailVerified : bool;
  v_role : option string;
}.

Inductive Data :=
| NoData
| UserData (u : UserView)
| LoginData (u : UserView) (accessToken refreshToken : Jwt)
| TokenData (accessToken refreshToken : Jwt)
| ExpiredFlag.                       (* [expired: true] *)

(** A response: [res.status(n).json({ success, message, data })], or the
    HTML page of [getVerificationPage(success, message, token, req)],
    kept by its arguments. *)
Inductive Body :=
| Json (success : bool) (message : option string) (data : Data)
| VerificationPage (success : option bool) (message : option string) (token : option string).

Record Response := mkResponse { status : Z; body : Body }.

Definition json (st : Z) (ok : bool) (msg : string) : Response :=
  mkResponse st (Json ok (Some msg) NoData).

(** [error.message || fallback] in the catch-all handlers. *)
Definition server_error (msg fallback : string) : Response :=
  json 500 false (if String.eqb msg "" then fallback else msg).

(** The [success] field of a response body. *)
Definition is_success (r : Response) : bool :=
  match body r with
  | Json ok _ _ => ok
  | VerificationPage _ _ _ => false
  end.

Definition view (id : ObjectId) (u : User) : UserView :=
  mkUserView id (fullName u) (email u) (emailVerified u) (Some (role u)).

Definition view_legacy (id : ObjectId) (u : User) : UserView :=
  mkUserView id (fullName u) (email u) (emailVerified u) None.

(** [generateVerificationToken()]: a random plaintext token
    ([crypto.randomBytes(32).toString('hex')]) together with its SHA-256
    hash, as [forgotPassword] does inline for reset tokens. *)
Definition generateVerificationToken `{Crypto} (e : Env) : string * string :=
  (env_random e, sha256_hex (env_random e)).

(** Mongo's error when [create] is given an [_id] already in use. *)
Definition E11000 : string := "E11000 duplicate key error".

(** [User.create(doc)]: the schema defaults fill what [doc] leaves out;
    the password is stored hashed. *)
Definition User_create `{Crypto} (e : Env) (fullName email password role : string)
    (token : string) (expire : Z) (s : Store) : string + (N * User * Store) :=
  let u := mkUser fullName email (hashPassword password) role false
                  (Some token) (Some expire) None None None (Some 0) None in
  match s !! env_oid e with
  | Some _ => inl E11000
  | None => inr (env_oid e, u, <[env_oid e := u]> s)
  end.

(* ===================================================================== *)
(** * [controllers/authController.js]                                     *)
(* ===================================================================== *)

Record RegisterReq := mkRegisterReq {
  r_fullName : option string;
  r_email : option string;
  r_password : option string;
  r_passwordConfirm : option string;
  r_role : option string;
}.

Record LoginReq := mkLoginReq { l_email : option string; l_password : option string }.

Record VerifyReq := mkVerifyReq {
  params_token : string;          (* [req.params.token] *)
  accepts_html : bool;            (* the Accept header includes text/html *)
}.

Record EmailReq := mkEmailReq {
  e_email : option string;
  e_host : option string;         (* [req.get('host')], the Host header *)
}.

Record RefreshReq := mkRefreshReq { rt_refreshToken : option Jwt }.

Record ResetReq := mkResetReq {
  rp_token : option string;
  rp_password : option string;
  rp_passwordConfirm : option string;
}.

Definition day_ms : Z := 24 * 60 * 60 * 1000.
Definition hour_ms : Z := 60 * 60 * 1000.

Definition dquote : string := String (ascii_of_N 34) EmptyString.

Definition role_forbidden_message : string :=
  "You cannot assign roles during registration. All users register with the default "
  ++ dquote ++ "user" ++ dquote ++ " role.".

Module authController.
Section Controller.
Context `{Crypto}.
Context {J : JsEngine}.
Variable P : ProcessEnv.

(** ** register *)
Definition register (e : Env) (req : RegisterReq) (s : Store) : Store * Response :=
  if falsy (r_fullName req) || falsy (r_email req)
     || falsy (r_password req) || falsy (r_passwordConfirm req)
  then (s, json 400 false "Please provide all required fields")
  else if negb (String.eqb (str (r_password req)) (str (r_passwordConfirm req)))
  then (s, json 400 false "Passwords do not match")
  else
    match findOne (by_email (str (r_email req))) s with
    | Some _ => (s, json 400 false "User already exists with this email")
    | None =>
        if negb (falsy (r_role req)) && negb (String.eqb (str (r_role req)) "user")
        then (s, json 403 false role_forbidden_message)
        else
          let '(verificationToken, hashedToken) := generateVerificationToken e in
          match User_create e (str (r_fullName req)) (str (r_email req))
                  (str (r_password req)) "user" hashedToken (env_now e + day_ms) s with
          | inl msg => (s, server_error msg "Server error during registration")
          | inr (id, user, s') =>
              (* the verification email is sent in its own try/catch and
                 its outcome is only logged *)
              (s', mkResponse 201
                     (Json true
                        (Some "Registration successful! Please check your email to verify your account.")
                        (UserData (view id user))))
          end
    end.

(** ** login *)

(** [(now - lastLoginDate) / (1000 * 60 * 60)] *)
Definition hoursSinceLastLogin (now last : Z) : Q :=
  JsNumber.div (inject_Z (now - last)) (inject_Z (1000 * 60 * 60)).

Definition next_streak (now : Z) (user : User) : Z :=
  match lastLoginDate user with
  | None => 1
  | Some last =>
      if Qle_bool (hoursSinceLastLogin now last) 24
      then default 0 (loginStreak user) + 1
      else 1
  end.

Definition login (e : Env) (req : LoginReq) (s : Store) : Store * Response :=
  if falsy (l_email req) || falsy (l_password req)
  then (s, json 400 false "Please provide email and password")
  else
    match findOne (by_email (str (l_email req))) s with
    | None => (s, json 401 false "Invalid credentials")
    | Some (id, user) =>
        if negb (emailVerified user)
        then (s, json 403 false "Please verify your email before logging in")
        else if negb (matchPassword user (str (l_password req)))
        then (s, json 401 false "Invalid credentials")
        else
          let now := env_now e in
          let user1 := set_login (Some (next_streak now user)) (Some now) user in
          match env_badge_error e with
          | Some msg => (s, server_error msg "Server error during login")
          | None =>
              let '(accessToken, newToken) := generateTokens P now id in
              let user2 := set_refreshToken (Some newToken) user1 in
              (save id user2 s,
               mkResponse 200
                 (Json true (Some "Login successful")
                    (LoginData (view id user2) accessToken newToken)))
          end
    end.

(** ** verifyEmail *)
Definition question_mark : ascii := ascii_of_N 63.

Definition verifyEmail (e : Env) (req : VerifyReq) (s : Store) : Store * Response :=
  let token :=
    if negb (String.eqb (params_token req) "") && includes question_mark (params_token req)
    then split_head question_mark (params_token req)
    else params_token req in
  let missing := String.eqb token "" || String.eqb (trim token) "" in
  if accepts_html req then
    if missing
    then (s, mkResponse 400
               (VerificationPage (Some false) (Some "Verification token is required.") None))
    else (s, mkResponse 200 (VerificationPage None None (Some token)))
  else if missing
  then (s, json 400 false "Verification token is required")
  else
    let hashedToken := sha256_hex (trim token) in
    match findOne (by_verification_token hashedToken) s with
    | None =>
        (s, json 400 false
              "Invalid verification token. The token may be incorrect or already used.")
    | Some (id, user) =>
        if match emailVerificationExpire user with
           | Some exp => exp <? env_now e
           | None => false
           end
        then (s, json 400 false
                   "Verification token has expired. Please request a new verification email.")
        else if emailVerified user
        then (s, json 200 true "Email is already verified")
        else
          (save id (set_verification None None (set_emailVerified true user)) s,
           json 200 true "Email verified successfully")
    end.

(** ** resendVerification *)
Definition resendVerification (e : Env) (req : EmailReq) (s : Store) : Store * Response :=
  if falsy (e_email req)
  then (s, json 400 false "Email is required")
  else
    match findOne (by_email (toLowerCase (str (e_email req)))) s with
    | None =>
        (s, json 200 true
              "If an account exists with this email, a verification email has been sent.")
    | Some (id, user) =>
        if emailVerified user
        then (s, json 400 false "Email is already verified")
        else
          let '(verificationToken, hashedToken) := generateVerificationToken e in
          let s' := save id (set_verification (Some hashedToken)
                               (Some (env_now e + day_ms)) user) s in
          if env_mail_ok e
          then (s', json 200 true
                      "Verification email sent successfully. Please check your email.")
          else (s', json 500 false
                      "Failed to send verification email. Please try again later.")
    end.

(** ** refreshToken *)
Definition refreshToken (e : Env) (req : RefreshReq) (s : Store) : Store * Response :=
  match rt_refreshToken req with
  | None => (s, json 400 false "Refresh token is required")
  | Some presented =>
      match jwt_verify presented (refresh_secret P) (env_now e) with
      | inl _ => (s, json 401 false "Invalid or expired refresh token")
      | inr decoded_id =>
          match findById decoded_id s with
          | None => (s, json 401 false "Invalid refresh token")
          | Some user =>
              if negb (bool_decide (refreshToken user = Some presented))
              then (s, json 401 false "Invalid refresh token")
              else
                let '(accessToken, newRefreshToken) :=
                  generateTokens P (env_now e) decoded_id in
                (save decoded_id (set_refreshToken (Some newRefreshToken) user) s,
                 mkResponse 200 (Json true None (TokenData accessToken newRefreshToken)))
          end
      end
  end.

(** ** logout, for the authenticated user [req.user._id] *)
Definition logout (user_id : ObjectId) (s : Store) : Store * Response :=
  let s' :=
    match findById user_id s with
    | Some user => save user_id (set_refreshToken None user) s
    | None => s
    end in
  (s', json 200 true "Logged out successfully").

(** ** forgotPassword *)

(** [process.env.FRONTEND_URL || `${req.protocol}://${req.get('host').replace(':3000', '')}`]
    evaluates: the variable is set, or there is a Host header to call
    [replace] on. *)
Definition reset_link_builds (req : EmailReq) : bool :=
  negb (falsy (FRONTEND_URL P)) || bool_decide (is_Some (e_host req)).

Definition forgotPassword (e : Env) (req : EmailReq) (s : Store) : Store * Response :=
  if falsy (e_email req)
  then (s, json 400 false "Email is required")
  else
    match findOne (by_email (toLowerCase (str (e_email req)))) s with
    | None =>
        (s, json 200 true
              "If an account exists with this email, a password reset link has been sent.")
    | Some (id, user) =>
        let resetToken := env_random e in
        let hashedToken := sha256_hex resetToken in
        let user1 := set_reset (Some hashedToken) (Some (env_now e + hour_ms)) user in
        let s1 := save id user1 s in
        if reset_link_builds req
        then
          if env_mail_ok e
          then (s1, json 200 true
                      "If an account exists with this email, a password reset link has been sent.")
          else
            (* clear the reset token if the email fails *)
            (save id (set_reset None None user1) s1,
             json 500 false "Failed to send password reset email. Please try again later.")
        else
          (* [undefined.replace] throws after the save and outside the
             inner [try]: the catch-all handler answers *)
          (s1, server_error (TypeError_undefined "replace")
                 "Server error during password reset request")
    end.

(** ** resetPassword *)
Definition resetPassword (e : Env) (req : ResetReq) (s : Store) : Store * Response :=
  if falsy (rp_token req) || falsy (rp_password req) || falsy (rp_passwordConfirm req)
  then (s, json 400 false "Please provide token, password, and password confirmation")
  else if negb (String.eqb (str (rp_password req)) (str (rp_passwordConfirm req)))
  then (s, json 400 false "Passwords do not match")
  else if (code_units (str (rp_password req)) <? 6)%nat
  then (s, json 400 false "Password must be at least 6 characters")
  else
    let hashedToken := sha256_hex (trim (str (rp_token req))) in
    match findOne (by_live_reset_token hashedToken (env_now e)) s with
    | None => (s, json 400 false "Invalid or expired password reset token")
    | Some (id, user) =>
        (save id (set_reset None None (set_password (hashPassword (str (rp_password req))) user)) s,
         json 200 true "Password reset successfully")
    end.

(** ** [middleware/auth.js]: protect

    The bearer token of the Authorization header, if any; the result is
    the response that ends the request or the user put in [req.user]. *)
Definition protect (e : Env) (bearer : option Jwt) (s : Store) : Response + (N * User) :=
  match bearer with
  | None => inl (json 401 false "Not authorized to access this route")
  | Some token =>
      match jwt_verify token (access_secret P) (env_now e) with
      | inr id =>
          match findById id s with
          | Some user => inr (id, user)
          | None => inl (json 401 false "User not found")
          end
      | inl TokenExpiredError =>
          inl (mkResponse 401
                 (Json false (Some "Token expired. Please refresh your session.") ExpiredFlag))
      | inl JsonWebTokenError => inl (json 401 false "Not authorized to access this route")
      end
  end.

(** ** The service as a whole *)
Inductive Request :=
| Register (req : RegisterReq)
| Login (req : LoginReq)
| VerifyEmail (req : VerifyReq)
| ResendVerification (req : EmailReq)
| RefreshToken (req : RefreshReq)
| Logout (bearer : option Jwt)
| ForgotPassword (req : EmailReq)
| ResetPassword (req : ResetReq).

Definition handle (e : Env) (r : Request) (s : Store) : Store * Response :=
  match r with
  | Register req => register e req s
  | Login req => login e req s
  | VerifyEmail req => verifyEmail e req s
  | ResendVerification req => resendVerification e req s
  | RefreshToken req => refreshToken e req s
  | Logout bearer =>
      match protect e bearer s with
      | inl resp => (s, resp)
      | inr (id, _) => logout id s
      end
  | ForgotPassword req => forgotPassword e req s
  | ResetPassword req => resetPassword e req s
  end.

(** A run: the requests served one after the other, each with the
    environment it met. *)
Fixpoint run (trace : list (Env * Request)) (s : Store) : Store :=
  match trace with
  | [] => s
  | (e, r) :: rest => run rest (fst (handle e r s))
  end.

End Controller.
End authController.

(** ** The earlier controller

    The source keeps a second, earlier [authController.js] with
    [register], [login] and [verifyEmail] only. *)
Module authController_legacy.
Section Controller.
Context `{Crypto}.
Variable P : ProcessEnv.

Definition register (e : Env) (req : RegisterReq) (s : Store) : Store * Response :=
  if falsy (r_fullName req) || falsy (r_email req)
     || falsy (r_password req) || falsy (r_passwordConfirm req)
  then (s, json 400 false "Please provide all required fields")
  else if negb (String.eqb (str (r_password req)) (str (r_passwordConfirm req)))
  then (s, json 400 false "Passwords do not match")
  else
    match findOne (by_email (str (r_email req))) s with
    | Some _ => (s, json 400 false "User already exists with this email")
    | None =>
        let '(verificationToken, hashedToken) := generateVerificationToken e in
        (* no role is passed: the schema default applies *)
        match User_create e (str (r_fullName req)) (str (r_email req))
                (str (r_password req)) default_role hashedToken (env_now e + day_ms) s with
        | inl msg => (s, server_error msg "Server error during registration")
        | inr (id, user, s') =>
            if env_mail_ok e
            then (s', mkResponse 201
                        (Json true
                           (Some "Registration successful! Please check your email to verify your account.")
                           (UserData (view_legacy id user))))
            else (findByIdAndDelete id s',
                  json 500 false "Registration failed. Could not send verification email.")
        end
    end.

Definition login (e : Env) (req : LoginReq) (s : Store) : Store * Response :=
  if falsy (l_email req) || falsy (l_password req)
  then (s, json 400 false "Please provide email and password")
  else
    match findOne (by_email (str (l_email req))) s with
    | None => (s, json 401 false "Invalid credentials")
    | Some (id, user) =>
        if negb (emailVerified user)
        then (s, json 403 false "Please verify your email before logging in")
        else if negb (matchPassword user (str (l_password req)))
        then (s, json 401 false "Invalid credentials")
        else
          let '(accessToken, newToken) := generateTokens P (env_now e) id in
          let user1 := set_refreshToken (Some newToken) user in
          (save id user1 s,
           mkResponse 200
             (Json true (Some "Login successful")
                (LoginData (view_legacy id user1) accessToken newToken)))
    end.

Definition verifyEmail (e : Env) (token : string) (s : Store) : Store * Response :=
  let hashedToken := sha256_hex token in
  match findOne (by_live_verification_token hashedToken (env_now e)) s with
  | None => (s, json 400 false "Invalid or expired verification token")
  | Some (id, user) =>
      (save id (set_verification None None (set_emailVerified true user)) s,
       json 200 true "Email verified successfully")
  end.

End Controller.
End authController_legacy.

(* ===================================================================== *)
(** * [models/CourseProgress.js]                                          *)
(* ===================================================================== *)

Module CourseProgress.

Record t := mk {
  userId : ObjectId;
  courseId : ObjectId;
  progress : Z;
  completedLessons : list Z;
  currentLesson : Z;
  startedAt : Z;
  lastAccessedAt : Z;
  completedAt : option Z;
}.

(** The schema's validators on [progress]: [min: 0], [max: 100]. *)
Definition progress_valid (this : t) : bool :=
  (0 <=? progress this) && (progress this <=? 100).

(** What the method can throw. *)
Inductive Thrown := RangeError.      (* Invalid array length *)

(** The integers 0, 1, ..., n - 1 (none for [n <= 0]). *)
Definition range (n : Z) : list Z := List.map Z.of_nat (seq 0 (Z.to_nat n)).

(** The largest length of an array, 2^32 - 1. *)
Definition max_array_length : Z := 4294967295.

(** [Array.from({ length: n }, (_, i) => i)] for an integer [n]: a
    negative length counts as 0, and a length above 2^32 - 1 makes the
    array constructor throw. *)
Definition Array_from_length (n : Z) : Thrown + list Z :=
  if max_array_length <? n then inl RangeError else inr (range n).

(** [totalLessons > 0
      ? Math.round((completedLessonsCount / totalLessons) * 100) : 0] *)
Definition percentage (completedLessonsCount totalLessons : Z) : Z :=
  if 0 <? totalLessons
  then JsNumber.Math_round
         (JsNumber.mul (JsNumber.div (inject_Z completedLessonsCount)
                                     (inject_Z totalLessons))
                       100)
  else 0.

(** [updateProgress], called at clock [now]: the error thrown by the
    first statement, before any field is assigned, or the document
    handed to [save]. *)
Definition updateProgress (now : Z) (completedLessonsCount totalLessons : Z) (this : t)
  : Thrown + t :=
  match Array_from_length completedLessonsCount with
  | inl error => inl error
  | inr completedLessons' =>
      let progress' := percentage completedLessonsCount totalLessons in
      let completedAt' :=
        if (progress' =? 100) && negb (bool_decide (is_Some (completedAt this)))
        then Some now
        else completedAt this in
      inr (mk (userId this) (courseId this) progress' completedLessons'
              (currentLesson this) (startedAt this) now completedAt')
  end.

(** A call of [updateProgress]: the clock and the two arguments. *)
Record Call := mkCall { at_clock : Z; completedLessonsCount : Z; totalLessons : Z }.

(** The document after a call: as it was when the call threw. *)
Definition apply_call (this : t) (c : Call) : t :=
  match updateProgress (at_clock c) (completedLessonsCount c) (totalLessons c) this with
  | inr updated => updated
  | inl _ => this
  end.

(** The document after a sequence of calls. *)
Definition updates (calls : list Call) (this : t) : t :=
  fold_left apply_call calls this.

End CourseProgress.

(* ===================================================================== *)
(** * Requests that pass input validation                                 *)
(* ===================================================================== *)

(** A login request that passes the presence check on its two fields. *)
Definition login_fields_present (req : LoginReq) : Prop :=
  falsy (l_email req) = false /\ falsy (l_password req) = false.

(** A registration request with its four fields present and the password
    typed twice the same. *)
Definition register_fields_valid (req : RegisterReq) : Prop :=
  falsy (r_fullName req) = false /\ falsy (r_email req) = false
  /\ falsy (r_password req) = false /\ falsy (r_passwordConfirm req) = false
  /\ str (r_password req) = str (r_passwordConfirm req).

(** A reset request with its three fields present, the password typed
    twice the same and long enough. *)
Definition reset_fields_valid (req : ResetReq) : Prop :=
  falsy (rp_token req) = false /\ falsy (rp_password req) = false
  /\ falsy (rp_passwordConfirm req) = false
  /\ str (rp_password req) = str (rp_passwordConfirm req)
  /\ (6 <= code_units (str (rp_password req)))%nat.

(** The token a verification request carries after the query string is
    cut off, and the check that one was given. *)
Definition verify_token (req : VerifyReq) : string :=
  trim (split_head authController.question_mark (params_token req)).

(** The specification's [Delta]: the exact number of hours between the
    clock [now] and the previous login [last] (both in milliseconds). *)
Definition delta_hours (now last : Z) : Q := (inject_Z (now - last) / 3600000)%Q.

(** How many documents hold the verification hash [h]. Tokens are 32
    random bytes, so a hash is held by one document at most. *)
Definition verification_hash_holders (h : string) (s : Store) : nat :=
  length (List.filter (fun kv => by_verification_token h (snd kv)) (map_to_list s)).

(** The reset hash of a document is [h], whatever its expiry. *)
Definition by_reset_token (h : string) (u : User) : bool :=
  opt_is (passwordResetToken u) h.

(** The token [tok] is not the refresh token stored for the user it
    names. *)
Definition stale (tok : Jwt) (s : Store) : Prop :=
  forall u, s !! jwt_id tok = Some u -> refreshToken u <> Some tok.

Definition without_role (req : RegisterReq) : RegisterReq :=
  mkRegisterReq (r_fullName req) (r_email req) (r_password req) (r_passwordConfirm req) None.

(* ===================================================================== *)
(** * Sample data                                                         *)
(* ===================================================================== *)

(** A stand-in for the hash functions, used where a property is
    exercised on concrete data. *)
Module Sample.

Definition crypto : Crypto := {|
  sha256_hex := fun s => "sha256:" ++ s;
  hashPassword := fun s => "bcrypt:" ++ s;
  comparePassword := fun candidate stored => String.eqb ("bcrypt:" ++ candidate) stored;
|}.

Definition penv : ProcessEnv := mkProcessEnv None None None None None.

(** With [FRONTEND_URL] set. *)
Definition penv_front : ProcessEnv :=
  mkProcessEnv None None None None (Some "https://eduwave.example").

(** The engine on ASCII strings, with V8's message. *)
Definition engine : JsEngine := {|
  toLowerCase := ascii_toLowerCase;
  TypeError_undefined := fun p =>
    "Cannot read properties of undefined (reading '" ++ p ++ "')";
|}.

Definition env (now : Z) (mail_ok : bool) : Env :=
  mkEnv now "c0ffee" 7%N mail_ok None.

(** The digits of [id] in hexadecimal, lower case, none for 0. *)
Definition hex_digits (id : ObjectId) : string :=
  match id with
  | N0 => ""
  | Npos p => HexString.Raw.of_pos p ""
  end.

(** [rest] after [n] digits 0. *)
Fixpoint zeros (n : nat) (rest : string) : string :=
  match n with
  | O => rest
  | S n' => String "0" (zeros n' rest)
  end.

(** [ObjectId.prototype.toString]: 24 hexadecimal digits. *)
Definition hex24 (id : ObjectId) : string :=
  zeros (24 - String.length (hex_digits id)) (hex_digits id).

(** The cast of a string that spells an id in hexadecimal, in either
    case. *)
Definition cast_hex24 (p : string) : string + ObjectId :=
  let id := HexString.Raw.to_N p 0%N in
  if String.eqb (ascii_toLowerCase p) (hex24 id)
  then inr id
  else inl ("Cast to ObjectId failed for value " ++ p).

(** Ids written as 24 hexadecimal digits and read back in either case. *)
Definition ids : ObjectIds.
Proof.
  refine {| toString := hex24; castObjectId := cast_hex24; cast_toString := _ |}.
  assert (Hlow : forall p rest,
             ascii_toLowerCase (HexString.Raw.of_pos p rest)
             = HexString.Raw.of_pos p (ascii_toLowerCase rest)).
  { fix IH 1. intros p rest.
    do 4 try destruct p as [p | p |]; cbn [HexString.Raw.of_pos];
      try rewrite IH; reflexivity. }
  assert (Hzlow : forall n rest,
             ascii_toLowerCase (zeros n rest) = zeros n (ascii_toLowerCase rest)).
  { induction n as [| n IHn]; intros rest; cbn; [| rewrite IHn]; reflexivity. }
  assert (Hzparse : forall n rest, HexString.Raw.to_N (zeros n rest) 0%N
                                   = HexString.Raw.to_N rest 0%N).
  { induction n as [| n IHn]; intros rest; cbn; [| rewrite IHn]; reflexivity. }
  assert (Hparse : forall id, HexString.Raw.to_N (hex_digits id) 0%N = id).
  { intros [| p]; [reflexivity |]. cbn. rewrite HexString.Raw.to_N_of_pos. reflexivity. }
  intros id. unfold cast_hex24, hex24.
  rewrite Hzparse, Hparse, Hzlow.
  assert (Hd : ascii_toLowerCase (hex_digits id) = hex_digits id).
  { destruct id as [| p]; [reflexivity |]. cbn. rewrite Hlow. reflexivity. }
  rewrite Hd, String.eqb_refl. reflexivity.
Defined.

(** Ada: verified, logged in at clock 1000 ms, streak 5. *)
Definition ada_token : Jwt := generateRefreshToken penv 1000 1%N.

Definition ada : User :=
  mkUser "Ada" "ada@example.com" "bcrypt:secret1" "user" true
         None None None None (Some ada_token) (Some 5) (Some 1000).

(** Bob: registered, not verified; verification token [tok-b] valid
    until 5000. *)
Definition bob : User :=
  mkUser "Bob" "bob@example.com" "bcrypt:secret2" "user" false
         (Some "sha256:tok-b") (Some 5000) None None None (Some 0) None.

(** Cy: verified; asked for a password reset with token [tok-c], valid
    until 9000. *)
Definition cy : User :=
  mkUser "Cy" "cy@example.com" "bcrypt:secret3" "user" true
         None None (Some "sha256:tok-c") (Some 9000) None (Some 0) None.

Definition store : gmap N User :=
  <[3%N := cy]> (<[2%N := bob]> (<[1%N := ada]> ∅)).

(** A course of four lessons just started, and one completed at clock
    300. *)
Definition course : CourseProgress.t :=
  CourseProgress.mk 1%N 10%N 0 [] 0 100 100 None.

Definition course_done : CourseProgress.t :=
  CourseProgress.mk 1%N 10%N 100 [0; 1; 2; 3] 3 100 300 (Some 300).

End Sample.

(* ===================================================================== *)
(** * [middleware/auth.js]: optionalAuth and authorize                    *)
(* ===================================================================== *)

Module auth.
Section Middleware.
Variable P : ProcessEnv.

(** [optionalAuth]: what the handler finds in [req.user]; the request
    always goes on. *)
Definition optionalAuth (e : Env) (bearer : option Jwt) (s : Store) : option (N * User) :=
  match bearer with
  | None => None
  | Some token =>
      match jwt_verify token (access_secret P) (env_now e) with
      | inr id =>
          match findById id s with
          | Some user => Some (id, user)
          | None => None
          end
      | inl _ => None
      end
  end.

(** [authorize(...roles)]: the response that ends the request, or [None]
    when [next()] is called. *)
Definition authorize (roles : list string) (req_user : option (N * User)) : option Response :=
  match req_user with
  | None => Some (json 401 false "Not authorized to access this route")
  | Some (_, user) =>
      if existsb (String.eqb (role user)) roles
      then None
      else Some (json 403 false
                   ("User role '" ++ role user
                    ++ "' is not authorized to access this route. Required roles: "
                    ++ String.concat ", " roles))
  end.

(** A route declared as [protect, authorize(...roles), handler]: the
    response that ends the request before the handler, or the user the
    handler runs for. *)
Definition guard (roles : list string) (e : Env) (bearer : option Jwt) (s : Store)
  : Response + (N * User) :=
  match authController.protect P e bearer s with
  | inl resp => inl resp
  | inr actor =>
      match authorize roles (Some actor) with
      | Some resp => inl resp
      | None => inr actor
      end
  end.

End Middleware.
End auth.

(* ===================================================================== *)
(** * [utils/sendEmail.js], the Resend transport with validation          *)
(* ===================================================================== *)

Module sendEmail.

Record MailEnv := mkMailEnv {
  RESEND_API_KEY : option string;
  FROM_EMAIL : option string;
  FROM_NAME : option string;
}.

Record Options := mkOptions {
  o_email : option string;
  o_subject : option string;
  o_html : option string;
}.

(** The message handed to [resend.emails.send]. *)
Record OutMail := mkOutMail {
  m_from : string;
  m_to : string;
  m_subject : string;
  m_html : string;
}.

Definition lt_sign : ascii := ascii_of_N 60.
Definition gt_sign : ascii := ascii_of_N 62.
Definition at_sign : ascii := ascii_of_N 64.

(** [formatFromEmail(email, name)] *)
Definition formatFromEmail (email : option string) (name : string) : string :=
  if falsy email then name ++ " <onboarding@resend.dev>"
  else if includes lt_sign (str email) && includes gt_sign (str email) then str email
  else if includes at_sign (str email) then name ++ " <" ++ str email ++ ">"
  else name ++ " <onboarding@resend.dev>".

(** [sendEmail(options)]: the message of the error thrown, or the
    [messageId] returned. The provider answers [{ data, error }]: an error
    message, or the id of the message when it gives one. *)
Definition sendEmail (E : MailEnv) (resend : OutMail -> string + option string)
    (options : Options) : string + string :=
  if falsy (RESEND_API_KEY E)
  then inl "RESEND_API_KEY not set. Email sending disabled. Please set RESEND_API_KEY in your .env file."
  else if falsy (o_email options) || negb (includes at_sign (str (o_email options)))
  then inl "Invalid email address"
  else if falsy (o_subject options)
  then inl "Email subject is required"
  else if falsy (o_html options)
  then inl "Email HTML content is required"
  else
    let fromEmail := formatFromEmail (FROM_EMAIL E) (env_or (FROM_NAME E) "EduWave") in
    match resend (mkOutMail fromEmail (str (o_email options))
                    (str (o_subject options)) (str (o_html options))) with
    | inl message => inl ("Resend API error: " ++ message)
    | inr data_id => inr (env_or data_id "unknown")
    end.

End sendEmail.

(* ===================================================================== *)
(** * The user routes ([/api/users])                                      *)
(* ===================================================================== *)

Module userRoutes.

(** The [data] of a response. A document goes through
    [select('-password -refreshToken -emailVerificationToken')] first. *)
Inductive Payload :=
| NoPayload
| OneUser (id : ObjectId) (user : User)
| ManyUsers (count : nat) (users : list (N * User))
| RoleOf (id : ObjectId) (fullName email role : string).

(** A response: the one of [protect] or [authorize] when they end the
    request, or [res.status(n).json({ success, message, data })]. *)
Inductive Reply :=
| Refused (r : Response)
| Answer (status : Z) (success : bool) (message : option string) (data : Payload).

Definition replied_ok (r : Reply) : bool :=
  match r with
  | Refused _ => false
  | Answer _ ok _ _ => ok
  end.

(** The excluded fields are absent from the document returned (an absent
    password is the empty string here). *)
Definition select_public (u : User) : User :=
  set_password "" (set_refreshToken None
    (set_verification None (emailVerificationExpire u) u)).

Definition set_profile (fn em : string) (u : User) : User :=
  mkUser fn em (password u) (role u) (emailVerified u)
         (emailVerificationToken u) (emailVerificationExpire u)
         (passwordResetToken u) (passwordResetExpire u)
         (refreshToken u) (loginStreak u) (lastLoginDate u).

Definition set_role (r : string) (u : User) : User :=
  mkUser (fullName u) (email u) (password u) r (emailVerified u)
         (emailVerificationToken u) (emailVerificationExpire u)
         (passwordResetToken u) (passwordResetExpire u)
         (refreshToken u) (loginStreak u) (lastLoginDate u).

(** [['user', 'instructor', 'admin'].includes(role)] *)
Definition known_role (r : string) : bool :=
  existsb (String.eqb r) ["user"; "instructor"; "admin"].

Record CreateBody := mkCreateBody {
  c_fullName : option string;
  c_email : option string;
  c_password : option string;
  c_role : option string;
}.

Record UpdateBody := mkUpdateBody {
  u_fullName : option string;
  u_email : option string;
  u_role : option string;
}.

Section Routes.
Context `{Crypto}.
Context {D : ObjectIds}.
Variable P : ProcessEnv.

(** What the ODM makes of the update [{ fullName, email }] on the
    document [id], either key possibly [undefined], with
    [runValidators]: the error it throws, or the two values a document
    found gets from its own. This depends on the schema and on the ODM,
    which are not among the sources. *)
Variable odm_profile :
  Store -> ObjectId -> option string -> option string -> string + (User -> string * string).

(** GET /me *)
Definition getMe (actor : N * User) (s : Store) : Reply :=
  match findById (fst actor) s with
  | None => Answer 404 false (Some "User not found") NoPayload
  | Some user => Answer 200 true None (OneUser (fst actor) (select_public user))
  end.

(** GET / *)
Definition listUsers (s : Store) : Reply :=
  let users := List.map (fun kv => (fst kv, select_public (snd kv))) (map_to_list s) in
  Answer 200 true None (ManyUsers (length users) users).

(** GET /:id, with [req.params.id] *)
Definition getUser (actor : N * User) (params_id : string) (s : Store) : Reply :=
  match castObjectId params_id with
  | inl message => Answer 500 false (Some message) NoPayload
  | inr id =>
      match findById id s with
      | None => Answer 404 false (Some "User not found") NoPayload
      | Some user =>
          if negb (String.eqb (role (snd actor)) "admin")
             && negb (String.eqb (role (snd actor)) "instructor")
             && negb (String.eqb (toString (fst actor)) params_id)
          then Answer 403 false (Some "Not authorized to view this user profile") NoPayload
          else Answer 200 true None (OneUser id (select_public user))
      end
  end.

(** POST / *)
Definition createUser (e : Env) (body : CreateBody) (s : Store) : Store * Reply :=
  if falsy (c_fullName body) || falsy (c_email body) || falsy (c_password body)
  then (s, Answer 400 false (Some "Please provide fullName, email, and password") NoPayload)
  else if negb (falsy (c_role body)) && negb (known_role (str (c_role body)))
  then (s, Answer 400 false
             (Some "Invalid role. Must be one of: user, instructor, admin") NoPayload)
  else
    match findOne (by_email (str (c_email body))) s with
    | Some _ => (s, Answer 400 false (Some "User already exists with this email") NoPayload)
    | None =>
        let newUser :=
          mkUser (str (c_fullName body)) (str (c_email body))
                 (hashPassword (str (c_password body)))
                 (env_or (c_role body) "user")
                 true None None None None None (Some 0) None in
        match s !! env_oid e with
        | Some _ => (s, Answer 400 false (Some E11000) NoPayload)
        | None =>
            (<[env_oid e := newUser]> s,
             Answer 201 true None (OneUser (env_oid e) (select_public newUser)))
        end
    end.

(** PUT /:id, with [req.params.id] *)
Definition updateUser (actor : N * User) (params_id : string) (body : UpdateBody) (s : Store)
  : Store * Reply :=
  if negb (String.eqb (role (snd actor)) "admin")
     && negb (String.eqb (toString (fst actor)) params_id)
  then (s, Answer 403 false (Some "Not authorized to update this user profile") NoPayload)
  else
    let wants_role := String.eqb (role (snd actor)) "admin" && negb (falsy (u_role body)) in
    if wants_role && negb (known_role (str (u_role body)))
    then (s, Answer 400 false
               (Some "Invalid role. Must be one of: user, instructor, admin") NoPayload)
    else
      match castObjectId params_id with
      | inl message => (s, Answer 400 false (Some message) NoPayload)
      | inr id =>
          match odm_profile s id (u_fullName body) (u_email body) with
          | inl message => (s, Answer 400 false (Some message) NoPayload)
          | inr values =>
              match findById id s with
              | None => (s, Answer 404 false (Some "User not found") NoPayload)
              | Some user =>
                  let user1 := set_profile (fst (values user)) (snd (values user)) user in
                  let user2 :=
                    if wants_role then set_role (str (u_role body)) user1 else user1 in
                  (save id user2 s, Answer 200 true None (OneUser id (select_public user2)))
              end
          end
      end.

(** PUT /:id/role, with [req.params.id] *)
Definition updateRole (params_id : string) (new_role : option string) (s : Store)
  : Store * Reply :=
  if falsy new_role || negb (known_role (str new_role))
  then (s, Answer 400 false (Some "Valid role (user, instructor, admin) is required") NoPayload)
  else
    match castObjectId params_id with
    | inl message => (s, Answer 400 false (Some message) NoPayload)
    | inr id =>
        match findById id s with
        | None => (s, Answer 404 false (Some "User not found") NoPayload)
        | Some user =>
            let user1 := set_role (str new_role) user in
            (save id user1 s,
             Answer 200 true (Some "User role updated successfully")
               (RoleOf id (fullName user1) (email user1) (role user1)))
        end
    end.

(** DELETE /:id, with [req.params.id] *)
Definition deleteUser (actor : N * User) (params_id : string) (s : Store) : Store * Reply :=
  if String.eqb (toString (fst actor)) params_id
  then (s, Answer 400 false (Some "You cannot delete your own account") NoPayload)
  else
    match castObjectId params_id with
    | inl message => (s, Answer 500 false (Some message) NoPayload)
    | inr id =>
        match findById id s with
        | None => (s, Answer 404 false (Some "User not found") NoPayload)
        | Some _ =>
            (findByIdAndDelete id s,
             Answer 200 true (Some "User deleted successfully") NoPayload)
        end
    end.

(** The router: each route with its middleware. *)
Inductive Route :=
| GetMe
| ListUsers
| GetUser (params_id : string)
| CreateUser (body : CreateBody)
| UpdateUser (params_id : string) (body : UpdateBody)
| UpdateRole (params_id : string) (new_role : option string)
| DeleteUser (params_id : string).

Definition roles_allowed (r : Route) : option (list string) :=
  match r with
  | ListUsers => Some ["admin"; "instructor"]
  | CreateUser _ | UpdateRole _ _ | DeleteUser _ => Some ["admin"]
  | GetMe | GetUser _ | UpdateUser _ _ => None
  end.

Definition serve (e : Env) (bearer : option Jwt) (r : Route) (s : Store) : Store * Reply :=
  let admitted :=
    match roles_allowed r with
    | Some roles => auth.guard P roles e bearer s
    | None => authController.protect P e bearer s
    end in
  match admitted with
  | inl resp => (s, Refused resp)
  | inr actor =>
      match r with
      | GetMe => (s, getMe actor s)
      | ListUsers => (s, listUsers s)
      | GetUser id => (s, getUser actor id s)
      | CreateUser body => createUser e body s
      | UpdateUser id body => updateUser actor id body s
      | UpdateRole id new_role => updateRole id new_role s
      | DeleteUser id => deleteUser actor id s
      end
  end.

End Routes.
End userRoutes.

(* ===================================================================== *)
(** * What a request can do to the store                                  *)
(* ===================================================================== *)

(** The changes the controller makes to a document it has found. *)
Inductive lifecycle_update (u : User) : User -> Prop :=
| lu_login streak last tok :
    emailVerified u = true ->
    lifecycle_update u (set_refreshToken (Some tok) (set_login (Some streak) (Some last) u))
| lu_session tok :
    lifecycle_update u (set_refreshToken tok u)
| lu_verify :
    emailVerified u = false ->
    lifecycle_update u (set_verification None None (set_emailVerified true u))
| lu_resend h t :
    emailVerified u = false ->
    lifecycle_update u (set_verification (Some h) (Some t) u)
| lu_reset_issue h t :
    lifecycle_update u (set_reset (Some h) (Some t) u)
| lu_reset_clear :
    lifecycle_update u (set_reset None None u)
| lu_password p :
    lifecycle_update u (set_reset None None (set_password p u)).

(** A document as [register] creates it. *)
Definition newly_registered (u : User) : Prop :=
  role u = "user" /\ emailVerified u = false
  /\ is_Some (emailVerificationToken u) /\ is_Some (emailVerificationExpire u)
  /\ passwordResetToken u = None /\ passwordResetExpire u = None
  /\ refreshToken u = None.

(** The store after a request: unchanged, one document changed, or one
    document added under a new [_id] and with an email no document had. *)
Inductive step_shape (s s' : Store) : Prop :=
| shape_same : s' = s -> step_shape s s'
| shape_update id u u' :
    s !! id = Some u -> lifecycle_update u u' -> s' = <[id := u']> s -> step_shape s s'
| shape_create id u' :
    s !! id = None -> newly_registered u' ->
    (forall id0 u0, s !! id0 = Some u0 -> email u0 <> email u') ->
    s' = <[id := u']> s -> step_shape s s'.

(** A verified document holds no verification token. *)
Definition verified_means_cleared (s : Store) : Prop :=
  forall id u, s !! id = Some u -> emailVerified u = true ->
               emailVerificationToken u = None /\ emailVerificationExpire u = None.

(** A token hash and its expiry are set together or not at all. *)
Definition pairs_together (s : Store) : Prop :=
  forall id u, s !! id = Some u ->
    (is_Some (emailVerificationToken u) <-> is_Some (emailVerificationExpire u))
    /\ (is_Some (passwordResetToken u) <-> is_Some (passwordResetExpire u)).

(** No two documents have the same email. *)
Definition emails_distinct (s : Store) : Prop :=
  forall id1 id2 u1 u2, s !! id1 = Some u1 -> s !! id2 = Some u2 ->
                        email u1 = email u2 -> id1 = id2.

(** Every role is one of the three the routes accept. *)
Definition roles_known (s : Store) : Prop :=
  forall id u, s !! id = Some u -> userRoutes.known_role (role u) = true.

(** A random token as the generators make it: not empty, no white space
    around it, no question mark in it. *)
Definition clean_token (t : string) : Prop :=
  t <> "" /\ trim t = t /\ includes authController.question_mark t = false.

(** The password check accepts the password that was hashed. *)
Definition password_law `{Crypto} : Prop :=
  forall p, comparePassword p (hashPassword p) = true.

(** More sample data: Dana, an administrator, and her access token
    issued at clock 1000. *)
Module Staff.

Definition dana : User :=
  mkUser "Dana" "dana@example.com" "bcrypt:secret4" "admin" true
         None None None None None (Some 0) None.

Definition store : gmap N User := <[4%N := dana]> Sample.store.

Definition dana_access : Jwt := generateAccessToken Sample.penv 1000 4%N.
Definition ada_access : Jwt := generateAccessToken Sample.penv 1000 1%N.

(** Erin, a second administrator, whose id 171 is [ab] in hexadecimal,
    and Finn, a user with id 172, [ac]. *)
Definition erin : User :=
  mkUser "Erin" "erin@example.com" "bcrypt:secret5" "admin" true
         None None None None None (Some 0) None.

Definition finn : User :=
  mkUser "Finn" "finn@example.com" "bcrypt:secret6" "user" true
         None None None None None (Some 0) None.

Definition store2 : gmap N User := <[172%N := finn]> (<[171%N := erin]> store).

Definition erin_access : Jwt := generateAccessToken Sample.penv 1000 171%N.
Definition finn_access : Jwt := generateAccessToken Sample.penv 1000 172%N.

(** Ids as route parameters. *)
Definition ada_id : string := "000000000000000000000001".
Definition bob_id : string := "000000000000000000000002".
Definition dana_id : string := "000000000000000000000004".
Definition erin_id : string := "0000000000000000000000ab".
Definition erin_id_capitals : string := "0000000000000000000000AB".
Definition finn_id_capitals : string := "0000000000000000000000AC".

(** An ODM that leaves out the keys that are [undefined]. *)
Definition odm (s : gmap N User) (id : N) (fn em : option string)
  : string + (User -> string * string) :=
  inr (fun u => (default (fullName u) fn, default (email u) em)).

End Staff.

(** Requests and a run of requests on the sample store. *)
Module Scenario.

Definition eve_reg : RegisterReq :=
  mkRegisterReq (Some "Eve") (Some "eve@example.com") (Some "pw1234") (Some "pw1234") None.

Definition ada_login : LoginReq := mkLoginReq (Some "ada@example.com") (Some "secret1").

Definition trace : list (Env * authController.Request) :=
  [ (Sample.env 2000 true, authController.Register eve_reg);
    (Sample.env 3000 true, authController.VerifyEmail (mkVerifyReq "c0ffee" false));
    (Sample.env 4000 true, authController.Login ada_login);
    (Sample.env 5000 false, authController.ForgotPassword (mkEmailReq (Some "cy@example.com") (Some "localhost:3000"))) ].

Definition eve_body : userRoutes.CreateBody :=
  userRoutes.mkCreateBody (Some "Eve") (Some "eve@example.com") (Some "pw1234")
    (Some "instructor").

Definition ada_update : userRoutes.UpdateBody :=
  userRoutes.mkUpdateBody (Some "Ada L") None (Some "admin").

(** A configured mail transport whose provider accepts every message. *)
Definition mail_env : sendEmail.MailEnv :=
  sendEmail.mkMailEnv (Some "re_key") (Some "noreply@eduwave.app") None.

Definition provider (m : sendEmail.OutMail) : string + option string := inr (Some "msg-1").

Definition welcome : sendEmail.Options :=
  sendEmail.mkOptions (Some "ada@example.com") (Some "Welcome") (Some "Hello Ada").

End Scenario.

(* ===================================================================== *)
(** * Properties                                                          *)
(* ===================================================================== *)

(** ** White space and length are those of the JavaScript string *)

(** A token followed by U+00A0 ([C2 A0]) or preceded by U+FEFF
    ([EF BB BF]) is trimmed to the token. *)
Example trim_removes_unicode_space :
  let nbsp := String (ascii_of_N 194) (String (ascii_of_N 160) "") in
  let bom := String (ascii_of_N 239) (String (ascii_of_N 187) (String (ascii_of_N 191) "")) in
  trim ("tok-c" ++ nbsp) = "tok-c"
  /\ trim (bom ++ " tok-c" ++ nbsp ++ " ") = "tok-c"
  /\ trim ("tok" ++ nbsp ++ "c") = "tok" ++ nbsp ++ "c".
Proof. vm_compute. repeat split. Qed.

(** A password of five letters, one of them of two bytes (U+00E4), has
    length 5; a character of four bytes (U+1F600) has length 2. *)
Example code_units_is_utf16_length :
  let a_umlaut := String (ascii_of_N 195) (String (ascii_of_N 164) "") in
  let grin := String (ascii_of_N 240) (String (ascii_of_N 159)
                (String (ascii_of_N 152) (String (ascii_of_N 128) ""))) in
  code_units ("p" ++ a_umlaut ++ "sse") = 5%nat
  /\ String.length ("p" ++ a_umlaut ++ "sse") = 6%nat
  /\ code_units grin = 2%nat.
Proof. vm_compute. repeat split. Qed.

(** ** Rounding to the nearest double is monotone *)
Module JsNumberFacts.
Import JsNumber.
Local Open Scope Q_scope.

Lemma two_pow_pos (e : Z) : 0 < 2 ^ e.
Proof. apply Qpower_0_lt. reflexivity. Qed.

Lemma two_pow_succ (e : Z) : 2 ^ (e + 1) == 2 * 2 ^ e.
Proof. rewrite Qpower_plus by discriminate. change (2 ^ 1) with 2. ring. Qed.

Lemma two_pow_mono (a b : Z) : (a <= b)%Z -> 2 ^ a <= 2 ^ b.
Proof. intros H. apply Qpower_le_compat_l; [exact H | discriminate]. Qed.

Lemma inject_log2 (n : Z) : (0 < n)%Z ->
  2 ^ Z.log2 n <= inject_Z n /\ inject_Z n < 2 ^ (Z.log2 n + 1).
Proof.
  intros Hn. destruct (Z.log2_spec n Hn) as [H1 H2].
  pose proof (Z.log2_nonneg n) as Hl.
  split.
  - change 2 with (inject_Z 2). rewrite <- Zpower_Qpower by exact Hl.
    rewrite <- Zle_Qle. exact H1.
  - change 2 with (inject_Z 2). rewrite <- Zpower_Qpower by lia.
    rewrite <- Zlt_Qlt. replace (Z.log2 n + 1)%Z with (Z.succ (Z.log2 n)) by lia. exact H2.
Qed.

Lemma ilog2_spec (q : Q) : 0 < q -> 2 ^ ilog2 q <= q /\ q < 2 ^ (ilog2 q + 1).
Proof.
  intros Hq. destruct q as [n d].
  assert (Hn : (0 < n)%Z).
  { unfold Qlt in Hq. simpl in Hq. lia. }
  unfold ilog2. cbn [Qnum Qden].
  set (ln := Z.log2 n). set (ld := Z.log2 (Z.pos d)).
  destruct (inject_log2 n Hn) as [Hn1 Hn2]. fold ln in Hn1, Hn2.
  destruct (inject_log2 (Z.pos d) eq_refl) as [Hd1 Hd2]. fold ld in Hd1, Hd2.
  assert (Hq' : n # d == inject_Z n / inject_Z (Z.pos d)) by apply Qmake_Qdiv.
  assert (HD : 0 < inject_Z (Z.pos d)) by (rewrite <- (Zlt_Qlt 0); lia).
  assert (Hmul : (n # d) * inject_Z (Z.pos d) == inject_Z n).
  { rewrite Hq'. field. intros H. rewrite H in HD. discriminate. }
  pose proof (two_pow_pos ld) as Pld.
  pose proof (two_pow_pos (ln - ld)) as Pe.
  assert (Hsplit : 2 ^ ln == 2 ^ (ln - ld) * 2 ^ ld).
  { rewrite <- Qpower_plus by discriminate. replace (ln - ld + ld)%Z with ln by lia. reflexivity. }
  assert (Hup : n # d < 2 ^ (ln - ld + 1)).
  { rewrite two_pow_succ.
    rewrite two_pow_succ in Hn2. rewrite Hsplit in Hn2. rewrite <- Hmul in Hn2.
    apply Qnot_le_lt. intros Hc.
    assert (2 * 2 ^ (ln - ld) * 2 ^ ld <= (n # d) * inject_Z (Z.pos d)).
    { apply Qle_trans with ((n # d) * 2 ^ ld).
      - apply Qmult_le_compat_r; [exact Hc | apply Qlt_le_weak, Pld].
      - rewrite (Qmult_comm (n # d)), (Qmult_comm (n # d)).
        apply Qmult_le_compat_r; [exact Hd1 | apply Qlt_le_weak, Hq]. }
    lra. }
  assert (Hlow : 2 ^ (ln - ld - 1) <= n # d).
  { assert (E : 2 ^ (ln - ld) == 2 * 2 ^ (ln - ld - 1)).
    { rewrite <- two_pow_succ. replace (ln - ld - 1 + 1)%Z with (ln - ld)%Z by lia. reflexivity. }
    pose proof (two_pow_pos (ln - ld - 1)) as Pe1.
    rewrite two_pow_succ in Hd2.
    apply Qnot_lt_le. intros Hc.
    assert ((n # d) * inject_Z (Z.pos d) < 2 ^ (ln - ld - 1) * (2 * 2 ^ ld)).
    { apply Qle_lt_trans with ((n # d) * (2 * 2 ^ ld)).
      - rewrite (Qmult_comm (n # d)), (Qmult_comm (n # d)).
        apply Qmult_le_compat_r; [apply Qlt_le_weak, Hd2 | apply Qlt_le_weak, Hq].
      - apply Qmult_lt_compat_r; [lra | exact Hc]. }
    rewrite Hmul in H. rewrite Hsplit, E in Hn1. lra. }
  destruct (Qle_bool (2 ^ (ln - ld)) (n # d)) eqn:Hb.
  - split; [apply Qle_bool_iff, Hb | exact Hup].
  - split; [exact Hlow |].
    replace (ln - ld - 1 + 1)%Z with (ln - ld)%Z by lia.
    apply Qnot_le_lt. intros Hc. apply Qle_bool_iff in Hc. congruence.
Qed.

Lemma ilog2_unique (q : Q) (k : Z) : 2 ^ k <= q -> q < 2 ^ (k + 1) -> ilog2 q = k.
Proof.
  intros H1 H2.
  assert (Hq : 0 < q) by (eapply Qlt_le_trans; [apply (two_pow_pos k) | exact H1]).
  destruct (ilog2_spec q Hq) as [L1 L2].
  destruct (Z.lt_trichotomy (ilog2 q) k) as [Hlt | [Heq | Hgt]]; [| exact Heq |].
  - exfalso. pose proof (two_pow_mono (ilog2 q + 1) k ltac:(lia)). lra.
  - exfalso. pose proof (two_pow_mono (k + 1) (ilog2 q) ltac:(lia)). lra.
Qed.

Lemma ilog2_mono (x y : Q) : 0 < x -> x <= y -> (ilog2 x <= ilog2 y)%Z.
Proof.
  intros Hx Hxy.
  destruct (ilog2_spec x Hx) as [X1 X2].
  destruct (ilog2_spec y ltac:(lra)) as [Y1 Y2].
  destruct (Z_le_gt_dec (ilog2 x) (ilog2 y)) as [H | H]; [exact H | exfalso].
  pose proof (two_pow_mono (ilog2 y + 1) (ilog2 x) ltac:(lia)). lra.
Qed.

Lemma floor_bounds (q : Q) : inject_Z (Qfloor q) <= q /\ q < inject_Z (Qfloor q) + 1.
Proof.
  split; [apply Qfloor_le |].
  pose proof (Qlt_floor q) as H. rewrite inject_Z_plus in H. exact H.
Qed.

Lemma round_half_even_bounds (q : Q) :
  (Qfloor q <= round_half_even q <= Qfloor q + 1)%Z.
Proof.
  unfold round_half_even.
  destruct (q - inject_Z (Qfloor q) ?= 1 # 2); [destruct (Z.even _) | |]; lia.
Qed.

Lemma round_half_even_Z (z : Z) : round_half_even (inject_Z z) = z.
Proof.
  unfold round_half_even. rewrite Qfloor_Z.
  assert (H : inject_Z z - inject_Z z < 1 # 2) by lra.
  rewrite Qlt_alt in H. rewrite H. reflexivity.
Qed.

Lemma round_half_even_mono (x y : Q) : x <= y -> (round_half_even x <= round_half_even y)%Z.
Proof.
  intros Hxy.
  pose proof (Qfloor_resp_le x y Hxy) as Hf.
  pose proof (round_half_even_bounds x) as Bx.
  pose proof (round_half_even_bounds y) as By.
  destruct (Z.eq_dec (Qfloor x) (Qfloor y)) as [E | NE]; [| lia].
  unfold round_half_even in *. rewrite <- E in *.
  destruct (x - inject_Z (Qfloor x) ?= 1 # 2) eqn:Cx;
    destruct (y - inject_Z (Qfloor x) ?= 1 # 2) eqn:Cy;
    try (destruct (Z.even (Qfloor x))); try lia; exfalso;
    try rewrite <- Qeq_alt in *; try rewrite <- Qlt_alt in *; try rewrite <- Qgt_alt in *; lra.
Qed.

Lemma round_half_even_le (q : Q) (n : Z) : q <= inject_Z n -> (round_half_even q <= n)%Z.
Proof. intros H. rewrite <- (round_half_even_Z n). apply round_half_even_mono, H. Qed.

Lemma round_half_even_ge (q : Q) (n : Z) : inject_Z n <= q -> (n <= round_half_even q)%Z.
Proof. intros H. rewrite <- (round_half_even_Z n). apply round_half_even_mono, H. Qed.

Lemma two_pow_add (a b : Z) : 2 ^ (a + b) == 2 ^ a * 2 ^ b.
Proof. apply Qpower_plus. discriminate. Qed.

(** A positive rational scaled into its binade lies in [2^52, 2^53). *)
Lemma scaled_range (q : Q) : 0 < q ->
  inject_Z (2 ^ 52) <= q * 2 ^ (52 - ilog2 q) /\ q * 2 ^ (52 - ilog2 q) < inject_Z (2 ^ 53).
Proof.
  intros Hq. destruct (ilog2_spec q Hq) as [L1 L2].
  pose proof (two_pow_pos (52 - ilog2 q)) as P.
  assert (E1 : inject_Z (2 ^ 52) == 2 ^ ilog2 q * 2 ^ (52 - ilog2 q)).
  { rewrite <- two_pow_add. replace (ilog2 q + (52 - ilog2 q))%Z with 52%Z by lia. reflexivity. }
  assert (E2 : inject_Z (2 ^ 53) == 2 ^ (ilog2 q + 1) * 2 ^ (52 - ilog2 q)).
  { rewrite <- two_pow_add. replace (ilog2 q + 1 + (52 - ilog2 q))%Z with 53%Z by lia. reflexivity. }
  rewrite E1, E2. split.
  - apply Qmult_le_compat_r; [exact L1 | apply Qlt_le_weak, P].
  - apply Qmult_lt_compat_r; [exact P | exact L2].
Qed.

Lemma fl_pos_range (q : Q) : 0 < q ->
  2 ^ ilog2 q <= fl_pos q /\ fl_pos q <= 2 ^ (ilog2 q + 1).
Proof.
  intros Hq. destruct (scaled_range q Hq) as [S1 S2].
  pose proof (two_pow_pos (ilog2 q - 52)) as P.
  unfold fl_pos.
  assert (E1 : 2 ^ ilog2 q == inject_Z (2 ^ 52) * 2 ^ (ilog2 q - 52)).
  { change (inject_Z (2 ^ 52)) with (2 ^ 52). rewrite <- two_pow_add.
    replace (52 + (ilog2 q - 52))%Z with (ilog2 q) by lia. reflexivity. }
  assert (E2 : 2 ^ (ilog2 q + 1) == inject_Z (2 ^ 53) * 2 ^ (ilog2 q - 52)).
  { change (inject_Z (2 ^ 53)) with (2 ^ 53). rewrite <- two_pow_add.
    replace (53 + (ilog2 q - 52))%Z with (ilog2 q + 1)%Z by lia. reflexivity. }
  rewrite E1, E2. split; (apply Qmult_le_compat_r; [| apply Qlt_le_weak, P]); rewrite <- Zle_Qle.
  - apply round_half_even_ge, S1.
  - apply round_half_even_le, Qlt_le_weak, S2.
Qed.

Lemma fl_pos_mono (x y : Q) : 0 < x -> x <= y -> fl_pos x <= fl_pos y.
Proof.
  intros Hx Hxy.
  assert (Hy : 0 < y) by lra.
  pose proof (ilog2_mono x y Hx Hxy) as He.
  destruct (Z.eq_dec (ilog2 x) (ilog2 y)) as [E | NE].
  - unfold fl_pos. rewrite E.
    apply Qmult_le_compat_r; [| apply Qlt_le_weak, two_pow_pos].
    rewrite <- Zle_Qle. apply round_half_even_mono.
    apply Qmult_le_compat_r; [exact Hxy | apply Qlt_le_weak, two_pow_pos].
  - destruct (fl_pos_range x Hx) as [_ U]. destruct (fl_pos_range y Hy) as [L _].
    pose proof (two_pow_mono (ilog2 x + 1) (ilog2 y) ltac:(lia)). lra.
Qed.

Lemma fl_pos_positive (q : Q) : 0 < q -> 0 < fl_pos q.
Proof.
  intros Hq. destruct (fl_pos_range q Hq) as [L _].
  pose proof (two_pow_pos (ilog2 q)). lra.
Qed.

Lemma fl_zero (q : Q) : q == 0 -> fl q = 0.
Proof. intros H. unfold fl. rewrite Qeq_alt in H. rewrite H. reflexivity. Qed.

Lemma fl_of_pos (q : Q) : 0 < q -> fl q = fl_pos q.
Proof. intros H. unfold fl. rewrite Qgt_alt in H. rewrite H. reflexivity. Qed.

Lemma fl_of_neg (q : Q) : q < 0 -> fl q = - fl_pos (- q).
Proof. intros H. unfold fl. rewrite Qlt_alt in H. rewrite H. reflexivity. Qed.

(** Rounding to the nearest double is monotone. *)
Lemma fl_mono (x y : Q) : x <= y -> fl x <= fl y.
Proof.
  intros Hxy.
  destruct (Q_dec x 0) as [[Hx | Hx] | Hx]; destruct (Q_dec y 0) as [[Hy | Hy] | Hy];
    try (exfalso; lra).
  - rewrite (fl_of_neg x Hx), (fl_of_neg y Hy).
    pose proof (fl_pos_mono (- y) (- x) ltac:(lra) ltac:(lra)). lra.
  - rewrite (fl_of_neg x Hx), (fl_of_pos y Hy).
    pose proof (fl_pos_positive (- x) ltac:(lra)). pose proof (fl_pos_positive y Hy). lra.
  - rewrite (fl_of_neg x Hx), (fl_zero y Hy).
    pose proof (fl_pos_positive (- x) ltac:(lra)). lra.
  - rewrite (fl_of_pos x Hx), (fl_of_pos y Hy). apply fl_pos_mono; assumption.
  - rewrite (fl_zero x Hx), (fl_of_pos y Hy).
    pose proof (fl_pos_positive y Hy). lra.
  - rewrite (fl_zero x Hx), (fl_zero y Hy). lra.
Qed.

Lemma fl_24 : fl 24 == 24. Proof. vm_compute. reflexivity. Qed.
Lemma fl_100 : fl 100 == 100. Proof. vm_compute. reflexivity. Qed.
Lemma fl_1 : fl 1 == 1. Proof. vm_compute. reflexivity. Qed.

(** ** The rounding error is at most half a unit in the last place *)
Lemma round_half_even_close (q : Q) :
  q - (1 # 2) <= inject_Z (round_half_even q) /\ inject_Z (round_half_even q) <= q + (1 # 2).
Proof.
  destruct (floor_bounds q) as [F1 F2].
  unfold round_half_even.
  destruct (q - inject_Z (Qfloor q) ?= 1 # 2) eqn:C.
  - rewrite <- Qeq_alt in C. destruct (Z.even (Qfloor q)).
    + lra.
    + rewrite inject_Z_plus. change (inject_Z 1) with 1. lra.
  - rewrite <- Qlt_alt in C. lra.
  - rewrite <- Qgt_alt in C. rewrite inject_Z_plus. change (inject_Z 1) with 1. lra.
Qed.

Lemma fl_pos_close (x : Q) : 0 < x ->
  x * (1 - u53) <= fl_pos x /\ fl_pos x <= x * (1 + u53).
Proof.
  intros Hx. destruct (ilog2_spec x Hx) as [L1 _].
  set (e := ilog2 x) in *.
  pose proof (two_pow_pos (e - 52)) as Pt.
  assert (Hst : 2 ^ (52 - e) * 2 ^ (e - 52) == 1).
  { rewrite <- two_pow_add. replace (52 - e + (e - 52))%Z with 0%Z by lia. reflexivity. }
  assert (He : 2 ^ e == 2 ^ (e - 52) * 4503599627370496).
  { change 4503599627370496 with (2 ^ 52). rewrite <- two_pow_add.
    replace (e - 52 + 52)%Z with e by lia. reflexivity. }
  destruct (round_half_even_close (x * 2 ^ (52 - e))) as [R1 R2].
  unfold fl_pos. fold e.
  set (m := inject_Z (round_half_even (x * 2 ^ (52 - e)))) in *.
  set (t := 2 ^ (e - 52)) in *. set (s := 2 ^ (52 - e)) in *.
  assert (U : t * (1 # 2) <= x * u53).
  { unfold u53. rewrite He in L1. lra. }
  assert (M1 : (x * s - (1 # 2)) * t <= m * t).
  { apply Qmult_le_compat_r; [exact R1 | lra]. }
  assert (M2 : m * t <= (x * s + (1 # 2)) * t).
  { apply Qmult_le_compat_r; [exact R2 | lra]. }
  assert (E1 : (x * s - (1 # 2)) * t == x - t * (1 # 2)).
  { transitivity (x * (s * t) - t * (1 # 2)); [ring | rewrite Hst; ring]. }
  assert (E2 : (x * s + (1 # 2)) * t == x + t * (1 # 2)).
  { transitivity (x * (s * t) + t * (1 # 2)); [ring | rewrite Hst; ring]. }
  rewrite E1 in M1. rewrite E2 in M2. lra.
Qed.

Lemma fl_close (x : Q) : 0 <= x ->
  x * (1 - u53) <= fl x /\ fl x <= x * (1 + u53).
Proof.
  intros Hx. destruct (Qle_lt_or_eq _ _ Hx) as [Hpos | Hzero].
  - rewrite (fl_of_pos x Hpos). apply fl_pos_close, Hpos.
  - rewrite (fl_zero x) by (symmetry; exact Hzero). unfold u53. lra.
Qed.

(** [fl] agrees with the machine's binary64 arithmetic on a grid of
    lesson counts. *)
Lemma fl_agrees_with_binary64 :
  forallb (fun t => forallb (fun c => agrees (Z.of_nat c) (Z.of_nat t)) (seq 1 t)) (seq 1 24) = true.
Proof. vm_compute. reflexivity. Qed.

End JsNumberFacts.

(** ** Queries on the store *)
Section StoreFacts.
Implicit Types (s : gmap N User) (f : User -> bool).

Lemma findOne_Some f s id u :
  findOne f s = Some (id, u) -> s !! id = Some u /\ f u = true.
Proof.
  unfold findOne. intros Hf. apply find_some in Hf as [Hin Hf].
  split; [| exact Hf]. apply elem_of_map_to_list. apply list_elem_of_In. exact Hin.
Qed.

Lemma findOne_None f s :
  findOne f s = None -> forall id u, s !! id = Some u -> f u = false.
Proof.
  unfold findOne. intros Hf id u Hs.
  apply (find_none _ _ Hf (id, u)).
  apply list_elem_of_In, elem_of_map_to_list. exact Hs.
Qed.

Lemma find_all_false {A} (g : A -> bool) (l : list A) :
  (forall x, In x l -> g x = false) -> List.find g l = None.
Proof.
  induction l as [| a l IH]; intros Hall; [reflexivity |].
  cbn. rewrite (Hall a (or_introl eq_refl)).
  apply IH. intros x Hx. apply Hall. right. exact Hx.
Qed.

Lemma findOne_None_intro f s :
  (forall id u, s !! id = Some u -> f u = false) -> findOne f s = None.
Proof.
  intros Hall. unfold findOne. apply find_all_false.
  intros [id u] Hin. cbn. apply (Hall id).
  apply elem_of_map_to_list, list_elem_of_In. exact Hin.
Qed.

End StoreFacts.

(** ** Login failures *)
Section LoginFailures.
Context {K : Crypto}.
Context {J : JsEngine}.
Variable P : ProcessEnv.

Lemma login_absent (e : Env) (req : LoginReq) (s : gmap N User) :
  login_fields_present req ->
  findOne (by_email (str (l_email req))) s = None ->
  authController.login P e req s = (s, json 401 false "Invalid credentials").
Proof.
  intros [He Hp] Hnone. unfold authController.login.
  rewrite He, Hp, Hnone. reflexivity.
Qed.

Lemma login_wrong_password (e : Env) (req : LoginReq) (s : gmap N User) id u :
  login_fields_present req ->
  findOne (by_email (str (l_email req))) s = Some (id, u) ->
  emailVerified u = true ->
  matchPassword u (str (l_password req)) = false ->
  authController.login P e req s = (s, json 401 false "Invalid credentials").
Proof.
  intros [He Hp] Hfound Hv Hm. unfold authController.login.
  rewrite He, Hp, Hfound, Hv, Hm. reflexivity.
Qed.

Lemma login_unverified (e : Env) (req : LoginReq) (s : gmap N User) id u :
  login_fields_present req ->
  findOne (by_email (str (l_email req))) s = Some (id, u) ->
  emailVerified u = false ->
  authController.login P e req s
  = (s, json 403 false "Please verify your email before logging in").
Proof.
  intros [He Hp] Hfound Hv. unfold authController.login.
  rewrite He, Hp, Hfound, Hv. reflexivity.
Qed.

(** The same request, on a store where its email belongs to nobody and
    on a store where it belongs to a verified user with another
    password. *)
Lemma login_same_request (e1 e2 : Env) (req : LoginReq) (s1 s2 : gmap N User) id u :
  findOne (by_email (str (l_email req))) s1 = None ->
  findOne (by_email (str (l_email req))) s2 = Some (id, u) ->
  emailVerified u = true ->
  matchPassword u (str (l_password req)) = false ->
  snd (authController.login P e1 req s1) = snd (authController.login P e2 req s2)
  /\ fst (authController.login P e1 req s1) = s1
  /\ fst (authController.login P e2 req s2) = s2.
Proof.
  intros Hnone Hfound Hv Hm. unfold authController.login.
  destruct (falsy (l_email req) || falsy (l_password req)); [repeat split |].
  rewrite Hnone, Hfound, Hv, Hm. repeat split.
Qed.

(** C6. A login against an absent user and a login with a wrong password
    on an existing verified user are answered alike, and neither changes
    the store: the same request gets the same response on a store where
    its email is unknown and on one where it belongs to a verified user
    with another password, and two requests that carry an email and a
    password both get 401, Invalid credentials. A login on an unverified
    account, with the correct password as with any other, gets the
    different response 403, Please verify your email before logging
    in. *)
Theorem login_failures_indistinguishable (e1 e2 : Env) (s1 s2 : gmap N User) :
  (forall (req : LoginReq) id u,
      findOne (by_email (str (l_email req))) s1 = None ->
      findOne (by_email (str (l_email req))) s2 = Some (id, u) ->
      emailVerified u = true ->
      matchPassword u (str (l_password req)) = false ->
      snd (authController.login P e1 req s1) = snd (authController.login P e2 req s2)
      /\ fst (authController.login P e1 req s1) = s1
      /\ fst (authController.login P e2 req s2) = s2)
  /\ (forall (absent wrong : LoginReq) id u,
        login_fields_present absent ->
        login_fields_present wrong ->
        findOne (by_email (str (l_email absent))) s1 = None ->
        findOne (by_email (str (l_email wrong))) s2 = Some (id, u) ->
        emailVerified u = true ->
        matchPassword u (str (l_password wrong)) = false ->
        authController.login P e1 absent s1 = (s1, json 401 false "Invalid credentials")
        /\ authController.login P e2 wrong s2 = (s2, json 401 false "Invalid credentials"))
  /\ (forall (unverified : LoginReq) id u,
        login_fields_present unverified ->
        findOne (by_email (str (l_email unverified))) s2 = Some (id, u) ->
        emailVerified u = false ->
        authController.login P e2 unverified s2
        = (s2, json 403 false "Please verify your email before logging in")
        /\ snd (authController.login P e2 unverified s2)
           <> json 401 false "Invalid credentials").
Proof.
  split; [intros req id u; apply login_same_request |].
  split.
  - intros absent wrong id u Ha Hw Hnone Hfound Hv Hm.
    rewrite (login_absent e1 absent s1 Ha Hnone).
    rewrite (login_wrong_password e2 wrong s2 id u Hw Hfound Hv Hm).
    split; reflexivity.
  - intros unverified id u Hu Hfound Hv.
    rewrite (login_unverified e2 unverified s2 id u Hu Hfound Hv).
    split; [reflexivity | discriminate].
Qed.

End LoginFailures.

(** An unknown address and a wrong guess of Ada's password get the same
    answer; Bob, not yet verified, gets another. *)
Lemma login_failures_indistinguishable_witness :
  authController.login (H := Sample.crypto) Sample.penv (Sample.env 2000 true)
    (mkLoginReq (Some "nobody@example.com") (Some "whatever")) Sample.store
  = (Sample.store, json 401 false "Invalid credentials")
  /\ authController.login (H := Sample.crypto) Sample.penv (Sample.env 2000 true)
       (mkLoginReq (Some "ada@example.com") (Some "guess")) Sample.store
     = (Sample.store, json 401 false "Invalid credentials")
  /\ authController.login (H := Sample.crypto) Sample.penv (Sample.env 2000 true)
       (mkLoginReq (Some "bob@example.com") (Some "secret2")) Sample.store
     = (Sample.store, json 403 false "Please verify your email before logging in").
Proof.
  destruct (login_failures_indistinguishable (K := Sample.crypto) Sample.penv
              (Sample.env 2000 true) (Sample.env 2000 true) Sample.store Sample.store)
    as (_ & Hboth & Hunverified).
  destruct (Hboth (mkLoginReq (Some "nobody@example.com") (Some "whatever"))
              (mkLoginReq (Some "ada@example.com") (Some "guess")) 1%N Sample.ada)
    as [Habsent Hwrong]; try reflexivity; try (split; reflexivity).
  destruct (Hunverified (mkLoginReq (Some "bob@example.com") (Some "secret2")) 2%N Sample.bob)
    as [Hbob _]; try reflexivity; try (split; reflexivity).
  repeat split; assumption.
Defined.

(** ** Registration *)
Section Registration.
Context {K : Crypto}.
Context {J : JsEngine}.

Lemma register_taken_any (e : Env) (req : RegisterReq) (s : gmap N User) id u :
  findOne (by_email (str (r_email req))) s = Some (id, u) ->
  fst (authController.register e req s) = s
  /\ is_success (snd (authController.register e req s)) = false.
Proof.
  intros Hfound. unfold authController.register.
  destruct (_ || _); [split; reflexivity |].
  destruct (negb _); [split; reflexivity |].
  rewrite Hfound. split; reflexivity.
Qed.

Lemma register_legacy_taken_any (e : Env) (req : RegisterReq) (s : gmap N User) id u :
  findOne (by_email (str (r_email req))) s = Some (id, u) ->
  fst (authController_legacy.register e req s) = s
  /\ is_success (snd (authController_legacy.register e req s)) = false.
Proof.
  intros Hfound. unfold authController_legacy.register.
  destruct (_ || _); [split; reflexivity |].
  destruct (negb _); [split; reflexivity |].
  rewrite Hfound. split; reflexivity.
Qed.

Lemma register_validation_passes (req : RegisterReq) :
  register_fields_valid req ->
  falsy (r_fullName req) || falsy (r_email req)
    || falsy (r_password req) || falsy (r_passwordConfirm req) = false
  /\ negb (String.eqb (str (r_password req)) (str (r_passwordConfirm req))) = false.
Proof.
  intros (H1 & H2 & H3 & H4 & H5). rewrite H1, H2, H3, H4, H5.
  split; [reflexivity |]. rewrite String.eqb_refl. reflexivity.
Qed.

(** C9. A registration whose email already belongs to a user changes
    nothing in the store and is refused; when the request passes input
    validation (which is checked first) the refusal is 400, User already
    exists with this email. Both controllers. *)
Theorem register_duplicate_email
    (e : Env) (req : RegisterReq) (s : gmap N User) (id : N) (u : User) :
  findOne (by_email (str (r_email req))) s = Some (id, u) ->
  (fst (authController.register e req s) = s
   /\ is_success (snd (authController.register e req s)) = false)
  /\ (fst (authController_legacy.register e req s) = s
      /\ is_success (snd (authController_legacy.register e req s)) = false)
  /\ (register_fields_valid req ->
      authController.register e req s
      = (s, json 400 false "User already exists with this email")
      /\ authController_legacy.register e req s
         = (s, json 400 false "User already exists with this email")).
Proof.
  intros Hfound.
  split; [exact (register_taken_any e req s id u Hfound) |].
  split; [exact (register_legacy_taken_any e req s id u Hfound) |].
  intros Hvalid. destruct (register_validation_passes req Hvalid) as [Hp Hm].
  unfold authController.register, authController_legacy.register.
  rewrite Hp, Hm, Hfound. split; reflexivity.
Qed.

End Registration.

Lemma register_duplicate_email_witness :
  authController.register (H := Sample.crypto) (Sample.env 2000 true)
    (mkRegisterReq (Some "Ada L") (Some "ada@example.com") (Some "pw1234") (Some "pw1234") None)
    Sample.store
  = (Sample.store, json 400 false "User already exists with this email").
Proof.
  refine (proj1 (proj2 (proj2 (register_duplicate_email (K := Sample.crypto)
            (Sample.env 2000 true)
            (mkRegisterReq (Some "Ada L") (Some "ada@example.com")
               (Some "pw1234") (Some "pw1234") None)
            Sample.store 1%N Sample.ada _)) _)).
  - reflexivity.
  - repeat split.
Defined.

(** ** The role of a registered user *)
Section RegistrationRole.
Context {K : Crypto}.
Context {J : JsEngine}.

Lemma User_create_role (e : Env) fn em pw rl tok exp (s s' : gmap N User) id u :
  User_create e fn em pw rl tok exp s = inr (id, u, s') ->
  role u = rl /\ s !! id = None /\ s' = <[id := u]> s.
Proof.
  unfold User_create. destruct (s !! env_oid e) eqn:Hs; [discriminate |].
  intros [= <- <- <-]. repeat split. exact Hs.
Qed.

Lemma register_new_user_role (e : Env) (req : RegisterReq) (s : gmap N User) (id : N) :
  fst (authController.register e req s) !! id = s !! id
  \/ role <$> (fst (authController.register e req s) !! id) = Some "user".
Proof.
  unfold authController.register.
  destruct (_ || _); [left; reflexivity |].
  destruct (negb _); [left; reflexivity |].
  destruct (findOne _ s) as [[? ?] |]; [left; reflexivity |].
  destruct (_ && _); [left; reflexivity |].
  cbn. destruct (User_create _ _ _ _ _ _ _ s) as [msg | [[id' u] s']] eqn:Hc;
    [left; reflexivity |].
  apply User_create_role in Hc as (Hr & _ & ->). cbn.
  destruct (decide (id' = id)) as [-> | Hne].
  - right. rewrite lookup_insert_eq. cbn. rewrite Hr. reflexivity.
  - left. apply lookup_insert_ne, Hne.
Qed.

Lemma register_legacy_new_user_role (e : Env) (req : RegisterReq) (s : gmap N User) (id : N) :
  fst (authController_legacy.register e req s) !! id = s !! id
  \/ role <$> (fst (authController_legacy.register e req s) !! id) = Some "user".
Proof.
  unfold authController_legacy.register.
  destruct (_ || _); [left; reflexivity |].
  destruct (negb _); [left; reflexivity |].
  destruct (findOne _ s) as [[? ?] |]; [left; reflexivity |].
  cbn. destruct (User_create _ _ _ _ _ _ _ s) as [msg | [[id' u] s']] eqn:Hc;
    [left; reflexivity |].
  apply User_create_role in Hc as (Hr & Hfree & ->).
  destruct (env_mail_ok e); cbn.
  - destruct (decide (id' = id)) as [-> | Hne].
    + right. rewrite lookup_insert_eq. cbn. rewrite Hr. reflexivity.
    + left. apply lookup_insert_ne, Hne.
  - left. unfold findByIdAndDelete. rewrite delete_insert_id by exact Hfree. reflexivity.
Qed.

Lemma register_other_role_rejected (e : Env) (req : RegisterReq) (s : gmap N User) (r : string) :
  r_role req = Some r -> r <> "" -> r <> "user" ->
  fst (authController.register e req s) = s
  /\ is_success (snd (authController.register e req s)) = false.
Proof.
  intros Hr Hne Hnu. unfold authController.register.
  destruct (_ || _); [split; reflexivity |].
  destruct (negb _); [split; reflexivity |].
  destruct (findOne _ s) as [[? ?] |]; [split; reflexivity |].
  assert (Hguard : negb (falsy (r_role req)) && negb (String.eqb (str (r_role req)) "user") = true).
  { unfold falsy. rewrite Hr. cbn.
    apply String.eqb_neq in Hne. apply String.eqb_neq in Hnu. rewrite Hne, Hnu. reflexivity. }
  rewrite Hguard. split; reflexivity.
Qed.

(** C8. Whatever role field a registration carries, every document of
    the resulting store is either unchanged from before the request or
    has role user (so no registration creates an instructor or an
    admin, in either controller); the current controller refuses a
    request whose role field asks for another role and leaves the store
    as it was, and the earlier controller does not read the field. *)
Theorem register_role_is_user
    (e : Env) (req : RegisterReq) (s : gmap N User) :
  (forall id,
      fst (authController.register e req s) !! id = s !! id
      \/ role <$> (fst (authController.register e req s) !! id) = Some "user")
  /\ (forall id,
      fst (authController_legacy.register e req s) !! id = s !! id
      \/ role <$> (fst (authController_legacy.register e req s) !! id) = Some "user")
  /\ (forall r, r_role req = Some r -> r <> "" -> r <> "user" ->
      fst (authController.register e req s) = s
      /\ is_success (snd (authController.register e req s)) = false)
  /\ authController_legacy.register e req s
     = authController_legacy.register e (without_role req) s.
Proof.
  split; [intros id; apply register_new_user_role |].
  split; [intros id; apply register_legacy_new_user_role |].
  split; [intros r; apply register_other_role_rejected |].
  reflexivity.
Qed.

End RegistrationRole.

Lemma register_role_is_user_witness :
  fst (authController.register (H := Sample.crypto) (Sample.env 2000 true)
         (mkRegisterReq (Some "Eve") (Some "eve@example.com") (Some "pw1234") (Some "pw1234")
            (Some "admin")) Sample.store) = Sample.store
  /\ role <$> (fst (authController.register (H := Sample.crypto) (Sample.env 2000 true)
         (mkRegisterReq (Some "Eve") (Some "eve@example.com") (Some "pw1234") (Some "pw1234")
            (Some "user")) Sample.store) !! 7%N) = Some "user".
Proof.
  split.
  - refine (proj1 (proj1 (proj2 (proj2 (register_role_is_user (K := Sample.crypto)
              (Sample.env 2000 true)
              (mkRegisterReq (Some "Eve") (Some "eve@example.com") (Some "pw1234")
                 (Some "pw1234") (Some "admin")) Sample.store))) "admin" _ _ _));
      [reflexivity | discriminate | discriminate].
  - reflexivity.
Defined.

(** ** The login streak *)
Section LoginStreak.
Context {K : Crypto}.
Context {J : JsEngine}.
Variable P : ProcessEnv.
Import JsNumber JsNumberFacts.

(** The double division of the code decides [Delta <= 24] exactly. *)
Lemma hours_le_24 (now last : Z) :
  Qle_bool (authController.hoursSinceLastLogin now last) 24 = true
  <-> (delta_hours now last <= 24)%Q.
Proof.
  unfold authController.hoursSinceLastLogin, delta_hours, JsNumber.div.
  change (inject_Z (1000 * 60 * 60)) with 3600000%Q.
  set (x := (inject_Z (now - last) / 3600000)%Q).
  rewrite Qle_bool_iff. split.
  - intros Hfl. apply Qnot_lt_le. intros Hx.
    assert (Hb : (86400001 # 3600000 <= x)%Q).
    { unfold x.
      assert (Hd : (86400000 < now - last)%Z).
      { apply Z.lt_nge. intros Hle. apply (Qlt_not_le _ _ Hx).
        unfold x. rewrite Zle_Qle in Hle. change (inject_Z 86400000) with 86400000%Q in Hle.
        apply Qle_shift_div_r; [reflexivity | lra]. }
      assert (Hd' : (86400001 <= now - last)%Z) by lia.
      rewrite Zle_Qle in Hd'. change (inject_Z 86400001) with 86400001%Q in Hd'.
      apply Qle_shift_div_l; [reflexivity | lra]. }
    pose proof (fl_mono _ _ Hb) as Hm.
    assert (Hc : (24 < fl (86400001 # 3600000))%Q) by (vm_compute; reflexivity).
    lra.
  - intros Hx. pose proof (fl_mono _ _ Hx) as Hm. rewrite fl_24 in Hm. exact Hm.
Qed.

Lemma next_streak_spec (now : Z) (u : User) :
  authController.next_streak now u
  = match lastLoginDate u with
    | None => 1
    | Some last =>
        if Qle_bool (delta_hours now last) 24 then default 0 (loginStreak u) + 1 else 1
    end.
Proof.
  unfold authController.next_streak. destruct (lastLoginDate u) as [last |]; [| reflexivity].
  destruct (Qle_bool (delta_hours now last) 24) eqn:Hd.
  - apply Qle_bool_iff, hours_le_24 in Hd. rewrite Hd. reflexivity.
  - destruct (Qle_bool (authController.hoursSinceLastLogin now last) 24) eqn:Hh; [| reflexivity].
    apply hours_le_24, Qle_bool_iff in Hh. congruence.
Qed.

Lemma login_success_inv (e : Env) (req : LoginReq) (s s' : gmap N User) (r : Response) :
  authController.login P e req s = (s', r) ->
  is_success r = true ->
  exists id u,
    findOne (by_email (str (l_email req))) s = Some (id, u)
    /\ s' = save id
              (set_refreshToken (Some (generateRefreshToken P (env_now e) id))
                 (set_login (Some (authController.next_streak (env_now e) u))
                    (Some (env_now e)) u)) s
    /\ status r = 200.
Proof.
  unfold authController.login.
  destruct (_ || _); [intros [= <- <-]; discriminate |].
  destruct (findOne _ s) as [[id u] |]; [| intros [= <- <-]; discriminate].
  destruct (negb (emailVerified u)); [intros [= <- <-]; discriminate |].
  destruct (negb (matchPassword _ _)); [intros [= <- <-]; discriminate |].
  destruct (env_badge_error e); [intros [= <- <-]; discriminate |].
  cbn. intros [= <- <-] _. exists id, u. repeat split.
Qed.

(** C5. After a successful login the user's last-login date is the
    clock of the request, and the streak is 1 if there was no previous
    login, the previous streak plus 1 if the hours since the previous
    login are at most 24, and 1 if they are more than 24. *)
Theorem login_streak
    (e : Env) (req : LoginReq) (s s' : gmap N User) (r : Response) :
  authController.login P e req s = (s', r) ->
  is_success r = true ->
  exists id u u',
    findOne (by_email (str (l_email req))) s = Some (id, u)
    /\ s' !! id = Some u'
    /\ lastLoginDate u' = Some (env_now e)
    /\ (lastLoginDate u = None -> loginStreak u' = Some 1)
    /\ (forall last, lastLoginDate u = Some last ->
          (delta_hours (env_now e) last <= 24)%Q ->
          loginStreak u' = Some (default 0 (loginStreak u) + 1))
    /\ (forall last, lastLoginDate u = Some last ->
          (24 < delta_hours (env_now e) last)%Q ->
          loginStreak u' = Some 1).
Proof.
  intros Hlogin Hok.
  destruct (login_success_inv e req s s' r Hlogin Hok) as (id & u & Hfound & -> & _).
  eexists id, u, _. split; [exact Hfound |].
  split; [apply lookup_insert_eq |].
  cbn. split; [reflexivity |].
  rewrite next_streak_spec.
  split; [intros ->; reflexivity |].
  split; intros last ->.
  - intros Hd. apply Qle_bool_iff in Hd. rewrite Hd. reflexivity.
  - intros Hd. destruct (Qle_bool (delta_hours (env_now e) last) 24) eqn:Hb; [| reflexivity].
    apply Qle_bool_iff in Hb. lra.
Qed.

End LoginStreak.

(** Ada (streak 5, last login at clock 1000) logs in 22 hours later: the
    streak becomes 6 and the last-login date is the clock. *)
Lemma login_streak_witness :
  let e := Sample.env (1000 + 22 * hour_ms) true in
  let req := mkLoginReq (Some "ada@example.com") (Some "secret1") in
  let s' := fst (authController.login (H := Sample.crypto) Sample.penv e req Sample.store) in
  (loginStreak <$> s' !! 1%N) = Some (Some 6)
  /\ (lastLoginDate <$> s' !! 1%N) = Some (Some (1000 + 22 * hour_ms)).
Proof.
  intros e req s'.
  destruct (login_streak (K := Sample.crypto) Sample.penv e req Sample.store s'
              (snd (authController.login (H := Sample.crypto) Sample.penv e req Sample.store))
              eq_refl eq_refl)
    as (id & u & u' & Hfound & Hs' & Hlast & _ & Hinc & _).
  vm_compute in Hfound. injection Hfound as <- <-.
  rewrite Hs'. cbn. rewrite Hlast.
  rewrite (Hinc 1000 eq_refl); [split; reflexivity |].
  vm_compute. discriminate.
Defined.

(** The same user logging in 26 hours later instead: the streak is 1. *)
Example login_streak_resets_after_26h :
  let e := Sample.env (1000 + 26 * hour_ms) true in
  let req := mkLoginReq (Some "ada@example.com") (Some "secret1") in
  loginStreak <$> fst (authController.login (H := Sample.crypto) Sample.penv e req Sample.store) !! 1%N
  = Some (Some 1).
Proof. vm_compute. reflexivity. Qed.

(** Exactly 24 hours later still counts; one millisecond more does not. *)
Example login_streak_threshold :
  let req := mkLoginReq (Some "ada@example.com") (Some "secret1") in
  loginStreak <$> fst (authController.login (H := Sample.crypto) Sample.penv
                         (Sample.env (1000 + 24 * hour_ms) true) req Sample.store) !! 1%N
  = Some (Some 6)
  /\ loginStreak <$> fst (authController.login (H := Sample.crypto) Sample.penv
                            (Sample.env (1000 + 24 * hour_ms + 1) true) req Sample.store) !! 1%N
     = Some (Some 1).
Proof. vm_compute. split; reflexivity. Qed.

(** ** Course progress *)
Section CourseProgressFacts.
Import JsNumber JsNumberFacts CourseProgress.

Lemma Math_round_bounds (z : Q) (lo hi : Z) :
  (inject_Z lo <= z)%Q -> (z <= inject_Z hi)%Q -> lo <= Math_round z <= hi.
Proof.
  intros Hlo Hhi. unfold Math_round. split.
  - rewrite <- (Qfloor_Z lo). apply Qfloor_resp_le. lra.
  - assert (Hf : Qfloor (inject_Z hi + (1 # 2)) = hi).
    { pose proof (Qfloor_le (inject_Z hi + (1 # 2))) as H1.
      pose proof (Qlt_floor (inject_Z hi + (1 # 2))) as H2.
      assert (G1 : (inject_Z (Qfloor (inject_Z hi + (1 # 2))) < inject_Z (hi + 1))%Q).
      { rewrite inject_Z_plus. change (inject_Z 1) with 1%Q. lra. }
      assert (G2 : (inject_Z hi < inject_Z (Qfloor (inject_Z hi + (1 # 2)) + 1))%Q) by lra.
      rewrite <- Zlt_Qlt in G1, G2. lia. }
    rewrite <- Hf at 1. apply Qfloor_resp_le. lra.
Qed.

Lemma ratio_bounds (c t : Z) :
  0 <= c <= t -> 0 < t -> (0 <= inject_Z c / inject_Z t)%Q /\ (inject_Z c / inject_Z t <= 1)%Q.
Proof.
  intros [Hc Hct] Ht.
  assert (HT : (0 < inject_Z t)%Q) by (rewrite <- (Zlt_Qlt 0); exact Ht).
  rewrite Zle_Qle in Hc, Hct. change (inject_Z 0) with 0%Q in Hc.
  split.
  - apply Qle_shift_div_l; [exact HT | lra].
  - apply Qle_shift_div_r; [exact HT | lra].
Qed.

Lemma percentage_bounds (c t : Z) : 0 <= c <= t -> 0 <= percentage c t <= 100.
Proof.
  intros Hct. unfold percentage. destruct (0 <? t) eqn:Ht; [| lia].
  apply Z.ltb_lt in Ht. destruct (ratio_bounds c t Hct Ht) as [R0 R1].
  unfold JsNumber.mul, JsNumber.div.
  set (y := fl (inject_Z c / inject_Z t)).
  assert (Y0 : (0 <= y)%Q).
  { pose proof (fl_mono _ _ R0) as Hm. rewrite (fl_zero 0) in Hm by reflexivity. exact Hm. }
  assert (Y1 : (y <= 1)%Q).
  { pose proof (fl_mono _ _ R1) as Hm. rewrite fl_1 in Hm. exact Hm. }
  apply Math_round_bounds.
  - assert (Hz : (0 <= y * 100)%Q) by lra.
    pose proof (fl_mono _ _ Hz) as Hm. rewrite (fl_zero 0) in Hm by reflexivity. exact Hm.
  - assert (Hz : (y * 100 <= 100)%Q) by lra.
    pose proof (fl_mono _ _ Hz) as Hm. rewrite fl_100 in Hm. exact Hm.
Qed.

(** The progress is an integer nearest to the exact percentage
    [100 * c / t]: twice their distance, times [t], is at most [t]. *)
Lemma percentage_nearest (c t : Z) :
  0 <= c <= t -> 0 < t < 2 ^ 43 ->
  200 * c - t <= 2 * t * percentage c t <= 200 * c + t.
Proof.
  intros Hct [Ht Hbig]. unfold percentage.
  replace (0 <? t) with true by (symmetry; apply Z.ltb_lt, Ht).
  destruct (ratio_bounds c t Hct Ht) as [R0 R1].
  unfold JsNumber.mul, JsNumber.div.
  set (r := (inject_Z c / inject_Z t)%Q) in *.
  assert (HT : (0 < inject_Z t)%Q) by (rewrite <- (Zlt_Qlt 0); exact Ht).
  assert (HrT : (r * inject_Z t == inject_Z c)%Q).
  { unfold r. field. intros H0. rewrite H0 in HT. discriminate. }
  destruct (fl_close r R0) as [Y1 Y2]. set (y := fl r) in *.
  assert (Y0 : (0 <= y)%Q) by (unfold u53 in Y1; lra).
  destruct (fl_close (y * 100) ltac:(lra)) as [Z1 Z2]. set (z := fl (y * 100)) in *.
  destruct (floor_bounds (z + (1 # 2))) as [P1 P2]. unfold Math_round.
  set (p := Qfloor (z + (1 # 2))) in *.
  unfold u53 in *.
  assert (B2 : (inject_Z p <= (100 + (1 # 35184372088832)) * r + (1 # 2))%Q) by lra.
  assert (B1 : ((100 - (1 # 35184372088832)) * r - (1 # 2) < inject_Z p)%Q) by lra.
  assert (M2 : (inject_Z p * inject_Z t
                <= ((100 + (1 # 35184372088832)) * r + (1 # 2)) * inject_Z t)%Q).
  { apply Qmult_le_compat_r; [exact B2 | lra]. }
  assert (M1 : (((100 - (1 # 35184372088832)) * r - (1 # 2)) * inject_Z t
                < inject_Z p * inject_Z t)%Q).
  { apply Qmult_lt_compat_r; [exact HT | exact B1]. }
  assert (E2 : (((100 + (1 # 35184372088832)) * r + (1 # 2)) * inject_Z t
                == (100 + (1 # 35184372088832)) * inject_Z c + (1 # 2) * inject_Z t)%Q).
  { rewrite <- HrT. ring. }
  assert (E1 : (((100 - (1 # 35184372088832)) * r - (1 # 2)) * inject_Z t
                == (100 - (1 # 35184372088832)) * inject_Z c - (1 # 2) * inject_Z t)%Q).
  { rewrite <- HrT. ring. }
  rewrite E2 in M2. rewrite E1 in M1.
  destruct Hct as [Hc0 Hct].
  rewrite Zle_Qle in Hc0, Hct. rewrite Zlt_Qlt in Hbig.
  change (inject_Z 0) with 0%Q in Hc0. change (inject_Z (2 ^ 43)) with 8796093022208%Q in Hbig.
  assert (G2 : (inject_Z (2 * t * p) < inject_Z (200 * c + t + 1))%Q).
  { rewrite !inject_Z_plus, !inject_Z_mult.
    change (inject_Z 2) with 2%Q. change (inject_Z 200) with 200%Q. change (inject_Z 1) with 1%Q.
    lra. }
  assert (G1 : (inject_Z (200 * c + - t + -1) < inject_Z (2 * t * p))%Q).
  { rewrite !inject_Z_plus, !inject_Z_mult, inject_Z_opp.
    change (inject_Z 2) with 2%Q. change (inject_Z 200) with 200%Q.
    change (inject_Z (-1)) with (-1)%Q.
    lra. }
  rewrite <- Zlt_Qlt in G1, G2. lia.
Qed.

Lemma updateProgress_returns (now c total : Z) (this : t) :
  c <= max_array_length ->
  updateProgress now c total this
  = inr (mk (userId this) (courseId this) (percentage c total) (range c)
            (currentLesson this) (startedAt this) now
            (if (percentage c total =? 100) && negb (bool_decide (is_Some (completedAt this)))
             then Some now else completedAt this)).
Proof.
  intros Hc. unfold updateProgress, Array_from_length.
  rewrite (proj2 (Z.ltb_ge _ _) Hc). reflexivity.
Qed.

Lemma updateProgress_throws (now c total : Z) (this : t) :
  max_array_length < c -> updateProgress now c total this = inl RangeError.
Proof.
  intros Hc. unfold updateProgress, Array_from_length.
  rewrite (proj2 (Z.ltb_lt _ _) Hc). reflexivity.
Qed.

Lemma completedAt_kept_by_call (this : t) (c : Call) (d : Z) :
  completedAt this = Some d -> completedAt (apply_call this c) = Some d.
Proof.
  intros Hd. unfold apply_call.
  destruct (Z.le_gt_cases (completedLessonsCount c) max_array_length) as [Hc | Hc].
  - rewrite updateProgress_returns by exact Hc. cbn. rewrite Hd.
    rewrite bool_decide_eq_true_2 by (eexists; reflexivity).
    rewrite andb_false_r. reflexivity.
  - rewrite updateProgress_throws by exact Hc. exact Hd.
Qed.

Lemma completedAt_kept (calls : list Call) (this : t) (d : Z) :
  completedAt this = Some d -> completedAt (updates calls this) = Some d.
Proof.
  unfold updates. revert this.
  induction calls as [| c calls IH]; intros this Hd; [exact Hd |].
  cbn. apply IH, completedAt_kept_by_call, Hd.
Qed.

(** C10, as the code has it. For a count of at most 2^32 - 1,
    [updateProgress(completedLessonsCount, totalLessons)] returns and
    sets [progress] to [Math.round((completedLessonsCount / totalLessons)
    * 100)], computed on doubles, when [totalLessons > 0] and to 0
    otherwise; the result lies in [0, 100] (and passes the schema's
    validators) whenever [0 <= completedLessonsCount <= totalLessons],
    and it is then an integer nearest to the exact percentage (for fewer
    than 2^43 lessons); [completedAt] is set to the clock when it was
    unset and the progress is 100, and is kept when it was set. For a
    larger count the call throws RangeError before anything is assigned.
    Once set, [completedAt] is kept, with its value, by every later
    sequence of calls, throwing or not. *)
Theorem updateProgress_progress_and_completedAt
    (now c total : Z) (this : t) :
  (c <= max_array_length ->
   exists after,
     updateProgress now c total this = inr after
     /\ (0 < total ->
         progress after
         = Math_round (JsNumber.mul (JsNumber.div (inject_Z c) (inject_Z total)) 100))
     /\ (total <= 0 -> progress after = 0)
     /\ (0 <= c <= total -> 0 <= progress after <= 100 /\ progress_valid after = true)
     /\ (0 <= c <= total -> 0 < total < 2 ^ 43 ->
         200 * c - total <= 2 * total * progress after <= 200 * c + total)
     /\ (completedAt this = None ->
         completedAt after = if progress after =? 100 then Some now else None)
     /\ (forall d, completedAt this = Some d -> completedAt after = Some d))
  /\ (max_array_length < c ->
      updateProgress now c total this = inl RangeError
      /\ apply_call this (mkCall now c total) = this)
  /\ (forall d calls,
        completedAt this = Some d -> completedAt (updates calls this) = Some d).
Proof.
  split; [| split].
  - intros Hc. eexists. split; [apply updateProgress_returns, Hc |]. cbn.
    split.
    { intros Ht. unfold percentage. apply Z.ltb_lt in Ht. rewrite Ht. reflexivity. }
    split.
    { intros Ht. unfold percentage.
      destruct (0 <? total) eqn:Hb; [apply Z.ltb_lt in Hb; lia | reflexivity]. }
    split.
    { intros Hct. pose proof (percentage_bounds c total Hct) as Hb.
      split; [exact Hb |]. unfold progress_valid. cbn.
      apply andb_true_intro. split; apply Z.leb_le; lia. }
    split.
    { intros Hct Ht. apply percentage_nearest; assumption. }
    split.
    { intros Hnone. rewrite Hnone.
      rewrite bool_decide_eq_false_2 by (intros [x Hx]; discriminate).
      rewrite andb_true_r. reflexivity. }
    intros d Hd. rewrite Hd.
    rewrite bool_decide_eq_true_2 by (eexists; reflexivity).
    rewrite andb_false_r. reflexivity.
  - intros Hc. split; [apply updateProgress_throws, Hc |].
    unfold apply_call. cbn [at_clock completedLessonsCount totalLessons].
    rewrite updateProgress_throws by exact Hc. reflexivity.
  - intros d calls Hd. apply completedAt_kept, Hd.
Qed.

End CourseProgressFacts.

(** Three lessons of four at clock 500: progress 75; and a record
    completed at clock 300 keeps that time. *)
Lemma updateProgress_progress_and_completedAt_witness :
  (exists after,
      CourseProgress.updateProgress 500 3 4 Sample.course = inr after
      /\ 0 <= CourseProgress.progress after <= 100
      /\ 200 * 3 - 4 <= 2 * 4 * CourseProgress.progress after <= 200 * 3 + 4)
  /\ CourseProgress.completedAt
       (CourseProgress.updates
          [CourseProgress.mkCall 400 1 4; CourseProgress.mkCall 500 4 4] Sample.course_done)
     = Some 300.
Proof.
  pose proof (updateProgress_progress_and_completedAt 500 3 4 Sample.course)
    as (Hret & _ & _).
  pose proof (updateProgress_progress_and_completedAt 500 3 4 Sample.course_done)
    as (_ & _ & Hkept).
  split.
  - destruct Hret as (after & Hrun & _ & _ & Hb & Hnear & _);
      [unfold CourseProgress.max_array_length; lia |].
    exists after. split; [exact Hrun |].
    split; [apply Hb; lia | apply Hnear; lia].
  - apply (Hkept 300). reflexivity.
Defined.

(** A count of 2^32 with as many lessons in the course: the progress to
    be recorded is 100, but the call throws and the record keeps the
    progress it had, 0. *)
Lemma updateProgress_throws_at_2_32 :
  let n := 4294967296 in
  0 <= n <= n /\ 0 < n
  /\ JsNumber.Math_round (JsNumber.mul (JsNumber.div (inject_Z n) (inject_Z n)) 100) = 100
  /\ CourseProgress.updateProgress 500 n n Sample.course = inl CourseProgress.RangeError
  /\ CourseProgress.progress
       (CourseProgress.apply_call Sample.course (CourseProgress.mkCall 500 n n)) = 0.
Proof. vm_compute. repeat split; discriminate. Qed.

(** Some values of the percentage. The double nearest to 29/200, times
    100, is just below 14.5, so 29 lessons of 200 give 14. *)
Example percentage_values :
  CourseProgress.percentage 1 3 = 33 /\ CourseProgress.percentage 2 3 = 67
  /\ CourseProgress.percentage 4 4 = 100 /\ CourseProgress.percentage 0 4 = 0
  /\ CourseProgress.percentage 1 200 = 1 /\ CourseProgress.percentage 29 200 = 14
  /\ CourseProgress.percentage 3 0 = 0 /\ CourseProgress.percentage 5 4 = 125.
Proof. vm_compute. repeat split. Qed.

(** ** Email verification *)
Section Verification.
Context {K : Crypto}.
Context {J : JsEngine}.

Lemma split_head_without (c : ascii) (s : string) :
  includes c s = false -> split_head c s = s.
Proof.
  induction s as [| d s IH]; cbn; [reflexivity |].
  destruct (Ascii.eqb d c); cbn; [discriminate |].
  intros Hi. rewrite (IH Hi). reflexivity.
Qed.

(** The query string is cut off whenever there is one. *)
Lemma cut_token (tok : string) :
  (if negb (String.eqb tok "") && includes authController.question_mark tok
   then split_head authController.question_mark tok else tok)
  = split_head authController.question_mark tok.
Proof.
  destruct (includes authController.question_mark tok) eqn:Hi.
  - destruct tok; reflexivity.
  - rewrite andb_false_r. symmetry. apply split_head_without, Hi.
Qed.

Lemma token_given (req : VerifyReq) :
  let token := split_head authController.question_mark (params_token req) in
  String.eqb token "" || String.eqb (trim token) "" = negb (bool_decide (verify_token req <> "")).
Proof.
  cbn. unfold verify_token.
  destruct (split_head _ (params_token req)) as [| c rest] eqn:Ht; [reflexivity |].
  cbn [String.eqb orb].
  destruct (String.eqb_spec (trim (String c rest)) "") as [-> | Hne].
  - rewrite bool_decide_eq_false_2 by (intros Hc; apply Hc; reflexivity). reflexivity.
  - rewrite bool_decide_eq_true_2 by exact Hne. reflexivity.
Qed.

(** What [verifyEmail] does with an API request that carries a token. *)
Lemma verifyEmail_api (e : Env) (req : VerifyReq) (s : gmap N User) :
  accepts_html req = false ->
  verify_token req <> "" ->
  authController.verifyEmail e req s
  = match findOne (by_verification_token (sha256_hex (verify_token req))) s with
    | None =>
        (s, json 400 false
              "Invalid verification token. The token may be incorrect or already used.")
    | Some (id, user) =>
        if match emailVerificationExpire user with
           | Some exp => exp <? env_now e
           | None => false
           end
        then (s, json 400 false
                   "Verification token has expired. Please request a new verification email.")
        else if emailVerified user
        then (s, json 200 true "Email is already verified")
        else (save id (set_verification None None (set_emailVerified true user)) s,
              json 200 true "Email verified successfully")
    end.
Proof.
  intros Hapi Htok. unfold authController.verifyEmail.
  rewrite cut_token, Hapi, token_given.
  rewrite bool_decide_eq_true_2 by exact Htok. reflexivity.
Qed.

(** A verification that went through, read backwards. *)
Lemma verifyEmail_verified_inv (e : Env) (req : VerifyReq) (s s' : gmap N User) :
  authController.verifyEmail e req s = (s', json 200 true "Email verified successfully") ->
  accepts_html req = false /\ verify_token req <> ""
  /\ exists id u,
      findOne (by_verification_token (sha256_hex (verify_token req))) s = Some (id, u)
      /\ emailVerified u = false
      /\ s' = save id (set_verification None None (set_emailVerified true u)) s.
Proof.
  intros Hrun.
  destruct (accepts_html req) eqn:Hapi.
  { unfold authController.verifyEmail in Hrun. rewrite Hapi in Hrun.
    destruct (_ || _) in Hrun; discriminate. }
  destruct (decide (verify_token req = "")) as [Hempty | Htok].
  { unfold authController.verifyEmail in Hrun.
    rewrite cut_token, Hapi, token_given in Hrun.
    rewrite bool_decide_eq_false_2 in Hrun by (intros Hc; apply Hc, Hempty).
    discriminate. }
  rewrite (verifyEmail_api e req s Hapi Htok) in Hrun.
  split; [reflexivity |]. split; [exact Htok |].
  destruct (findOne _ s) as [[id u] |]; [| discriminate].
  exists id, u. split; [reflexivity |].
  destruct (match emailVerificationExpire u with Some _ => _ | None => _ end); [discriminate |].
  destruct (emailVerified u); [discriminate |].
  injection Hrun as <-. split; reflexivity.
Qed.

Lemma filter_two {A} (g : A -> bool) (l : list A) (x y : A) :
  In x l -> In y l -> x <> y -> g x = true -> g y = true ->
  (2 <= length (List.filter g l))%nat.
Proof.
  intros Hx Hy Hne Gx Gy.
  assert (Fx : In x (List.filter g l)) by (apply filter_In; auto).
  assert (Fy : In y (List.filter g l)) by (apply filter_In; auto).
  destruct (List.filter g l) as [| a [| b rest]]; cbn in *; [tauto | | lia].
  destruct Fx as [<- | []]. destruct Fy as [<- | []]. congruence.
Qed.

(** With at most one holder of the hash, clearing it on the document
    found leaves no holder. *)
Lemma no_holder_after_clear (h : string) (s : gmap N User) (id : N) (u u' : User) :
  (verification_hash_holders h s <= 1)%nat ->
  findOne (by_verification_token h) s = Some (id, u) ->
  by_verification_token h u' = false ->
  findOne (by_verification_token h) (save id u' s) = None.
Proof.
  intros Hone Hfound Hclear. apply findOne_None_intro. intros id2 u2 Hlook.
  apply findOne_Some in Hfound as [Hs Hu]. unfold save in Hlook.
  destruct (decide (id = id2)) as [<- | Hne].
  - rewrite lookup_insert_eq in Hlook. injection Hlook as <-. exact Hclear.
  - rewrite lookup_insert_ne in Hlook by exact Hne.
    destruct (by_verification_token h u2) eqn:Hu2; [exfalso | reflexivity].
    pose proof (filter_two (fun kv : N * User => by_verification_token h (snd kv))
                  (map_to_list s) (id, u) (id2, u2)) as Htwo.
    unfold verification_hash_holders in Hone.
    enough (2 <= length (List.filter (fun kv : N * User => by_verification_token h kv.2)
                           (map_to_list s)))%nat by lia.
    apply Htwo; try assumption.
    + apply list_elem_of_In, elem_of_map_to_list, Hs.
    + apply list_elem_of_In, elem_of_map_to_list, Hlook.
    + congruence.
Qed.

(** C2. After a verification with token [t] went through, the user
    found by the token is verified and has no verification hash and no
    expiry, and the same request again (at any later clock) is refused
    with 400, Invalid verification token, leaving the store as it is.
    The hash of [t] is held by one document at most. *)
Theorem verification_token_single_use
    (e e' : Env) (req : VerifyReq) (s s' : gmap N User) :
  authController.verifyEmail e req s = (s', json 200 true "Email verified successfully") ->
  (verification_hash_holders (sha256_hex (verify_token req)) s <= 1)%nat ->
  (exists id u u',
      findOne (by_verification_token (sha256_hex (verify_token req))) s = Some (id, u)
      /\ s' !! id = Some u'
      /\ emailVerified u' = true
      /\ emailVerificationToken u' = None
      /\ emailVerificationExpire u' = None)
  /\ authController.verifyEmail e' req s'
     = (s', json 400 false
              "Invalid verification token. The token may be incorrect or already used.").
Proof.
  intros Hrun Hone.
  destruct (verifyEmail_verified_inv e req s s' Hrun)
    as (Hapi & Htok & id & u & Hfound & Hunverified & ->).
  split.
  - eexists id, u, _. split; [exact Hfound |].
    split; [apply lookup_insert_eq |]. repeat split.
  - rewrite (verifyEmail_api e' req _ Hapi Htok).
    rewrite (no_holder_after_clear _ s id u _ Hone Hfound); reflexivity.
Qed.

End Verification.

(** Bob verifies with [tok-b] at clock 2000; the same link at clock 2500
    is refused. *)
Lemma verification_token_single_use_witness :
  let req := mkVerifyReq "tok-b" false in
  let s' := fst (authController.verifyEmail (H := Sample.crypto) (Sample.env 2000 true) req
                   Sample.store) in
  authController.verifyEmail (H := Sample.crypto) (Sample.env 2500 true) req s'
  = (s', json 400 false
           "Invalid verification token. The token may be incorrect or already used.").
Proof.
  intros req s'.
  refine (proj2 (verification_token_single_use (K := Sample.crypto)
                   (Sample.env 2000 true) (Sample.env 2500 true) req Sample.store s' _ _)).
  - reflexivity.
  - vm_compute. lia.
Defined.

(** ** Expired tokens *)
Section ExpiredTokens.
Context {K : Crypto}.
Context {J : JsEngine}.

Lemma reset_validation_passes (req : ResetReq) :
  reset_fields_valid req ->
  falsy (rp_token req) || falsy (rp_password req) || falsy (rp_passwordConfirm req) = false
  /\ negb (String.eqb (str (rp_password req)) (str (rp_passwordConfirm req))) = false
  /\ (code_units (str (rp_password req)) <? 6)%nat = false.
Proof.
  intros (H1 & H2 & H3 & H4 & H5). rewrite H1, H2, H3, <- H4, String.eqb_refl.
  repeat split. apply Nat.ltb_ge, H5.
Qed.

(** What [resetPassword] does with a request that passes validation. *)
Lemma resetPassword_valid (e : Env) (req : ResetReq) (s : gmap N User) :
  reset_fields_valid req ->
  authController.resetPassword e req s
  = match findOne (by_live_reset_token (sha256_hex (trim (str (rp_token req)))) (env_now e)) s with
    | None => (s, json 400 false "Invalid or expired password reset token")
    | Some (id, user) =>
        (save id (set_reset None None
                    (set_password (hashPassword (str (rp_password req))) user)) s,
         json 200 true "Password reset successfully")
    end.
Proof.
  intros Hvalid. destruct (reset_validation_passes req Hvalid) as (H1 & H2 & H3).
  unfold authController.resetPassword. rewrite H1, H2, H3. reflexivity.
Qed.

Lemma verifyEmail_expired (e : Env) (req : VerifyReq) (s : gmap N User) id u exp :
  accepts_html req = false ->
  verify_token req <> "" ->
  findOne (by_verification_token (sha256_hex (verify_token req))) s = Some (id, u) ->
  emailVerificationExpire u = Some exp ->
  exp < env_now e ->
  authController.verifyEmail e req s
  = (s, json 400 false
          "Verification token has expired. Please request a new verification email.").
Proof.
  intros Hapi Htok Hfound Hexp Hpast.
  rewrite (verifyEmail_api e req s Hapi Htok), Hfound, Hexp.
  apply Z.ltb_lt in Hpast. rewrite Hpast. reflexivity.
Qed.

Lemma resetPassword_no_live_match (e : Env) (req : ResetReq) (s : gmap N User) :
  reset_fields_valid req ->
  (forall id u, s !! id = Some u ->
                by_reset_token (sha256_hex (trim (str (rp_token req)))) u = true ->
                expires_after (passwordResetExpire u) (env_now e) = false) ->
  authController.resetPassword e req s
  = (s, json 400 false "Invalid or expired password reset token").
Proof.
  intros Hvalid Hdead. rewrite (resetPassword_valid e req s Hvalid).
  rewrite findOne_None_intro; [reflexivity |].
  intros id u Hs. unfold by_live_reset_token.
  destruct (opt_is (passwordResetToken u) _) eqn:Hm; [| reflexivity].
  cbn. apply (Hdead id u Hs Hm).
Qed.

(** C3, as the code has it. A verification token that matches a stored
    hash whose expiry is in the past is refused with 400, Verification
    token has expired, which is not the response to a token that matches
    nothing. A reset token whose hash is held only by documents whose
    expiry is not in the future is refused with 400, Invalid or expired
    password reset token: the one response [resetPassword] also gives to
    a token that matches nothing. Neither refusal changes the store. *)
Theorem expired_token_responses (e : Env) (s : gmap N User) :
  (forall (req : VerifyReq) (id : N) (u : User) (exp : Z),
      accepts_html req = false ->
      verify_token req <> "" ->
      findOne (by_verification_token (sha256_hex (verify_token req))) s = Some (id, u) ->
      emailVerificationExpire u = Some exp ->
      exp < env_now e ->
      authController.verifyEmail e req s
      = (s, json 400 false
              "Verification token has expired. Please request a new verification email.")
      /\ snd (authController.verifyEmail e req s)
         <> json 400 false
              "Invalid verification token. The token may be incorrect or already used.")
  /\ (forall (req : ResetReq),
        reset_fields_valid req ->
        (forall id u, s !! id = Some u ->
                      by_reset_token (sha256_hex (trim (str (rp_token req)))) u = true ->
                      expires_after (passwordResetExpire u) (env_now e) = false) ->
        authController.resetPassword e req s
        = (s, json 400 false "Invalid or expired password reset token")).
Proof.
  split.
  - intros req id u exp Hapi Htok Hfound Hexp Hpast.
    rewrite (verifyEmail_expired e req s id u exp Hapi Htok Hfound Hexp Hpast).
    split; [reflexivity | discriminate].
  - intros req Hvalid Hdead. exact (resetPassword_no_live_match e req s Hvalid Hdead).
Qed.

End ExpiredTokens.

(** At clock 10000 Bob's verification token (until 5000) and Cy's reset
    token (until 9000) are both past their expiry. *)
Lemma expired_token_responses_witness :
  authController.verifyEmail (H := Sample.crypto) (Sample.env 10000 true)
    (mkVerifyReq "tok-b" false) Sample.store
  = (Sample.store,
     json 400 false "Verification token has expired. Please request a new verification email.")
  /\ authController.resetPassword (H := Sample.crypto) (Sample.env 10000 true)
       (mkResetReq (Some "tok-c") (Some "newsecret") (Some "newsecret")) Sample.store
     = (Sample.store, json 400 false "Invalid or expired password reset token").
Proof.
  destruct (expired_token_responses (K := Sample.crypto) (Sample.env 10000 true) Sample.store)
    as [Hverify Hreset].
  split.
  - refine (proj1 (Hverify (mkVerifyReq "tok-b" false) 2%N Sample.bob 5000 _ _ _ _ _));
      [reflexivity | discriminate | reflexivity | reflexivity | reflexivity].
  - apply Hreset.
    + repeat split. vm_compute. lia.
    + intros id u Hlook Hmatch.
      apply elem_of_map_to_list in Hlook. vm_compute in Hlook.
      repeat (apply elem_of_cons in Hlook as [Hlook | Hlook];
              [injection Hlook as -> ->; try reflexivity; discriminate |]).
      apply elem_of_nil in Hlook. destruct Hlook.
Defined.

(** The reset token of Cy, presented after its expiry, gets the very
    response of a token that matches no document: [resetPassword] has no
    separate answer for an expired token. *)
Lemma resetPassword_expired_not_distinct :
  let e := Sample.env 10000 true in
  let matching := mkResetReq (Some "tok-c") (Some "newsecret") (Some "newsecret") in
  let unknown := mkResetReq (Some "no-such-token") (Some "newsecret") (Some "newsecret") in
  findOne (by_reset_token (sha256_hex (Crypto := Sample.crypto) "tok-c")) Sample.store
  = Some (3%N, Sample.cy)
  /\ passwordResetExpire Sample.cy = Some 9000
  /\ findOne (by_reset_token (sha256_hex (Crypto := Sample.crypto) "no-such-token")) Sample.store
     = None
  /\ snd (authController.resetPassword (H := Sample.crypto) e matching Sample.store)
     = snd (authController.resetPassword (H := Sample.crypto) e unknown Sample.store).
Proof. vm_compute. repeat split. Qed.

(** ** Forgotten passwords and resent verifications *)
Section AccountEnumeration.
Context {K : Crypto}.
Context {J : JsEngine}.
Variable P : ProcessEnv.

Lemma set_reset_twice a b c d (u : User) :
  set_reset a b (set_reset c d u) = set_reset a b u.
Proof. reflexivity. Qed.

Lemma set_reset_same (u : User) :
  set_reset (passwordResetToken u) (passwordResetExpire u) u = u.
Proof. destruct u. reflexivity. Qed.

(** What [forgotPassword] does for an existing user. *)
Lemma forgotPassword_found (e : Env) (req : EmailReq) (s : gmap N User) id u :
  falsy (e_email req) = false ->
  findOne (by_email (toLowerCase (str (e_email req)))) s = Some (id, u) ->
  authController.forgotPassword P e req s
  = if authController.reset_link_builds P req
    then
      if env_mail_ok e
      then (save id (set_reset (Some (sha256_hex (env_random e)))
                       (Some (env_now e + hour_ms)) u) s,
            json 200 true
              "If an account exists with this email, a password reset link has been sent.")
      else (save id (set_reset None None u) s,
            json 500 false "Failed to send password reset email. Please try again later.")
    else (save id (set_reset (Some (sha256_hex (env_random e)))
                     (Some (env_now e + hour_ms)) u) s,
          server_error (TypeError_undefined "replace")
            "Server error during password reset request").
Proof.
  intros Hgiven Hfound. unfold authController.forgotPassword.
  rewrite Hgiven, Hfound.
  destruct (authController.reset_link_builds P req); [| reflexivity].
  destruct (env_mail_ok e); [reflexivity |].
  unfold save. rewrite insert_insert_eq, set_reset_twice. reflexivity.
Qed.

Lemma forgotPassword_absent (e : Env) (req : EmailReq) (s : gmap N User) :
  falsy (e_email req) = false ->
  findOne (by_email (toLowerCase (str (e_email req)))) s = None ->
  authController.forgotPassword P e req s
  = (s, json 200 true
          "If an account exists with this email, a password reset link has been sent.").
Proof.
  intros Hgiven Hnone. unfold authController.forgotPassword.
  rewrite Hgiven, Hnone. reflexivity.
Qed.

(** Without [FRONTEND_URL] and without a Host header the reset link
    cannot be built: for an existing user the request is answered 500
    after the hash and the expiry were saved, and they stay. *)
Lemma forgotPassword_without_link (e : Env) (req : EmailReq) (s : gmap N User) id u :
  falsy (e_email req) = false ->
  findOne (by_email (toLowerCase (str (e_email req)))) s = Some (id, u) ->
  falsy (FRONTEND_URL P) = true ->
  e_host req = None ->
  status (snd (authController.forgotPassword P e req s)) = 500
  /\ is_success (snd (authController.forgotPassword P e req s)) = false
  /\ fst (authController.forgotPassword P e req s) !! id
     = Some (set_reset (Some (sha256_hex (env_random e))) (Some (env_now e + hour_ms)) u).
Proof.
  intros Hgiven Hfound Hfront Hhost.
  rewrite (forgotPassword_found e req s id u Hgiven Hfound).
  unfold authController.reset_link_builds. rewrite Hfront, Hhost.
  rewrite bool_decide_eq_false_2 by (intros [x Hx]; discriminate).
  cbn. split; [reflexivity |]. split; [reflexivity |].
  unfold save. apply lookup_insert_eq.
Qed.

(** C4, as the code has it. [forgotPassword] answers a request for an
    email of no user and a request for an email of a user, when the
    reset link can be built and the mail is accepted, with the same
    response. [resendVerification] answers 200 with [success: true] for
    an email of no user and for an unverified user when the mail is
    accepted, and 400, Email is already verified, for a verified user.
    The emails are compared after the engine's [toLowerCase], whatever
    its case mapping. *)
Theorem enumeration_defence
    (e1 e2 : Env) (absent present : EmailReq) (s1 s2 : gmap N User) (id : N) (u : User) :
  falsy (e_email absent) = false ->
  falsy (e_email present) = false ->
  findOne (by_email (toLowerCase (str (e_email absent)))) s1 = None ->
  findOne (by_email (toLowerCase (str (e_email present)))) s2 = Some (id, u) ->
  snd (authController.forgotPassword P e1 absent s1)
  = json 200 true "If an account exists with this email, a password reset link has been sent."
  /\ (authController.reset_link_builds P present = true -> env_mail_ok e2 = true ->
      snd (authController.forgotPassword P e2 present s2)
      = snd (authController.forgotPassword P e1 absent s1))
  /\ snd (authController.resendVerification e1 absent s1)
     = json 200 true
         "If an account exists with this email, a verification email has been sent."
  /\ (emailVerified u = false -> env_mail_ok e2 = true ->
      status (snd (authController.resendVerification e2 present s2)) = 200
      /\ is_success (snd (authController.resendVerification e2 present s2)) = true)
  /\ (emailVerified u = true ->
      authController.resendVerification e2 present s2
      = (s2, json 400 false "Email is already verified")).
Proof.
  intros Ha Hp Hnone Hfound.
  rewrite (forgotPassword_absent e1 absent s1 Ha Hnone).
  split; [reflexivity |].
  split.
  { intros Hlink Hmail.
    rewrite (forgotPassword_found e2 present s2 id u Hp Hfound), Hlink, Hmail. reflexivity. }
  unfold authController.resendVerification. rewrite Ha, Hp, Hnone, Hfound.
  split; [reflexivity |].
  split.
  - intros -> ->. split; reflexivity.
  - intros ->. reflexivity.
Qed.

(** C7, as the code has it. For an existing user and a request whose
    reset link can be built, when the mail dispatch fails
    [forgotPassword] answers 500 and leaves the user with no reset hash
    and no reset expiry, the rest of the store being as before the
    request; this is the store of before the request when the user had
    no reset token pending. When the dispatch succeeds the user holds
    the new hash and an expiry one hour after the clock. *)
Theorem forgotPassword_dispatch_failure
    (e : Env) (req : EmailReq) (s : gmap N User) (id : N) (u : User) :
  falsy (e_email req) = false ->
  findOne (by_email (toLowerCase (str (e_email req)))) s = Some (id, u) ->
  authController.reset_link_builds P req = true ->
  (env_mail_ok e = false ->
     authController.forgotPassword P e req s
     = (save id (set_reset None None u) s,
        json 500 false "Failed to send password reset email. Please try again later.")
     /\ (passwordResetToken u = None -> passwordResetExpire u = None ->
         fst (authController.forgotPassword P e req s) = s))
  /\ (env_mail_ok e = true ->
      authController.forgotPassword P e req s
      = (save id (set_reset (Some (sha256_hex (env_random e)))
                    (Some (env_now e + hour_ms)) u) s,
         json 200 true
           "If an account exists with this email, a password reset link has been sent."))
  /\ (is_Some (fst (authController.forgotPassword P e req s) !! id ≫= passwordResetToken)
      <-> env_mail_ok e = true).
Proof.
  intros Hgiven Hfound Hlink.
  rewrite (forgotPassword_found e req s id u Hgiven Hfound), Hlink.
  destruct (env_mail_ok e); cbn [fst].
  - split; [intros [=] |]. split; [reflexivity |].
    unfold save. rewrite lookup_insert_eq. cbn. split; [reflexivity | eauto].
  - split.
    + intros _. split; [reflexivity |].
      intros Ht He. cbn. unfold save.
      rewrite <- Ht, <- He, set_reset_same.
      apply insert_id. apply (findOne_Some _ _ _ _ Hfound).
    + split; [intros [=] |].
      unfold save. rewrite lookup_insert_eq. cbn.
      split; [intros [x Hx]; discriminate | intros [=]].
Qed.

End AccountEnumeration.

(** A reset asked for an unknown address and for Ada's (typed with
    capitals), the Host header present and the mail accepted: the same
    response. *)
Lemma enumeration_defence_witness :
  snd (authController.forgotPassword (H := Sample.crypto) (J := Sample.engine) Sample.penv
         (Sample.env 2000 true)
         (mkEmailReq (Some "Ada@Example.com") (Some "localhost:3000")) Sample.store)
  = snd (authController.forgotPassword (H := Sample.crypto) (J := Sample.engine) Sample.penv
           (Sample.env 2000 true)
           (mkEmailReq (Some "nobody@example.com") (Some "localhost:3000")) Sample.store).
Proof.
  refine (proj1 (proj2 (enumeration_defence (K := Sample.crypto) (J := Sample.engine)
                   Sample.penv (Sample.env 2000 true) (Sample.env 2000 true)
                   (mkEmailReq (Some "nobody@example.com") (Some "localhost:3000"))
                   (mkEmailReq (Some "Ada@Example.com") (Some "localhost:3000"))
                   Sample.store Sample.store 1%N Sample.ada _ _ _ _)) _ _);
    reflexivity.
Defined.

(** Where the responses tell an existing address from an unknown one:
    [forgotPassword] when the mail dispatch fails, and
    [resendVerification] for a verified user and, by its message, for an
    unverified one. *)
Lemma responses_reveal_existing_email :
  let unknown := mkEmailReq (Some "nobody@example.com") (Some "localhost:3000") in
  snd (authController.forgotPassword (H := Sample.crypto) (J := Sample.engine) Sample.penv
         (Sample.env 2000 false)
         (mkEmailReq (Some "ada@example.com") (Some "localhost:3000")) Sample.store)
  <> snd (authController.forgotPassword (H := Sample.crypto) (J := Sample.engine) Sample.penv
            (Sample.env 2000 false) unknown Sample.store)
  /\ snd (authController.resendVerification (H := Sample.crypto) (J := Sample.engine)
            (Sample.env 2000 true)
            (mkEmailReq (Some "ada@example.com") (Some "localhost:3000")) Sample.store)
     <> snd (authController.resendVerification (H := Sample.crypto) (J := Sample.engine)
               (Sample.env 2000 true) unknown Sample.store)
  /\ snd (authController.resendVerification (H := Sample.crypto) (J := Sample.engine)
            (Sample.env 2000 true)
            (mkEmailReq (Some "bob@example.com") (Some "localhost:3000")) Sample.store)
     <> snd (authController.resendVerification (H := Sample.crypto) (J := Sample.engine)
               (Sample.env 2000 true) unknown Sample.store).
Proof. vm_compute. repeat split; discriminate. Qed.

(** Ada has no reset pending: a failed dispatch leaves the store as it
    was. *)
Lemma forgotPassword_dispatch_failure_witness :
  authController.forgotPassword (H := Sample.crypto) (J := Sample.engine) Sample.penv
    (Sample.env 2000 false)
    (mkEmailReq (Some "ada@example.com") (Some "localhost:3000")) Sample.store
  = (Sample.store,
     json 500 false "Failed to send password reset email. Please try again later.").
Proof.
  destruct (forgotPassword_dispatch_failure (K := Sample.crypto) (J := Sample.engine)
              Sample.penv (Sample.env 2000 false)
              (mkEmailReq (Some "ada@example.com") (Some "localhost:3000"))
              Sample.store 1%N Sample.ada
              eq_refl eq_refl eq_refl) as (Hfail & _ & _).
  destruct (Hfail eq_refl) as [Hrun Hsame].
  specialize (Hsame eq_refl eq_refl).
  rewrite Hrun in Hsame |- *. cbn [fst] in Hsame. rewrite Hsame. reflexivity.
Defined.

(** Cy has a reset pending (hash of [tok-c], valid until 9000). A second
    request at clock 2000 whose dispatch fails does not bring the store
    back to what it was before the request: the pending hash is gone. *)
Lemma forgotPassword_failure_is_not_a_rollback :
  let s' := fst (authController.forgotPassword (H := Sample.crypto) (J := Sample.engine)
                   Sample.penv (Sample.env 2000 false)
                   (mkEmailReq (Some "cy@example.com") (Some "localhost:3000"))
                   Sample.store) in
  Sample.store !! 3%N ≫= passwordResetToken = Some "sha256:tok-c"
  /\ s' !! 3%N ≫= passwordResetToken = None
  /\ s' <> Sample.store.
Proof.
  cbn zeta. split; [reflexivity |]. split; [reflexivity |].
  intros Heq. apply (f_equal (fun m : gmap N User => m !! 3%N ≫= passwordResetToken)) in Heq.
  vm_compute in Heq. discriminate.
Qed.

(** A reset asked for Ada's address by a request without Host header.
    Without [FRONTEND_URL] the link cannot be built: the answer is 500
    with the engine's message, and Ada is left with the new hash and
    expiry. With [FRONTEND_URL] set the request is answered as any
    other. *)
Example forgotPassword_without_host :
  let req := mkEmailReq (Some "ada@example.com") None in
  let e := Sample.env 2000 true in
  let out := authController.forgotPassword (H := Sample.crypto) (J := Sample.engine)
               Sample.penv e req Sample.store in
  snd out = json 500 false "Cannot read properties of undefined (reading 'replace')"
  /\ fst out !! 1%N ≫= passwordResetToken = Some "sha256:c0ffee"
  /\ fst out !! 1%N ≫= passwordResetExpire = Some (2000 + hour_ms)
  /\ snd (authController.forgotPassword (H := Sample.crypto) (J := Sample.engine)
            Sample.penv_front e req Sample.store)
     = json 200 true
         "If an account exists with this email, a password reset link has been sent.".
Proof. vm_compute. repeat split. Qed.

(** ** Refresh-token rotation *)
Section RefreshRotation.
Context {K : Crypto}.
Context {J : JsEngine}.
Variable P : ProcessEnv.

Lemma stale_save_fresh (tok : Jwt) (s : gmap N User) (id : N) (u' : User) :
  refreshToken u' <> Some tok -> stale tok s -> stale tok (save id u' s).
Proof.
  intros Hne Hst u Hlook. unfold save in Hlook.
  destruct (decide (id = jwt_id tok)) as [-> | Hid].
  - rewrite lookup_insert_eq in Hlook. injection Hlook as <-. exact Hne.
  - rewrite lookup_insert_ne in Hlook by exact Hid. apply Hst, Hlook.
Qed.

Lemma stale_save_same (tok : Jwt) (s : gmap N User) (id : N) (u u' : User) :
  s !! id = Some u -> refreshToken u' = refreshToken u ->
  stale tok s -> stale tok (save id u' s).
Proof.
  intros Hs Hsame Hst v Hlook. unfold save in Hlook.
  destruct (decide (id = jwt_id tok)) as [-> | Hid].
  - rewrite lookup_insert_eq in Hlook. injection Hlook as <-.
    rewrite Hsame. apply Hst, Hs.
  - rewrite lookup_insert_ne in Hlook by exact Hid. apply Hst, Hlook.
Qed.

(** A token signed in a later second is another token. *)
Lemma later_token_differs (tok : Jwt) (now : Z) (id : N) :
  jwt_iat tok < now / 1000 -> Some (generateRefreshToken P now id) <> Some tok.
Proof.
  intros Hlt [= Heq]. apply (f_equal jwt_iat) in Heq. cbn in Heq. lia.
Qed.

Ltac branches :=
  repeat first
    [ match goal with
      | |- context [fst (if ?c then _ else _)] => destruct c eqn:?
      | |- context [fst (match ?x with Some _ => _ | None => _ end)] =>
          destruct x as [[? ?] |] eqn:?
      | |- context [fst (match ?x with inl _ => _ | inr _ => _ end)] =>
          destruct x as [? | [[? ?] ?]] eqn:?
      end
    | progress cbn [fst generateVerificationToken generateTokens] ];
  try assumption.

Ltac found :=
  match goal with
  | H : findOne _ _ = Some _ |- _ => apply findOne_Some in H as [? ?]
  end.

Lemma register_keeps_stale (tok : Jwt) (e : Env) (req : RegisterReq) (s : gmap N User) :
  stale tok s -> stale tok (fst (authController.register e req s)).
Proof.
  intros Hst. unfold authController.register. branches.
  match goal with H : User_create _ _ _ _ _ _ _ _ = inr _ |- _ =>
    unfold User_create in H; destruct (s !! env_oid e); [discriminate |];
    injection H as <- <- <- end.
  apply (stale_save_fresh tok s); [discriminate | exact Hst].
Qed.

Lemma login_keeps_stale (tok : Jwt) (e : Env) (req : LoginReq) (s : gmap N User) :
  jwt_iat tok < env_now e / 1000 ->
  stale tok s -> stale tok (fst (authController.login P e req s)).
Proof.
  intros Hlater Hst. unfold authController.login. branches.
  destruct (env_badge_error e); cbn [fst]; [assumption |].
  apply stale_save_fresh; [| exact Hst]. cbn. apply later_token_differs, Hlater.
Qed.

Lemma verifyEmail_keeps_stale (tok : Jwt) (e : Env) (req : VerifyReq) (s : gmap N User) :
  stale tok s -> stale tok (fst (authController.verifyEmail e req s)).
Proof.
  intros Hst. unfold authController.verifyEmail. cbn zeta. branches.
  found. eapply stale_save_same; [eassumption | reflexivity | exact Hst].
Qed.

Lemma resendVerification_keeps_stale (tok : Jwt) (e : Env) (req : EmailReq) (s : gmap N User) :
  stale tok s -> stale tok (fst (authController.resendVerification e req s)).
Proof.
  intros Hst. unfold authController.resendVerification. branches;
    found; (eapply stale_save_same; [eassumption | reflexivity | exact Hst]).
Qed.

Lemma forgotPassword_keeps_stale (tok : Jwt) (e : Env) (req : EmailReq) (s : gmap N User) :
  stale tok s -> stale tok (fst (authController.forgotPassword P e req s)).
Proof.
  intros Hst. unfold authController.forgotPassword. branches; found.
  - eapply stale_save_same; [eassumption | reflexivity | exact Hst].
  - unfold save. rewrite insert_insert_eq.
    eapply (stale_save_same tok s); [eassumption | reflexivity | exact Hst].
  - eapply stale_save_same; [eassumption | reflexivity | exact Hst].
Qed.

Lemma resetPassword_keeps_stale (tok : Jwt) (e : Env) (req : ResetReq) (s : gmap N User) :
  stale tok s -> stale tok (fst (authController.resetPassword e req s)).
Proof.
  intros Hst. unfold authController.resetPassword. branches.
  found. eapply stale_save_same; [eassumption | reflexivity | exact Hst].
Qed.

Lemma refreshToken_keeps_stale (tok : Jwt) (e : Env) (req : RefreshReq) (s : gmap N User) :
  jwt_iat tok < env_now e / 1000 ->
  stale tok s -> stale tok (fst (authController.refreshToken P e req s)).
Proof.
  intros Hlater Hst. unfold authController.refreshToken.
  destruct (rt_refreshToken req) as [presented |]; [| exact Hst].
  destruct (jwt_verify presented _ _) as [err | id]; [exact Hst |].
  destruct (findById id s) as [user |]; [| exact Hst].
  destruct (negb _); [exact Hst |]. cbn.
  apply stale_save_fresh; [| exact Hst]. cbn. apply later_token_differs, Hlater.
Qed.

Lemma logout_keeps_stale (tok : Jwt) (id : N) (s : gmap N User) :
  stale tok s -> stale tok (fst (authController.logout id s)).
Proof.
  intros Hst. unfold authController.logout. cbn.
  destruct (findById id s); [| exact Hst].
  apply stale_save_fresh; [discriminate | exact Hst].
Qed.

Lemma handle_keeps_stale (tok : Jwt) (e : Env) (r : authController.Request) (s : gmap N User) :
  jwt_iat tok < env_now e / 1000 ->
  stale tok s -> stale tok (fst (authController.handle P e r s)).
Proof.
  intros Hlater Hst. destruct r as [req | req | req | req | req | bearer | req | req]; cbn.
  - apply register_keeps_stale, Hst.
  - apply login_keeps_stale; assumption.
  - apply verifyEmail_keeps_stale, Hst.
  - apply resendVerification_keeps_stale, Hst.
  - apply refreshToken_keeps_stale; assumption.
  - destruct (authController.protect P e bearer s) as [resp | [id u]]; [exact Hst |].
    apply logout_keeps_stale, Hst.
  - apply forgotPassword_keeps_stale, Hst.
  - apply resetPassword_keeps_stale, Hst.
Qed.

Lemma run_keeps_stale (tok : Jwt) (trace : list (Env * authController.Request))
    (s : gmap N User) :
  Forall (fun er => jwt_iat tok < env_now (fst er) / 1000) trace ->
  stale tok s -> stale tok (authController.run P trace s).
Proof.
  revert s. induction trace as [| [e r] trace IH]; intros s Hall Hst; [exact Hst |].
  inversion Hall as [| ? ? Hhead Htail]; subst. cbn.
  apply IH; [exact Htail |]. apply handle_keeps_stale; assumption.
Qed.
End RefreshRotation.

Section RefreshRotationClaim.
Context {K : Crypto}.
Context {J : JsEngine}.
Variable P : ProcessEnv.

(** A token that is not the stored one is refused and nothing changes;
    the message tells an expired token from a mismatch. *)
Lemma refreshToken_stale (tok : Jwt) (e : Env) (s : gmap N User) :
  jwt_key tok = refresh_secret P ->
  stale tok s ->
  authController.refreshToken P e (mkRefreshReq (Some tok)) s
  = (s, json 401 false
          (if jwt_exp tok <=? env_now e / 1000
           then "Invalid or expired refresh token"
           else "Invalid refresh token")).
Proof.
  intros Hkey Hst. unfold authController.refreshToken, jwt_verify. cbn.
  rewrite Hkey, String.eqb_refl.
  destruct (jwt_exp tok <=? env_now e / 1000); [reflexivity |].
  unfold findById. destruct (s !! jwt_id tok) as [u |] eqn:Hu; [| reflexivity].
  rewrite bool_decide_eq_false_2 by (apply Hst, Hu). reflexivity.
Qed.

Lemma jwt_verify_ok (tok : Jwt) (secret : string) (now : Z) (id : N) :
  jwt_verify tok secret now = inr id ->
  jwt_key tok = secret /\ jwt_id tok = id /\ now / 1000 < jwt_exp tok.
Proof.
  unfold jwt_verify. destruct (String.eqb_spec (jwt_key tok) secret) as [Hk | Hk]; [| discriminate].
  destruct (jwt_exp tok <=? now / 1000) eqn:Hexp; [discriminate |].
  intros [= <-]. apply Z.leb_gt in Hexp. auto.
Qed.

(** A successful login stores the refresh token it hands out. *)
Lemma login_stores_issued_token (e : Env) (req : LoginReq) (s s' : gmap N User) (r : Response) :
  authController.login P e req s = (s', r) ->
  is_success r = true ->
  exists id view access,
    body r = Json true (Some "Login successful")
               (LoginData view access (generateRefreshToken P (env_now e) id))
    /\ s' !! id ≫= refreshToken = Some (generateRefreshToken P (env_now e) id).
Proof.
  unfold authController.login.
  destruct (_ || _); [intros [= <- <-]; discriminate |].
  destruct (findOne _ s) as [[id u] |]; [| intros [= <- <-]; discriminate].
  destruct (negb (emailVerified u)); [intros [= <- <-]; discriminate |].
  destruct (negb (matchPassword _ _)); [intros [= <- <-]; discriminate |].
  destruct (env_badge_error e); [intros [= <- <-]; discriminate |].
  cbn. intros [= <- <-] _. eexists id, _, _. split; [reflexivity |].
  unfold save. rewrite lookup_insert_eq. reflexivity.
Qed.

(** C1, as the code has it. Let [tok] be a refresh token that verifies
    at the clock of the request and names the user [id].
    - If [tok] is not the token stored for [id], the request is refused
      with 401, Invalid refresh token, and the store is unchanged.
    - If it is the stored token, the request succeeds, and the stored
      token becomes the newly issued one, which the response carries.
    - If moreover [tok] was issued in an earlier clock second than the
      request, then after any further requests served at later clocks
      a request presenting [tok] is refused with 401 and changes
      nothing.
    - If instead [tok] was issued, with the configured life span, in
      the clock second of the request, the newly issued token is [tok]
      itself. *)
Theorem refresh_token_rotation
    (e : Env) (s : gmap N User) (tok : Jwt) (id : N) (u : User) :
  jwt_verify tok (refresh_secret P) (env_now e) = inr id ->
  s !! id = Some u ->
  (refreshToken u <> Some tok ->
     authController.refreshToken P e (mkRefreshReq (Some tok)) s
     = (s, json 401 false "Invalid refresh token"))
  /\ (refreshToken u = Some tok ->
      let issued := generateRefreshToken P (env_now e) id in
      let s' := save id (set_refreshToken (Some issued) u) s in
      authController.refreshToken P e (mkRefreshReq (Some tok)) s
      = (s', mkResponse 200
               (Json true None (TokenData (generateAccessToken P (env_now e) id) issued)))
      /\ s' !! id ≫= refreshToken = Some issued
      /\ (jwt_iat tok < env_now e / 1000 ->
          forall (trace : list (Env * authController.Request)) (e' : Env),
            Forall (fun er => env_now e <= env_now (fst er)) trace ->
            authController.refreshToken P e' (mkRefreshReq (Some tok))
              (authController.run P trace s')
            = (authController.run P trace s',
               json 401 false
                 (if jwt_exp tok <=? env_now e' / 1000
                  then "Invalid or expired refresh token"
                  else "Invalid refresh token")))
      /\ (jwt_iat tok = env_now e / 1000 ->
          jwt_exp tok = jwt_iat tok + refresh_expire P ->
          issued = tok)).
Proof.
  intros Hverify Hu.
  destruct (jwt_verify_ok tok _ _ id Hverify) as (Hkey & Hid & Hlive).
  split.
  - intros Hne. unfold authController.refreshToken. cbn.
    rewrite Hverify. unfold findById. rewrite Hu.
    rewrite bool_decide_eq_false_2 by exact Hne. reflexivity.
  - intros Hcur issued s'. split; [| split; [| split]].
    + unfold authController.refreshToken. cbn.
      rewrite Hverify. unfold findById. rewrite Hu.
      rewrite bool_decide_eq_true_2 by exact Hcur. reflexivity.
    + unfold s', save. rewrite lookup_insert_eq. reflexivity.
    + intros Hearlier trace e' Htrace.
      apply refreshToken_stale; [exact Hkey |].
      apply run_keeps_stale.
      * eapply Forall_impl; [exact Htrace |]. cbn. intros [e0 r0] Hle. cbn in *.
        pose proof (Z.div_le_mono (env_now e) (env_now e0) 1000 ltac:(lia) Hle). lia.
      * intros v Hv. unfold s', save in Hv. rewrite Hid, lookup_insert_eq in Hv.
        injection Hv as <-. cbn. apply later_token_differs, Hearlier.
    + intros Hiat Hexp. unfold issued, generateRefreshToken, jwt_sign.
      destruct tok as [tid tiat texp tkey]. cbn in *. subst. reflexivity.
Qed.

End RefreshRotationClaim.

(** Ada's token was issued at clock 1000. She refreshes at clock 5000,
    logs in again at 6000 and refreshes once more at 7000 with the token
    of that login; the first token, presented at 8000, is refused. *)
Lemma refresh_token_rotation_witness :
  let old := Sample.ada_token in
  let s1 := fst (authController.refreshToken Sample.penv
                   (Sample.env 5000 true) (mkRefreshReq (Some old)) Sample.store) in
  let trace :=
    [ (Sample.env 6000 true,
       authController.Login (mkLoginReq (Some "ada@example.com") (Some "secret1")));
      (Sample.env 7000 true,
       authController.RefreshToken
         (mkRefreshReq (Some (generateRefreshToken Sample.penv 6000 1%N)))) ] in
  let s2 := authController.run (H := Sample.crypto) (J := Sample.engine) Sample.penv trace s1 in
  authController.refreshToken Sample.penv (Sample.env 8000 true)
    (mkRefreshReq (Some old)) s2
  = (s2, json 401 false "Invalid refresh token").
Proof.
  intros old s1 trace s2.
  destruct (refresh_token_rotation (K := Sample.crypto) (J := Sample.engine) Sample.penv (Sample.env 5000 true)
              Sample.store old 1%N Sample.ada eq_refl eq_refl) as [_ Hcurrent].
  destruct (Hcurrent eq_refl) as (Hrun & _ & Hlater & _).
  specialize (Hlater ltac:(reflexivity) trace (Sample.env 8000 true)).
  unfold s2, s1. rewrite Hrun. cbn [fst]. apply Hlater.
  repeat constructor; cbn; lia.
Defined.

(** Ada's token was issued at clock 1000 ms. A refresh at clock 1500 ms,
    in the same second, succeeds and issues the very same token, so the
    token presented is still the stored one and a later request with it
    succeeds again. *)
Lemma rotated_token_still_accepted :
  let old := Sample.ada_token in
  let first := authController.refreshToken Sample.penv
                 (Sample.env 1500 true) (mkRefreshReq (Some old)) Sample.store in
  let second := authController.refreshToken Sample.penv
                  (Sample.env 1600 true) (mkRefreshReq (Some old)) (fst first) in
  Sample.store !! 1%N ≫= refreshToken = Some old
  /\ is_success (snd first) = true
  /\ fst first !! 1%N ≫= refreshToken = Some old
  /\ is_success (snd second) = true
  /\ status (snd second) = 200.
Proof. vm_compute. repeat split. Qed.

(* ===================================================================== *)
(** * Further properties of the lifecycle                                 *)
(* ===================================================================== *)

Ltac case_branches :=
  repeat first
    [ match goal with
      | |- context [fst (if ?c then _ else _)] => destruct c eqn:?
      | |- context [fst (match ?x with Some _ => _ | None => _ end)] =>
          destruct x as [[? ?] |] eqn:?
      | |- context [fst (match ?x with inl _ => _ | inr _ => _ end)] =>
          destruct x as [? | [[? ?] ?]] eqn:?
      end
    | progress cbn [fst generateVerificationToken generateTokens] ].

(** A property of every pair in the enumeration of a store holds of
    every document looked up in it. *)
Lemma store_forall (Q : N -> User -> Prop) (s : gmap N User) :
  Forall (fun kv => Q (fst kv) (snd kv)) (map_to_list s) ->
  forall id u, s !! id = Some u -> Q id u.
Proof.
  intros Hall id u Hs. rewrite Forall_forall in Hall.
  apply (Hall (id, u)). apply elem_of_map_to_list. exact Hs.
Qed.

Section Lifecycle.
Context {K : Crypto}.
Context {J : JsEngine}.
Variable P : ProcessEnv.

Lemma register_shape (e : Env) (req : RegisterReq) (s : gmap N User) :
  step_shape s (fst (authController.register e req s)).
Proof.
  unfold authController.register. case_branches; try (apply shape_same; reflexivity).
  match goal with Hc : User_create _ _ _ _ _ _ _ _ = inr _ |- _ =>
    unfold User_create in Hc; destruct (s !! env_oid e) eqn:Hfree; [discriminate |];
    injection Hc as <- <- <- end.
  eapply shape_create; [exact Hfree | | | reflexivity].
  - repeat split; cbn; eauto.
  - intros id0 u0 Hs0 Heq. cbn in Heq.
    match goal with Hn : findOne _ s = None |- _ =>
      pose proof (findOne_None _ _ Hn id0 u0 Hs0) as Hb end.
    unfold by_email in Hb. rewrite Heq, String.eqb_refl in Hb. discriminate.
Qed.

Lemma login_shape (e : Env) (req : LoginReq) (s : gmap N User) :
  step_shape s (fst (authController.login P e req s)).
Proof.
  unfold authController.login. case_branches; try (apply shape_same; reflexivity).
  destruct (env_badge_error e); cbn [fst]; [apply shape_same; reflexivity |].
  match goal with Hf : findOne _ s = Some _ |- _ => apply findOne_Some in Hf as [Hs _] end.
  eapply shape_update; [exact Hs | | reflexivity].
  apply lu_login.
  match goal with Hv : negb (emailVerified _) = false |- _ =>
    apply negb_false_iff in Hv; exact Hv end.
Qed.

Lemma verifyEmail_shape (e : Env) (req : VerifyReq) (s : gmap N User) :
  step_shape s (fst (authController.verifyEmail e req s)).
Proof.
  unfold authController.verifyEmail. cbn zeta.
  case_branches; try (apply shape_same; reflexivity).
  match goal with Hf : findOne _ s = Some _ |- _ => apply findOne_Some in Hf as [Hs _] end.
  eapply shape_update; [exact Hs | | reflexivity].
  apply lu_verify. assumption.
Qed.

Lemma resendVerification_shape (e : Env) (req : EmailReq) (s : gmap N User) :
  step_shape s (fst (authController.resendVerification e req s)).
Proof.
  unfold authController.resendVerification.
  case_branches; try (apply shape_same; reflexivity);
    match goal with Hf : findOne _ s = Some _ |- _ => apply findOne_Some in Hf as [Hs _] end;
    (eapply shape_update; [exact Hs | | reflexivity]); apply lu_resend; assumption.
Qed.

Lemma refreshToken_shape (e : Env) (req : RefreshReq) (s : gmap N User) :
  step_shape s (fst (authController.refreshToken P e req s)).
Proof.
  unfold authController.refreshToken.
  destruct (rt_refreshToken req) as [presented |]; [| apply shape_same; reflexivity].
  destruct (jwt_verify presented _ _) as [err | id]; [apply shape_same; reflexivity |].
  destruct (findById id s) as [user |] eqn:Hs; [| apply shape_same; reflexivity].
  destruct (negb _); [apply shape_same; reflexivity |]. cbn.
  eapply shape_update; [exact Hs | apply lu_session | reflexivity].
Qed.

Lemma logout_shape (id : N) (s : gmap N User) :
  step_shape s (fst (authController.logout id s)).
Proof.
  unfold authController.logout. cbn.
  destruct (findById id s) as [user |] eqn:Hs; [| apply shape_same; reflexivity].
  eapply shape_update; [exact Hs | apply lu_session | reflexivity].
Qed.

Lemma forgotPassword_shape (e : Env) (req : EmailReq) (s : gmap N User) :
  step_shape s (fst (authController.forgotPassword P e req s)).
Proof.
  unfold authController.forgotPassword.
  case_branches; try (apply shape_same; reflexivity);
    match goal with Hf : findOne _ s = Some _ |- _ => apply findOne_Some in Hf as [Hs _] end.
  - eapply shape_update; [exact Hs | apply lu_reset_issue | reflexivity].
  - eapply shape_update; [exact Hs | apply lu_reset_clear |].
    unfold save. rewrite insert_insert_eq. reflexivity.
  - eapply shape_update; [exact Hs | apply lu_reset_issue | reflexivity].
Qed.

Lemma resetPassword_shape (e : Env) (req : ResetReq) (s : gmap N User) :
  step_shape s (fst (authController.resetPassword e req s)).
Proof.
  unfold authController.resetPassword.
  case_branches; try (apply shape_same; reflexivity).
  match goal with Hf : findOne _ s = Some _ |- _ => apply findOne_Some in Hf as [Hs _] end.
  eapply shape_update; [exact Hs | apply lu_password | reflexivity].
Qed.

(** Every request changes at most one document, in one of the ways of
    [lifecycle_update], or adds a newly registered one. *)
Lemma handle_shape (e : Env) (r : authController.Request) (s : gmap N User) :
  step_shape s (fst (authController.handle P e r s)).
Proof.
  destruct r as [req | req | req | req | req | bearer | req | req]; cbn.
  - apply register_shape.
  - apply login_shape.
  - apply verifyEmail_shape.
  - apply resendVerification_shape.
  - apply refreshToken_shape.
  - destruct (authController.protect P e bearer s) as [resp | [id u]];
      [apply shape_same; reflexivity | apply logout_shape].
  - apply forgotPassword_shape.
  - apply resetPassword_shape.
Qed.

(** What every step keeps, every run keeps. *)
Lemma run_invariant (I : gmap N User -> Prop) :
  (forall s s', step_shape s s' -> I s -> I s') ->
  forall trace s, I s -> I (authController.run P trace s).
Proof.
  intros Hstep trace. induction trace as [| [e r] trace IH]; intros s Hs; [exact Hs |].
  cbn. apply IH. apply (Hstep s); [apply handle_shape | exact Hs].
Qed.

End Lifecycle.

Section LifecycleInvariants.
Context {K : Crypto}.
Context {J : JsEngine}.
Variable P : ProcessEnv.

Lemma lifecycle_update_identity (u u' : User) :
  lifecycle_update u u' ->
  fullName u' = fullName u /\ email u' = email u /\ role u' = role u
  /\ (emailVerified u = true -> emailVerified u' = true).
Proof. intros Hu. destruct Hu; cbn; repeat split; auto. Qed.

Lemma step_keeps_known (s0 s s' : gmap N User) :
  step_shape s s' ->
  (forall id u, s0 !! id = Some u ->
     exists u', s !! id = Some u' /\ fullName u' = fullName u /\ email u' = email u
                /\ role u' = role u /\ (emailVerified u = true -> emailVerified u' = true)) ->
  (forall id u, s0 !! id = Some u ->
     exists u', s' !! id = Some u' /\ fullName u' = fullName u /\ email u' = email u
                /\ role u' = role u /\ (emailVerified u = true -> emailVerified u' = true)).
Proof.
  intros Hshape Hinv id u Hs0. destruct (Hinv id u Hs0) as (u1 & Hs & Hf & He & Hr & Hv).
  destruct Hshape as [-> | id0 v v' Hv0 Hupd -> | id0 v' Hfree _ _ ->].
  - eauto 10.
  - destruct (decide (id0 = id)) as [-> | Hne].
    + rewrite Hs in Hv0. injection Hv0 as <-.
      destruct (lifecycle_update_identity _ _ Hupd) as (Hf' & He' & Hr' & Hv').
      exists v'. rewrite lookup_insert_eq. repeat split; try congruence. auto.
    + exists u1. rewrite lookup_insert_ne by exact Hne. auto.
  - exists u1. rewrite lookup_insert_ne by congruence. auto.
Qed.

Lemma step_keeps_new_roles (s0 s s' : gmap N User) :
  step_shape s s' ->
  (forall id u', s !! id = Some u' -> s0 !! id = None -> role u' = "user") ->
  (forall id u', s' !! id = Some u' -> s0 !! id = None -> role u' = "user").
Proof.
  intros Hshape Hinv id u' Hs' Hs0.
  destruct Hshape as [-> | id0 v v' Hv0 Hupd -> | id0 v' Hfree Hnew _ ->].
  - eauto.
  - destruct (decide (id0 = id)) as [-> | Hne].
    + rewrite lookup_insert_eq in Hs'. injection Hs' as <-.
      destruct (lifecycle_update_identity _ _ Hupd) as (_ & _ & -> & _). eauto.
    + rewrite lookup_insert_ne in Hs' by exact Hne. eauto.
  - destruct (decide (id0 = id)) as [-> | Hne].
    + rewrite lookup_insert_eq in Hs'. injection Hs' as <-. apply Hnew.
    + rewrite lookup_insert_ne in Hs' by exact Hne. eauto.
Qed.

Lemma run_keeps_users_and_roles
    (trace : list (Env * authController.Request)) (s : gmap N User) :
  (forall id u, s !! id = Some u ->
     exists u', authController.run P trace s !! id = Some u'
                /\ fullName u' = fullName u /\ email u' = email u /\ role u' = role u
                /\ (emailVerified u = true -> emailVerified u' = true))
  /\ (forall id u', authController.run P trace s !! id = Some u' ->
                    s !! id = None -> role u' = "user").
Proof.
  apply (run_invariant P
           (fun s' =>
              (forall id u, s !! id = Some u ->
                 exists u', s' !! id = Some u' /\ fullName u' = fullName u
                            /\ email u' = email u /\ role u' = role u
                            /\ (emailVerified u = true -> emailVerified u' = true))
              /\ (forall id u', s' !! id = Some u' -> s !! id = None -> role u' = "user"))).
  - intros s1 s2 Hshape [H1 H2]. split.
    + exact (step_keeps_known s s1 s2 Hshape H1).
    + exact (step_keeps_new_roles s s1 s2 Hshape H2).
  - split.
    + intros id u Hs. exists u. auto.
    + intros id u' Hs Hnone. congruence.
Qed.

(** X1. Whatever requests the authentication controller serves, every
    user of the store it started from is still there with the same name,
    email and role, and still verified if it was; every user that was
    added has role user. *)
Theorem lifecycle_keeps_users_and_roles
    (trace : list (Env * authController.Request)) (s : gmap N User) :
  (forall id u, s !! id = Some u ->
     exists u', authController.run P trace s !! id = Some u'
                /\ fullName u' = fullName u /\ email u' = email u /\ role u' = role u
                /\ (emailVerified u = true -> emailVerified u' = true))
  /\ (forall id u', authController.run P trace s !! id = Some u' ->
                    s !! id = None -> role u' = "user").
Proof.
  destruct (run_keeps_users_and_roles trace s) as [Hold Hnew].
  split; [exact Hold | exact Hnew].
Qed.

(** X2. A verified user holds no verification hash and no verification
    expiry: if this is so of every document before a run of requests, it
    is so after it. *)
Theorem lifecycle_keeps_verified_cleared
    (trace : list (Env * authController.Request)) (s : gmap N User) :
  verified_means_cleared s -> verified_means_cleared (authController.run P trace s).
Proof.
  apply run_invariant. clear s. intros s s' Hshape Hinv id u Hs' Hver.
  destruct Hshape as [-> | id0 v v' Hv0 Hupd -> | id0 v' Hfree Hnew _ ->].
  - eauto.
  - destruct (decide (id0 = id)) as [-> | Hne].
    + rewrite lookup_insert_eq in Hs'. injection Hs' as <-.
      destruct Hupd; cbn in *; try (apply (Hinv id v Hv0); assumption);
        try (split; reflexivity); congruence.
    + rewrite lookup_insert_ne in Hs' by exact Hne. eauto.
  - destruct (decide (id0 = id)) as [-> | Hne].
    + rewrite lookup_insert_eq in Hs'. injection Hs' as <-.
      destruct Hnew as (_ & Hunv & _). congruence.
    + rewrite lookup_insert_ne in Hs' by exact Hne. eauto.
Qed.

(** X3. A verification hash and its expiry, and a reset hash and its
    expiry, are set together or not at all: if this is so of every
    document before a run of requests, it is so after it. *)
Theorem lifecycle_keeps_pairs_together
    (trace : list (Env * authController.Request)) (s : gmap N User) :
  pairs_together s -> pairs_together (authController.run P trace s).
Proof.
  apply run_invariant. clear s. intros s s' Hshape Hinv id u Hs'.
  destruct Hshape as [-> | id0 v v' Hv0 Hupd -> | id0 v' Hfree Hnew _ ->].
  - eauto.
  - destruct (decide (id0 = id)) as [-> | Hne].
    + rewrite lookup_insert_eq in Hs'. injection Hs' as <-.
      destruct (Hinv id v Hv0) as [Hv Hr].
      destruct Hupd; cbn; split; try assumption;
        try (split; intros [x Hx]; discriminate);
        try (split; intros _; eexists; reflexivity).
    + rewrite lookup_insert_ne in Hs' by exact Hne. eauto.
  - destruct (decide (id0 = id)) as [-> | Hne].
    + rewrite lookup_insert_eq in Hs'. injection Hs' as <-.
      destruct Hnew as (_ & _ & Ht & He & Hrt & Hre & _).
      split; [split; auto |]. rewrite Hrt, Hre. split; intros [x Hx]; discriminate.
    + rewrite lookup_insert_ne in Hs' by exact Hne. eauto.
Qed.

(** X4. No two users get the same email: if the emails of the store are
    pairwise distinct before a run of requests, they are after it. *)
Theorem lifecycle_keeps_emails_distinct
    (trace : list (Env * authController.Request)) (s : gmap N User) :
  emails_distinct s -> emails_distinct (authController.run P trace s).
Proof.
  apply run_invariant. clear s. intros s s' Hshape Hinv id1 id2 u1 u2 H1 H2 Heq.
  destruct Hshape as [-> | id0 v v' Hv0 Hupd -> | id0 v' Hfree Hnew Hfresh ->].
  - eauto.
  - destruct (lifecycle_update_identity _ _ Hupd) as (_ & He & _).
    destruct (decide (id0 = id1)) as [<- | N1]; destruct (decide (id0 = id2)) as [<- | N2];
      try reflexivity.
    + rewrite lookup_insert_eq in H1. rewrite lookup_insert_ne in H2 by exact N2.
      injection H1 as <-. apply (Hinv id0 id2 v u2); congruence.
    + rewrite lookup_insert_eq in H2. rewrite lookup_insert_ne in H1 by exact N1.
      injection H2 as <-. apply (Hinv id1 id0 u1 v); congruence.
    + rewrite lookup_insert_ne in H1 by exact N1. rewrite lookup_insert_ne in H2 by exact N2.
      eauto.
  - destruct (decide (id0 = id1)) as [<- | N1]; destruct (decide (id0 = id2)) as [<- | N2];
      try reflexivity.
    + rewrite lookup_insert_eq in H1. rewrite lookup_insert_ne in H2 by exact N2.
      injection H1 as <-. exfalso. apply (Hfresh id2 u2 H2). congruence.
    + rewrite lookup_insert_eq in H2. rewrite lookup_insert_ne in H1 by exact N1.
      injection H2 as <-. exfalso. apply (Hfresh id1 u1 H1). congruence.
    + rewrite lookup_insert_ne in H1 by exact N1. rewrite lookup_insert_ne in H2 by exact N2.
      eauto.
Qed.

End LifecycleInvariants.

(** ** Sessions: login, the two tokens, logout *)
Section Sessions.
Context {K : Crypto}.
Context {J : JsEngine}.
Variable P : ProcessEnv.

Lemma jwt_sign_verify (id : N) (secret : string) (span now now' : Z) :
  jwt_verify (jwt_sign id secret span now) secret now'
  = if now / 1000 + span <=? now' / 1000 then inl TokenExpiredError else inr id.
Proof. unfold jwt_verify, jwt_sign. cbn. rewrite String.eqb_refl. reflexivity. Qed.

Lemma jwt_verify_other_secret (id : N) (secret other : string) (span now now' : Z) :
  secret <> other ->
  jwt_verify (jwt_sign id secret span now) other now' = inl JsonWebTokenError.
Proof.
  intros Hne. unfold jwt_verify, jwt_sign. cbn.
  apply String.eqb_neq in Hne. rewrite Hne. reflexivity.
Qed.

(** X5. The tokens of a successful login belong to the user who logged
    in and work on the store the login leaves. The user is the one
    [findOne] finds for the email of the request, verified and with the
    password of the request; the response shows that user's document as
    stored, and both tokens carry that user's id, the refresh token
    being the one stored. The access token authenticates that user at
    every clock before its expiry and is refused as expired from then
    on, and the refresh token is accepted by [refreshToken] at every
    clock before its own expiry. *)
Theorem login_tokens_work
    (e e' : Env) (req : LoginReq) (s s' : gmap N User) (r : Response) :
  authController.login P e req s = (s', r) ->
  is_success r = true ->
  exists id u u' access refresh,
    findOne (by_email (str (l_email req))) s = Some (id, u)
    /\ emailVerified u = true
    /\ matchPassword u (str (l_password req)) = true
    /\ s' !! id = Some u'
    /\ fullName u' = fullName u /\ email u' = email u /\ password u' = password u
    /\ refreshToken u' = Some refresh
    /\ body r = Json true (Some "Login successful") (LoginData (view id u') access refresh)
    /\ jwt_id access = id /\ jwt_id refresh = id
    /\ (env_now e' / 1000 < env_now e / 1000 + access_expire P ->
        authController.protect P e' (Some access) s' = inr (id, u'))
    /\ (env_now e / 1000 + access_expire P <= env_now e' / 1000 ->
        authController.protect P e' (Some access) s'
        = inl (mkResponse 401
                 (Json false (Some "Token expired. Please refresh your session.") ExpiredFlag)))
    /\ (env_now e' / 1000 < env_now e / 1000 + refresh_expire P ->
        is_success (snd (authController.refreshToken P e' (mkRefreshReq (Some refresh)) s'))
        = true).
Proof.
  intros Hlogin Hok.
  destruct (login_success_inv P e req s s' r Hlogin Hok) as (id & u & Hfound & Hs' & _).
  unfold authController.login in Hlogin.
  destruct (_ || _); [injection Hlogin as <- <-; discriminate |].
  rewrite Hfound in Hlogin.
  destruct (emailVerified u) eqn:Hver; cbn [negb] in Hlogin;
    [| injection Hlogin as <- <-; discriminate].
  destruct (matchPassword u (str (l_password req))) eqn:Hpw; cbn [negb] in Hlogin;
    [| injection Hlogin as <- <-; discriminate].
  destruct (env_badge_error e); [injection Hlogin as <- <-; discriminate |].
  cbn in Hlogin. injection Hlogin as <- <-. cbn [body].
  eexists id, u, _, _, _. split; [exact Hfound |].
  split; [exact Hver |]. split; [exact Hpw |].
  split; [unfold save; apply lookup_insert_eq |].
  do 4 (split; [reflexivity |]).
  split; [reflexivity |].
  split; [reflexivity |]. split; [reflexivity |].
  unfold authController.protect, authController.refreshToken, generateAccessToken,
    generateRefreshToken. cbn [rt_refreshToken]. rewrite !jwt_sign_verify.
  unfold findById, save.
  repeat split.
  - intros Hlive. apply Z.leb_gt in Hlive. rewrite Hlive, lookup_insert_eq. reflexivity.
  - intros Hdead. apply Z.leb_le in Hdead. rewrite Hdead. reflexivity.
  - intros Hlive. apply Z.leb_gt in Hlive. rewrite Hlive, lookup_insert_eq. cbn.
    rewrite bool_decide_eq_true_2 by reflexivity. reflexivity.
Qed.

(** X6. When the two signing secrets differ, as the built-in ones do, an
    access token is refused where a refresh token is expected and the
    other way round, whatever the clock and the store. *)
Theorem tokens_are_not_interchangeable
    (e : Env) (s : gmap N User) (now : Z) (id : N) :
  access_secret P <> refresh_secret P ->
  authController.refreshToken P e (mkRefreshReq (Some (generateAccessToken P now id))) s
  = (s, json 401 false "Invalid or expired refresh token")
  /\ authController.protect P e (Some (generateRefreshToken P now id)) s
     = inl (json 401 false "Not authorized to access this route")
  /\ auth.optionalAuth P e (Some (generateRefreshToken P now id)) s = None.
Proof.
  intros Hne.
  unfold authController.refreshToken, authController.protect, auth.optionalAuth,
    generateAccessToken, generateRefreshToken. cbn [rt_refreshToken].
  rewrite jwt_verify_other_secret by exact Hne.
  rewrite jwt_verify_other_secret by congruence.
  repeat split.
Qed.

(** X7. Logging out revokes the refresh token: once [protect] has let
    the request through, the answer is 200 and the user holds no refresh
    token, so that every later refresh request with a token naming this
    user is refused and changes nothing; logging out again changes
    nothing either. *)
Theorem logout_revokes_refresh_token
    (e e' : Env) (bearer : option Jwt) (s : gmap N User) (id : N) (u : User) :
  authController.protect P e bearer s = inr (id, u) ->
  let s' := fst (authController.handle P e (authController.Logout bearer) s) in
  snd (authController.handle P e (authController.Logout bearer) s)
  = json 200 true "Logged out successfully"
  /\ s' !! id = Some (set_refreshToken None u)
  /\ (forall tok, jwt_id tok = id ->
        fst (authController.refreshToken P e' (mkRefreshReq (Some tok)) s') = s'
        /\ status (snd (authController.refreshToken P e' (mkRefreshReq (Some tok)) s')) = 401)
  /\ fst (authController.logout id s') = s'.
Proof.
  intros Hprotect. cbn. rewrite Hprotect.
  assert (Hs : s !! id = Some u).
  { unfold authController.protect in Hprotect.
    destruct bearer as [tok |]; [| discriminate].
    destruct (jwt_verify tok _ _) as [[] | id0]; try discriminate.
    unfold findById in Hprotect. destruct (s !! id0) eqn:Hl; [| discriminate].
    injection Hprotect as <- <-. exact Hl. }
  unfold authController.logout, findById. rewrite Hs. cbn [fst snd].
  split; [reflexivity |].
  split; [unfold save; apply lookup_insert_eq |].
  split.
  - intros tok Hid. unfold authController.refreshToken. cbn [rt_refreshToken].
    destruct (jwt_verify tok _ _) as [err | id0] eqn:Hv; [split; reflexivity |].
    apply jwt_verify_ok in Hv as (_ & Hid0 & _).
    assert (id0 = id) as -> by congruence.
    unfold findById, save. rewrite lookup_insert_eq. cbn.
    rewrite bool_decide_eq_false_2 by discriminate. split; reflexivity.
  - unfold save. rewrite lookup_insert_eq. cbn. rewrite insert_insert_eq. reflexivity.
Qed.

End Sessions.

(** ** Requests that fail *)
Section Failures.
Context {K : Crypto}.
Context {J : JsEngine}.
Variable P : ProcessEnv.

Ltac settle := cbn; intros; first [reflexivity | discriminate].

(** X8. A request to register, log in, verify an email, refresh a token
    or reset a password that is not answered with success leaves the
    store as it was; so does every verification request of a browser
    (Accept: text/html), which is answered with a page and verifies
    nothing. *)
Theorem failed_requests_change_nothing (e : Env) (s : gmap N User) :
  (forall req, is_success (snd (authController.register e req s)) = false ->
               fst (authController.register e req s) = s)
  /\ (forall req, is_success (snd (authController.login P e req s)) = false ->
                  fst (authController.login P e req s) = s)
  /\ (forall req, is_success (snd (authController.verifyEmail e req s)) = false ->
                  fst (authController.verifyEmail e req s) = s)
  /\ (forall req, is_success (snd (authController.refreshToken P e req s)) = false ->
                  fst (authController.refreshToken P e req s) = s)
  /\ (forall req, is_success (snd (authController.resetPassword e req s)) = false ->
                  fst (authController.resetPassword e req s) = s)
  /\ (forall req, accepts_html req = true ->
                  fst (authController.verifyEmail e req s) = s
                  /\ exists page_ok msg tok,
                       body (snd (authController.verifyEmail e req s))
                       = VerificationPage page_ok msg tok).
Proof.
  split; [| split; [| split; [| split; [| split]]]]; intros req.
  - unfold authController.register. case_branches; settle.
  - unfold authController.login. case_branches; try settle.
    destruct (env_badge_error e); settle.
  - unfold authController.verifyEmail. cbn zeta. case_branches; settle.
  - unfold authController.refreshToken.
    destruct (rt_refreshToken req) as [presented |]; [| settle].
    destruct (jwt_verify presented _ _) as [err | id]; [settle |].
    destruct (findById id s) as [user |]; [| settle].
    destruct (negb _); settle.
  - unfold authController.resetPassword. case_branches; settle.
  - intros Hhtml. unfold authController.verifyEmail. cbn zeta. rewrite Hhtml.
    destruct (_ || _); cbn; split; eauto.
Qed.

(** What [resendVerification] does for an unverified user. *)
Lemma resendVerification_found (e : Env) (req : EmailReq) (s : gmap N User) id u :
  falsy (e_email req) = false ->
  findOne (by_email (toLowerCase (str (e_email req)))) s = Some (id, u) ->
  emailVerified u = false ->
  authController.resendVerification e req s
  = (save id (set_verification (Some (sha256_hex (env_random e)))
                (Some (env_now e + day_ms)) u) s,
     if env_mail_ok e
     then json 200 true "Verification email sent successfully. Please check your email."
     else json 500 false "Failed to send verification email. Please try again later.").
Proof.
  intros Hgiven Hfound Hunv. unfold authController.resendVerification.
  rewrite Hgiven, Hfound, Hunv. cbn. destruct (env_mail_ok e); reflexivity.
Qed.

Lemma findOne_only (f : User -> bool) (s : gmap N User) (id : N) (u : User) :
  s !! id = Some u -> f u = true ->
  (forall id2 u2, s !! id2 = Some u2 -> f u2 = true -> id2 = id) ->
  findOne f s = Some (id, u).
Proof.
  intros Hs Hf Honly. destruct (findOne f s) as [[id2 u2] |] eqn:Hfind.
  - apply findOne_Some in Hfind as [Hs2 Hf2].
    pose proof (Honly id2 u2 Hs2 Hf2) as ->. congruence.
  - pose proof (findOne_None f s Hfind id u Hs). congruence.
Qed.

(** X9. [resendVerification] for an unverified user replaces the
    verification hash and sets the expiry 24 hours ahead, whether the
    mail is accepted (200) or not (500). A verification request with the
    token sent before, whose hash is not the new one and was held by this
    user only, is then refused as invalid. *)
Theorem resendVerification_rotates
    (e e' : Env) (req : EmailReq) (old : VerifyReq) (s : gmap N User) (id : N) (u : User) :
  falsy (e_email req) = false ->
  findOne (by_email (toLowerCase (str (e_email req)))) s = Some (id, u) ->
  emailVerified u = false ->
  accepts_html old = false ->
  verify_token old <> "" ->
  sha256_hex (verify_token old) <> sha256_hex (env_random e) ->
  (forall id2 u2, s !! id2 = Some u2 ->
                  by_verification_token (sha256_hex (verify_token old)) u2 = true -> id2 = id) ->
  let s' := fst (authController.resendVerification e req s) in
  s' !! id = Some (set_verification (Some (sha256_hex (env_random e)))
                     (Some (env_now e + day_ms)) u)
  /\ status (snd (authController.resendVerification e req s))
     = (if env_mail_ok e then 200 else 500)
  /\ authController.verifyEmail e' old s'
     = (s', json 400 false
              "Invalid verification token. The token may be incorrect or already used.").
Proof.
  intros Hgiven Hfound Hunv Hapi Htok Hdiff Honly. cbn zeta.
  rewrite (resendVerification_found e req s id u Hgiven Hfound Hunv). cbn [fst snd].
  split; [unfold save; apply lookup_insert_eq |].
  split; [destruct (env_mail_ok e); reflexivity |].
  rewrite (verifyEmail_api e' old _ Hapi Htok).
  rewrite findOne_None_intro; [reflexivity |].
  intros id2 u2 Hlook. unfold save in Hlook.
  destruct (decide (id = id2)) as [<- | Hne].
  - rewrite lookup_insert_eq in Hlook. injection Hlook as <-.
    unfold by_verification_token. cbn. apply String.eqb_neq. congruence.
  - rewrite lookup_insert_ne in Hlook by exact Hne.
    destruct (by_verification_token _ u2) eqn:Hb; [| reflexivity].
    exfalso. apply Hne. symmetry. exact (Honly id2 u2 Hlook Hb).
Qed.

End Failures.

(** ** From registration to the first login, and from a forgotten
       password to the next login *)
Section Journeys.
Context {K : Crypto}.
Context {J : JsEngine}.
Variable P : ProcessEnv.

Lemma clean_verify_token (t : string) (html : bool) :
  clean_token t -> verify_token (mkVerifyReq t html) = t.
Proof.
  intros (_ & Htrim & Hq). unfold verify_token. cbn [params_token].
  rewrite (split_head_without _ _ Hq). exact Htrim.
Qed.

Lemma findOne_by_email_new (s : gmap N User) (id : N) (u u0 : User) (em : string) :
  findOne (by_email em) s = None ->
  email u = em ->
  findOne (by_email em) (<[id := u]> (<[id := u0]> s)) = Some (id, u).
Proof.
  intros Hnone Hem. apply findOne_only.
  - apply lookup_insert_eq.
  - unfold by_email. rewrite Hem. apply String.eqb_refl.
  - intros id2 u2 Hlook Hb. destruct (decide (id = id2)) as [<- | Hne]; [reflexivity |].
    rewrite !lookup_insert_ne in Hlook by exact Hne.
    pose proof (findOne_None _ _ Hnone id2 u2 Hlook). congruence.
Qed.

(** X10. The way of a new user. A valid registration with an unused
    email and no role asked for other than user answers 201; until the
    email is verified a login is refused with 403 even with the right
    password; a verification request with the token that was mailed, not
    later than 24 hours after the registration, answers Email verified
    successfully; and a login with the registered password then
    succeeds. The token is as the generator makes it and its hash is
    held by no other document; the password check accepts the password
    that was hashed. *)
Theorem register_verify_login
    (e e1 e2 e3 : Env) (req : RegisterReq) (s : gmap N User) :
  password_law ->
  register_fields_valid req ->
  (falsy (r_role req) = true \/ str (r_role req) = "user") ->
  findOne (by_email (str (r_email req))) s = None ->
  s !! env_oid e = None ->
  clean_token (env_random e) ->
  (forall id u, s !! id = Some u ->
                by_verification_token (sha256_hex (env_random e)) u = false) ->
  env_now e2 <= env_now e + day_ms ->
  env_badge_error e3 = None ->
  let credentials := mkLoginReq (r_email req) (r_password req) in
  let link := mkVerifyReq (env_random e) false in
  let s1 := fst (authController.register e req s) in
  let s2 := fst (authController.verifyEmail e2 link s1) in
  status (snd (authController.register e req s)) = 201
  /\ authController.login P e1 credentials s1
     = (s1, json 403 false "Please verify your email before logging in")
  /\ snd (authController.verifyEmail e2 link s1) = json 200 true "Email verified successfully"
  /\ (emailVerified <$> s2 !! env_oid e) = Some true
  /\ is_success (snd (authController.login P e3 credentials s2)) = true.
Proof.
  intros Hlaw Hvalid Hrole Hnew Hfree Hclean Hnoholder Hintime Hbadge.
  destruct (register_validation_passes req Hvalid) as [Hp Hm].
  destruct Hvalid as (_ & Hemail & Hpw & _ & _).
  assert (Hguard : negb (falsy (r_role req)) && negb (String.eqb (str (r_role req)) "user")
                   = false).
  { destruct Hrole as [-> | ->]; [reflexivity |]. rewrite String.eqb_refl. apply andb_false_r. }
  set (u0 := mkUser (str (r_fullName req)) (str (r_email req))
               (hashPassword (str (r_password req))) "user" false
               (Some (sha256_hex (env_random e))) (Some (env_now e + day_ms))
               None None None (Some 0) None).
  assert (Hreg : authController.register e req s
                 = (<[env_oid e := u0]> s,
                    mkResponse 201
                      (Json true
                         (Some "Registration successful! Please check your email to verify your account.")
                         (UserData (view (env_oid e) u0))))).
  { unfold authController.register. rewrite Hp, Hm, Hnew, Hguard.
    cbn [generateVerificationToken]. unfold User_create. rewrite Hfree. reflexivity. }
  assert (Hfind1 : findOne (by_email (str (r_email req))) (<[env_oid e := u0]> s)
                   = Some (env_oid e, u0)).
  { rewrite <- (insert_insert_eq s (env_oid e) u0 u0).
    apply findOne_by_email_new; [exact Hnew | reflexivity]. }
  pose proof (clean_verify_token (env_random e) false Hclean) as Htok.
  assert (Hver : authController.verifyEmail e2 (mkVerifyReq (env_random e) false)
                   (<[env_oid e := u0]> s)
                 = (<[env_oid e := set_verification None None (set_emailVerified true u0)]>
                      (<[env_oid e := u0]> s),
                    json 200 true "Email verified successfully")).
  { rewrite verifyEmail_api by (try reflexivity; rewrite Htok; apply Hclean).
    rewrite Htok.
    assert (Hfind2 : findOne (by_verification_token (sha256_hex (env_random e)))
                       (<[env_oid e := u0]> s) = Some (env_oid e, u0)).
    { apply findOne_only.
      - apply lookup_insert_eq.
      - unfold by_verification_token, u0. cbn. apply String.eqb_refl.
      - intros id2 u2 Hlook Hb.
        destruct (decide (env_oid e = id2)) as [<- | Hne]; [reflexivity |].
        rewrite lookup_insert_ne in Hlook by exact Hne.
        pose proof (Hnoholder id2 u2 Hlook). congruence. }
    rewrite Hfind2. cbn [emailVerificationExpire emailVerified u0].
    replace (env_now e + day_ms <? env_now e2) with false
      by (symmetry; apply Z.ltb_ge, Hintime).
    reflexivity. }
  cbn zeta. rewrite Hreg. cbn [fst snd status]. rewrite Hver. cbn [fst snd].
  split; [reflexivity |].
  split.
  { unfold authController.login. cbn [l_email l_password].
    rewrite Hemail, Hpw, Hfind1. reflexivity. }
  split; [reflexivity |].
  split; [rewrite lookup_insert_eq; reflexivity |].
  unfold authController.login. cbn [l_email l_password].
  rewrite Hemail, Hpw.
  rewrite (findOne_by_email_new s (env_oid e) _ u0 _ Hnew) by reflexivity.
  cbn [emailVerified set_verification set_emailVerified negb].
  unfold matchPassword. cbn [password set_verification set_emailVerified u0].
  rewrite Hlaw, Hbadge. reflexivity.
Qed.

(** X11. The way of a forgotten password. After [forgotPassword] for an
    existing user, the reset link built and the mail accepted, a reset
    request with the token that was mailed and a password of at least 6
    UTF-16 code units, made within the hour, answers Password reset
    successfully: the user then holds the hash of the new password,
    which the password check accepts, no reset hash and no expiry, and
    the same refresh token as before (open sessions go on); the same
    reset request again is refused. The token has no white space around
    it and its hash is held by no other document. *)
Theorem forgot_reset_login
    (e e2 e3 : Env) (req : EmailReq) (pw : string) (s : gmap N User) (id : N) (u : User) :
  password_law ->
  falsy (e_email req) = false ->
  findOne (by_email (toLowerCase (str (e_email req)))) s = Some (id, u) ->
  authController.reset_link_builds P req = true ->
  env_mail_ok e = true ->
  env_random e <> "" ->
  trim (env_random e) = env_random e ->
  (forall id2 u2, s !! id2 = Some u2 ->
                  by_reset_token (sha256_hex (env_random e)) u2 = true -> id2 = id) ->
  (6 <= code_units pw)%nat ->
  env_now e2 < env_now e + hour_ms ->
  let reset := mkResetReq (Some (env_random e)) (Some pw) (Some pw) in
  let s1 := fst (authController.forgotPassword P e req s) in
  let s2 := fst (authController.resetPassword e2 reset s1) in
  let u2 := set_reset None None (set_password (hashPassword pw) u) in
  snd (authController.resetPassword e2 reset s1) = json 200 true "Password reset successfully"
  /\ s2 !! id = Some u2
  /\ matchPassword u2 pw = true
  /\ refreshToken u2 = refreshToken u
  /\ authController.resetPassword e3 reset s2
     = (s2, json 400 false "Invalid or expired password reset token").
Proof.
  intros Hlaw Hgiven Hfound Hlink Hmail Hne Htrim Honly Hlen Hintime. cbn zeta.
  assert (Hvalid : reset_fields_valid (mkResetReq (Some (env_random e)) (Some pw) (Some pw))).
  { unfold reset_fields_valid, falsy. cbn.
    apply String.eqb_neq in Hne. rewrite Hne.
    destruct pw; [cbn in Hlen; lia |]. repeat split. exact Hlen. }
  rewrite (forgotPassword_found P e req s id u Hgiven Hfound), Hlink, Hmail. cbn [fst].
  set (u1 := set_reset (Some (sha256_hex (env_random e))) (Some (env_now e + hour_ms)) u).
  pose proof (proj1 (findOne_Some _ _ _ _ Hfound)) as Hs.
  rewrite (resetPassword_valid e2 _ _ Hvalid). cbn [rp_token rp_password].
  change (str (Some (env_random e))) with (env_random e).
  change (str (Some pw)) with pw.
  rewrite Htrim.
  assert (Hfind : findOne (by_live_reset_token (sha256_hex (env_random e)) (env_now e2))
                    (save id u1 s) = Some (id, u1)).
  { apply findOne_only.
    - unfold save. apply lookup_insert_eq.
    - unfold by_live_reset_token, u1. cbn. rewrite String.eqb_refl. cbn.
      apply Z.ltb_lt, Hintime.
    - intros id2 v Hlook Hb. unfold save in Hlook.
      destruct (decide (id = id2)) as [<- | Hd]; [reflexivity |].
      rewrite lookup_insert_ne in Hlook by exact Hd.
      apply andb_prop in Hb as [Hb _]. exact (Honly id2 v Hlook Hb). }
  rewrite Hfind. cbn [fst snd].
  split; [reflexivity |].
  unfold save at 1. rewrite lookup_insert_eq.
  split; [reflexivity |].
  split; [unfold matchPassword; cbn; apply Hlaw |].
  split; [reflexivity |].
  rewrite (resetPassword_valid e3 _ _ Hvalid). cbn [rp_token rp_password].
  change (str (Some (env_random e))) with (env_random e).
  rewrite Htrim, findOne_None_intro; [reflexivity |].
  intros id2 v Hlook. unfold save in Hlook. rewrite insert_insert_eq in Hlook.
  destruct (decide (id = id2)) as [<- | Hd].
  - rewrite lookup_insert_eq in Hlook. injection Hlook as <-. reflexivity.
  - rewrite lookup_insert_ne in Hlook by exact Hd.
    destruct (by_live_reset_token _ _ v) eqn:Hb; [| reflexivity].
    apply andb_prop in Hb as [Hb _]. exfalso. apply Hd. symmetry. exact (Honly id2 v Hlook Hb).
Qed.

End Journeys.

(* ===================================================================== *)
(** * Properties of the middleware and of the user routes                 *)
(* ===================================================================== *)

Section Middleware.
Variable P : ProcessEnv.

Lemma protect_inr (e : Env) (bearer : option Jwt) (s : gmap N User) (id : N) (u : User) :
  authController.protect P e bearer s = inr (id, u) <->
  exists tok, bearer = Some tok
              /\ jwt_verify tok (access_secret P) (env_now e) = inr id
              /\ s !! id = Some u.
Proof.
  unfold authController.protect, findById. split.
  - destruct bearer as [tok |]; [| discriminate].
    destruct (jwt_verify tok _ _) as [[] | id0] eqn:Hv; try discriminate.
    destruct (s !! id0) eqn:Hl; [| discriminate].
    intros [= <- <-]. eauto.
  - intros (tok & -> & Hv & Hs). rewrite Hv, Hs. reflexivity.
Qed.

(** X12. [optionalAuth] puts a user in [req.user] exactly when [protect]
    lets the same request through, and it is the same user; in every
    case where [protect] answers 401, [optionalAuth] goes on with no
    user. *)
Theorem optionalAuth_agrees_with_protect
    (e : Env) (bearer : option Jwt) (s : gmap N User) :
  (forall actor, auth.optionalAuth P e bearer s = Some actor
                 <-> authController.protect P e bearer s = inr actor)
  /\ (auth.optionalAuth P e bearer s = None
      <-> exists resp, authController.protect P e bearer s = inl resp /\ status resp = 401).
Proof.
  unfold auth.optionalAuth, authController.protect.
  destruct bearer as [tok |].
  - destruct (jwt_verify tok _ _) as [[] | id].
    + split; [intros actor; split; discriminate |]. split; [eauto | reflexivity].
    + split; [intros actor; split; discriminate |]. split; [eauto | reflexivity].
    + destruct (findById id s) as [u |].
      * split; [intros actor; split; intros [= <-]; reflexivity |].
        split; [discriminate | intros (resp & Hr & _); discriminate].
      * split; [intros actor; split; discriminate |]. split; [eauto | reflexivity].
  - split; [intros actor; split; discriminate |]. split; [eauto | reflexivity].
Qed.

Lemma role_allowed (r : string) (roles : list string) :
  existsb (String.eqb r) roles = true <-> In r roles.
Proof.
  rewrite existsb_exists. split.
  - intros (x & Hin & Heq). apply String.eqb_eq in Heq. subst. exact Hin.
  - intros Hin. exists r. split; [exact Hin | apply String.eqb_refl].
Qed.

Lemma guard_inr (roles : list string) (e : Env) (bearer : option Jwt) (s : gmap N User)
    (id : N) (u : User) :
  auth.guard P roles e bearer s = inr (id, u) <->
  exists tok, bearer = Some tok
              /\ jwt_verify tok (access_secret P) (env_now e) = inr id
              /\ s !! id = Some u
              /\ In (role u) roles.
Proof.
  unfold auth.guard. split.
  - destruct (authController.protect P e bearer s) as [resp | [id0 u0]] eqn:Hp; [discriminate |].
    unfold auth.authorize. destruct (existsb _ roles) eqn:Hr; [| discriminate].
    intros [= <- <-]. apply protect_inr in Hp as (tok & Hb & Hv & Hs).
    apply role_allowed in Hr. eauto 6.
  - intros (tok & Hb & Hv & Hs & Hin).
    rewrite (proj2 (protect_inr e bearer s id u)) by eauto.
    unfold auth.authorize. apply role_allowed in Hin. rewrite Hin. reflexivity.
Qed.

(** X13. A route guarded by [protect, authorize(...roles)] lets a request
    through exactly when its bearer token verifies, names a stored user,
    and the role stored for that user is among [roles]. The role is read
    from the store at each request: once the stored role is changed, the
    same token passes exactly when the new role is allowed. *)
Theorem guard_reads_the_stored_role
    (roles : list string) (e : Env) (bearer : option Jwt) (s : gmap N User) :
  (forall id u,
      auth.guard P roles e bearer s = inr (id, u) <->
      exists tok, bearer = Some tok
                  /\ jwt_verify tok (access_secret P) (env_now e) = inr id
                  /\ s !! id = Some u
                  /\ In (role u) roles)
  /\ (forall tok id u new_role,
        bearer = Some tok ->
        jwt_verify tok (access_secret P) (env_now e) = inr id ->
        s !! id = Some u ->
        (exists actor, auth.guard P roles e bearer
                         (save id (userRoutes.set_role new_role u) s) = inr actor)
        <-> In new_role roles).
Proof.
  split; [intros id u; apply guard_inr |].
  intros tok id u new_role Hb Hv Hs. split.
  - intros [[id0 u0] Hg]. apply guard_inr in Hg as (tok0 & Hb0 & Hv0 & Hs0 & Hin).
    assert (tok0 = tok) as -> by congruence.
    assert (id0 = id) as -> by congruence.
    unfold save in Hs0. rewrite lookup_insert_eq in Hs0. injection Hs0 as <-. exact Hin.
  - intros Hin. eexists (id, _). apply guard_inr. exists tok.
    split; [exact Hb |]. split; [exact Hv |].
    split; [unfold save; apply lookup_insert_eq | exact Hin].
Qed.

End Middleware.

Section UserRoutes.
Context {K : Crypto}.
Context {J : JsEngine}.
Context {D : ObjectIds}.
Variable P : ProcessEnv.
Variable odm :
  gmap N User -> N -> option string -> option string -> string + (User -> string * string).

Lemma guard_admin_refuses (e : Env) (bearer : option Jwt) (s : gmap N User) :
  (forall id u, authController.protect P e bearer s = inr (id, u) -> role u <> "admin") ->
  exists resp, auth.guard P ["admin"] e bearer s = inl resp.
Proof.
  intros Hplain. unfold auth.guard.
  destruct (authController.protect P e bearer s) as [resp | [id u]] eqn:Hp; [eauto |].
  unfold auth.authorize. cbn [existsb].
  pose proof (Hplain id u eq_refl) as Hne. apply String.eqb_neq in Hne.
  rewrite Hne. cbn. eauto.
Qed.

(** X14. Only an administrator changes roles, creates users or deletes
    them through the user routes: a request whose caller's stored role
    is not admin leaves every document in place with the role it had,
    and adds none, whatever the route and the payload. *)
Theorem only_admin_changes_roles
    (e : Env) (bearer : option Jwt) (r : userRoutes.Route) (s : gmap N User) :
  (forall id u, authController.protect P e bearer s = inr (id, u) -> role u <> "admin") ->
  forall id, role <$> (fst (userRoutes.serve P odm e bearer r s) !! id) = role <$> (s !! id).
Proof.
  intros Hplain id. unfold userRoutes.serve.
  destruct r as [| | id0 | body | id0 body | id0 nr | id0]; cbn [userRoutes.roles_allowed].
  - destruct (authController.protect P e bearer s) as [? | ?]; reflexivity.
  - destruct (auth.guard P _ e bearer s) as [? | ?]; reflexivity.
  - destruct (authController.protect P e bearer s) as [? | ?]; reflexivity.
  - destruct (guard_admin_refuses e bearer s Hplain) as [resp ->]. reflexivity.
  - destruct (authController.protect P e bearer s) as [resp | [aid au]] eqn:Hp; [reflexivity |].
    pose proof (Hplain aid au eq_refl) as Hne. apply String.eqb_neq in Hne.
    unfold userRoutes.updateUser. cbn [fst snd]. rewrite Hne. cbn [negb andb].
    destruct (negb (String.eqb (toString aid) id0)); [reflexivity |].
    destruct (castObjectId id0) as [msg | cid]; [reflexivity |].
    destruct (odm s cid _ _) as [msg | values]; [reflexivity |].
    unfold findById. destruct (s !! cid) as [user |] eqn:Hs; [| reflexivity].
    cbn [fst]. unfold save.
    destruct (decide (cid = id)) as [<- | Hd].
    + rewrite lookup_insert_eq, Hs. reflexivity.
    + rewrite lookup_insert_ne by exact Hd. reflexivity.
  - destruct (guard_admin_refuses e bearer s Hplain) as [resp ->]. reflexivity.
  - destruct (guard_admin_refuses e bearer s Hplain) as [resp ->]. reflexivity.
Qed.

(** X15. Every role stays one of user, instructor and admin: if all the
    roles of the store are, they still are after any request to the user
    routes and after any run of requests to the authentication
    controller. *)
Theorem roles_stay_known
    (e : Env) (bearer : option Jwt) (r : userRoutes.Route)
    (trace : list (Env * authController.Request)) (s : gmap N User) :
  roles_known s ->
  roles_known (fst (userRoutes.serve P odm e bearer r s))
  /\ roles_known (authController.run P trace s).
Proof.
  intros Hknown. split.
  - assert (Hsave : forall id u', userRoutes.known_role (role u') = true ->
                                  roles_known (<[id := u']> s)).
    { intros id u' Hr id2 u2 Hlook. destruct (decide (id = id2)) as [<- | Hd].
      - rewrite lookup_insert_eq in Hlook. injection Hlook as <-. exact Hr.
      - rewrite lookup_insert_ne in Hlook by exact Hd. eauto. }
    unfold userRoutes.serve.
    destruct (match userRoutes.roles_allowed r with
              | Some roles => auth.guard P roles e bearer s
              | None => authController.protect P e bearer s
              end) as [resp | actor]; [exact Hknown |].
    destruct r as [| | id0 | body | id0 body | id0 nr | id0]; try exact Hknown.
    + unfold userRoutes.createUser.
      destruct (_ || _); [exact Hknown |].
      destruct (negb (falsy (userRoutes.c_role body))
                && negb (userRoutes.known_role (str (userRoutes.c_role body)))) eqn:Hr;
        [exact Hknown |].
      destruct (findOne _ s); [exact Hknown |].
      destruct (s !! env_oid e); [exact Hknown |]. cbn [fst].
      apply Hsave. cbn [role]. unfold env_or.
      destruct (falsy (userRoutes.c_role body)); [reflexivity |].
      cbn in Hr. apply negb_false_iff in Hr. exact Hr.
    + unfold userRoutes.updateUser.
      destruct (_ && _); [exact Hknown |].
      destruct ((String.eqb (role (snd actor)) "admin" && negb (falsy (userRoutes.u_role body)))
                && negb (userRoutes.known_role (str (userRoutes.u_role body)))) eqn:Hr;
        [exact Hknown |].
      destruct (castObjectId id0) as [msg | cid]; [exact Hknown |].
      destruct (odm s cid _ _) as [msg | values]; [exact Hknown |].
      unfold findById. destruct (s !! cid) as [user |] eqn:Hs; [| exact Hknown].
      cbn [fst]. apply Hsave.
      destruct (String.eqb (role (snd actor)) "admin" && negb (falsy (userRoutes.u_role body))).
      * cbn in Hr. apply negb_false_iff in Hr. exact Hr.
      * cbn. exact (Hknown cid user Hs).
    + unfold userRoutes.updateRole.
      destruct (falsy nr || negb (userRoutes.known_role (str nr))) eqn:Hr; [exact Hknown |].
      destruct (castObjectId id0) as [msg | cid]; [exact Hknown |].
      unfold findById. destruct (s !! cid) as [user |]; [| exact Hknown].
      cbn [fst]. apply Hsave. cbn.
      apply orb_false_elim in Hr as [_ Hr]. apply negb_false_iff in Hr. exact Hr.
    + unfold userRoutes.deleteUser.
      destruct (String.eqb _ _); [exact Hknown |].
      destruct (castObjectId id0) as [msg | cid]; [exact Hknown |].
      unfold findById. destruct (s !! cid) as [user |]; [| exact Hknown].
      cbn [fst]. unfold findByIdAndDelete. intros id2 u2 Hlook.
      apply lookup_delete_Some in Hlook as [_ Hlook]. eauto.
  - intros id u' Hlook.
    destruct (run_keeps_users_and_roles (K := K) P trace s) as [_ Hnew].
    destruct (s !! id) as [u |] eqn:Hs.
    + destruct (run_keeps_users_and_roles (K := K) P trace s) as [Hold _].
      destruct (Hold id u Hs) as (u1 & Hl1 & _ & _ & Hr & _).
      assert (u1 = u') as -> by congruence. rewrite Hr. exact (Hknown id u Hs).
    + rewrite (Hnew id u' Hlook Hs). reflexivity.
Qed.

(** What DELETE /:id does for an admin: the guard against deleting
    oneself compares the parameter with the caller's id as strings. *)
Lemma deleteUser_by_admin
    (e : Env) (bearer : option Jwt) (s : gmap N User) (aid : N) (au : User) (p : string) :
  authController.protect P e bearer s = inr (aid, au) ->
  role au = "admin" ->
  userRoutes.serve P odm e bearer (userRoutes.DeleteUser p) s
  = if String.eqb (toString aid) p
    then (s, userRoutes.Answer 400 false
               (Some "You cannot delete your own account") userRoutes.NoPayload)
    else match castObjectId p with
         | inl message => (s, userRoutes.Answer 500 false (Some message) userRoutes.NoPayload)
         | inr id =>
             match s !! id with
             | None => (s, userRoutes.Answer 404 false (Some "User not found")
                             userRoutes.NoPayload)
             | Some _ => (delete id s,
                          userRoutes.Answer 200 true (Some "User deleted successfully")
                            userRoutes.NoPayload)
             end
         end.
Proof.
  intros Hp Hadmin. unfold userRoutes.serve. cbn [userRoutes.roles_allowed].
  rewrite (proj2 (guard_inr P ["admin"] e bearer s aid au)).
  - unfold userRoutes.deleteUser, findById, findByIdAndDelete. cbn [fst].
    destruct (String.eqb (toString aid) p); [reflexivity |].
    destruct (castObjectId p) as [msg | id]; [reflexivity |].
    destruct (s !! id); reflexivity.
  - apply protect_inr in Hp as (tok & Hb & Hv & Hs).
    exists tok. rewrite Hadmin. cbn. auto.
Qed.

(** X16. The guard of DELETE /:id compares the parameter with the
    caller's id as strings. For an admin, a parameter that is the
    caller's id as [toString] writes it is answered 400; otherwise the
    parameter is cast: a CastError is answered 500 and an id of nobody
    404, the store staying as it was, and else the document the
    parameter casts to is removed and no other. So a parameter that is
    another spelling of the caller's id removes the caller's own
    document. No request other than such a DELETE removes it. *)
Theorem delete_guard_compares_id_strings
    (e : Env) (bearer : option Jwt) (r : userRoutes.Route) (s : gmap N User)
    (aid : N) (au : User) :
  authController.protect P e bearer s = inr (aid, au) ->
  ((forall p, r = userRoutes.DeleteUser p -> p = toString aid \/ castObjectId p <> inr aid) ->
   is_Some (fst (userRoutes.serve P odm e bearer r s) !! aid))
  /\ (forall p,
        role au = "admin" ->
        userRoutes.serve P odm e bearer (userRoutes.DeleteUser p) s
        = if String.eqb (toString aid) p
          then (s, userRoutes.Answer 400 false
                     (Some "You cannot delete your own account") userRoutes.NoPayload)
          else match castObjectId p with
               | inl message =>
                   (s, userRoutes.Answer 500 false (Some message) userRoutes.NoPayload)
               | inr id =>
                   match s !! id with
                   | None => (s, userRoutes.Answer 404 false (Some "User not found")
                                   userRoutes.NoPayload)
                   | Some _ => (delete id s,
                                userRoutes.Answer 200 true (Some "User deleted successfully")
                                  userRoutes.NoPayload)
                   end
               end)
  /\ (forall p,
        role au = "admin" ->
        p <> toString aid ->
        castObjectId p = inr aid ->
        userRoutes.serve P odm e bearer (userRoutes.DeleteUser p) s
        = (delete aid s,
           userRoutes.Answer 200 true (Some "User deleted successfully") userRoutes.NoPayload)
        /\ fst (userRoutes.serve P odm e bearer (userRoutes.DeleteUser p) s) !! aid = None).
Proof.
  intros Hp.
  assert (Hs : s !! aid = Some au).
  { apply protect_inr in Hp as (tok & _ & _ & Hs). exact Hs. }
  assert (Hkeep : forall id u', is_Some (<[id := u']> s !! aid)).
  { intros id u'. destruct (decide (id = aid)) as [-> | Hd].
    - rewrite lookup_insert_eq. eauto.
    - rewrite lookup_insert_ne by exact Hd. rewrite Hs. eauto. }
  split; [| split].
  - intros Hother. unfold userRoutes.serve.
    destruct (match userRoutes.roles_allowed r with
              | Some roles => auth.guard P roles e bearer s
              | None => authController.protect P e bearer s
              end) as [resp | actor] eqn:Hadmit; [cbn [fst]; rewrite Hs; eauto |].
    assert (actor = (aid, au)) as ->.
    { destruct (userRoutes.roles_allowed r) as [roles |].
      - unfold auth.guard in Hadmit. rewrite Hp in Hadmit.
        destruct (auth.authorize roles _); [discriminate | congruence].
      - congruence. }
    destruct r as [| | id0 | body | id0 body | id0 nr | id0]; cbn [fst];
      try (rewrite Hs; eauto; fail).
    + unfold userRoutes.createUser.
      destruct (_ || _); [cbn [fst]; rewrite Hs; eauto |].
      destruct (_ && _); [cbn [fst]; rewrite Hs; eauto |].
      destruct (findOne _ s); [cbn [fst]; rewrite Hs; eauto |].
      destruct (s !! env_oid e); [cbn [fst]; rewrite Hs; eauto |]. cbn [fst]. apply Hkeep.
    + unfold userRoutes.updateUser.
      destruct (_ && _); [cbn [fst]; rewrite Hs; eauto |].
      destruct (_ && _); [cbn [fst]; rewrite Hs; eauto |].
      destruct (castObjectId id0) as [msg | cid]; [cbn [fst]; rewrite Hs; eauto |].
      destruct (odm s cid _ _); [cbn [fst]; rewrite Hs; eauto |].
      destruct (findById cid s); [cbn [fst]; apply Hkeep | cbn [fst]; rewrite Hs; eauto].
    + unfold userRoutes.updateRole.
      destruct (_ || _); [cbn [fst]; rewrite Hs; eauto |].
      destruct (castObjectId id0) as [msg | cid]; [cbn [fst]; rewrite Hs; eauto |].
      destruct (findById cid s); [cbn [fst]; apply Hkeep | cbn [fst]; rewrite Hs; eauto].
    + unfold userRoutes.deleteUser. cbn [fst].
      destruct (String.eqb_spec (toString aid) id0) as [Heq | Hneq];
        [cbn [fst]; rewrite Hs; eauto |].
      destruct (castObjectId id0) as [msg | cid] eqn:Hcast; [cbn [fst]; rewrite Hs; eauto |].
      destruct (findById cid s); [| cbn [fst]; rewrite Hs; eauto].
      cbn [fst]. unfold findByIdAndDelete.
      destruct (Hother id0 eq_refl) as [Hsame | Hnot]; [congruence |].
      rewrite lookup_delete_ne by congruence. rewrite Hs. eauto.
  - intros p Hadmin. exact (deleteUser_by_admin e bearer s aid au p Hp Hadmin).
  - intros p Hadmin Hne Hcast.
    rewrite (deleteUser_by_admin e bearer s aid au p Hp Hadmin).
    rewrite (proj2 (String.eqb_neq _ _)) by congruence.
    rewrite Hcast, Hs. split; [reflexivity |]. cbn [fst]. apply lookup_delete_eq.
Qed.

(** X17. What a caller who is neither admin nor instructor can read:
    GET /:id answers with a document exactly when the parameter is the
    caller's id as [toString] writes it, and then with the caller's
    document; another spelling of the caller's id is answered 403; the
    list of all users is refused. *)
Theorem plain_user_reads_own_profile_only
    (e : Env) (bearer : option Jwt) (s : gmap N User) (aid : N) (au : User) :
  authController.protect P e bearer s = inr (aid, au) ->
  role au <> "admin" ->
  role au <> "instructor" ->
  (forall p, userRoutes.replied_ok (snd (userRoutes.serve P odm e bearer (userRoutes.GetUser p) s))
             = true <-> p = toString aid)
  /\ snd (userRoutes.serve P odm e bearer (userRoutes.GetUser (toString aid)) s)
     = userRoutes.Answer 200 true None (userRoutes.OneUser aid (userRoutes.select_public au))
  /\ (forall p, p <> toString aid -> castObjectId p = inr aid ->
        snd (userRoutes.serve P odm e bearer (userRoutes.GetUser p) s)
        = userRoutes.Answer 403 false (Some "Not authorized to view this user profile")
            userRoutes.NoPayload)
  /\ userRoutes.replied_ok (snd (userRoutes.serve P odm e bearer userRoutes.ListUsers s)) = false.
Proof.
  intros Hp Hna Hni.
  assert (Hs : s !! aid = Some au).
  { apply protect_inr in Hp as (tok & _ & _ & Hs). exact Hs. }
  apply String.eqb_neq in Hna. apply String.eqb_neq in Hni.
  assert (Hown : snd (userRoutes.serve P odm e bearer (userRoutes.GetUser (toString aid)) s)
                 = userRoutes.Answer 200 true None
                     (userRoutes.OneUser aid (userRoutes.select_public au))).
  { unfold userRoutes.serve. cbn [userRoutes.roles_allowed]. rewrite Hp.
    cbn [snd]. unfold userRoutes.getUser, findById. cbn [fst snd].
    rewrite cast_toString, Hs, Hna, Hni, String.eqb_refl. reflexivity. }
  split; [| split; [exact Hown | split]].
  - intros p. split.
    + unfold userRoutes.serve. cbn [userRoutes.roles_allowed]. rewrite Hp.
      cbn [snd]. unfold userRoutes.getUser, findById. cbn [fst snd].
      rewrite Hna, Hni. cbn [negb andb].
      destruct (castObjectId p) as [msg | id]; [discriminate |].
      destruct (s !! id); [| discriminate].
      destruct (String.eqb_spec (toString aid) p) as [Heq | Hneq]; [auto | discriminate].
    + intros ->. rewrite Hown. reflexivity.
  - intros p Hne Hcast. unfold userRoutes.serve. cbn [userRoutes.roles_allowed]. rewrite Hp.
    cbn [snd]. unfold userRoutes.getUser, findById. cbn [fst snd].
    rewrite Hcast, Hs, Hna, Hni.
    rewrite (proj2 (String.eqb_neq _ _)) by congruence. reflexivity.
  - unfold userRoutes.serve. cbn [userRoutes.roles_allowed].
    unfold auth.guard. rewrite Hp. unfold auth.authorize. cbn [existsb].
    rewrite Hna, Hni. reflexivity.
Qed.

(** X18. A user created by an administrator needs no email verification:
    when POST / is given a name, an unused email, a password and no role
    or a known one, it answers 201, the new user is verified and has
    the role asked for (user when none was), and a login with the email
    and password given succeeds at once. The password check accepts the
    password that was hashed. *)
Theorem created_user_can_log_in
    (e e' : Env) (body : userRoutes.CreateBody) (s : gmap N User) :
  password_law ->
  falsy (userRoutes.c_fullName body) = false ->
  falsy (userRoutes.c_email body) = false ->
  falsy (userRoutes.c_password body) = false ->
  (falsy (userRoutes.c_role body) = true
   \/ userRoutes.known_role (str (userRoutes.c_role body)) = true) ->
  findOne (by_email (str (userRoutes.c_email body))) s = None ->
  s !! env_oid e = None ->
  env_badge_error e' = None ->
  let s1 := fst (userRoutes.createUser e body s) in
  userRoutes.replied_ok (snd (userRoutes.createUser e body s)) = true
  /\ (emailVerified <$> s1 !! env_oid e) = Some true
  /\ (role <$> s1 !! env_oid e) = Some (env_or (userRoutes.c_role body) "user")
  /\ is_success (snd (authController.login P e'
                        (mkLoginReq (userRoutes.c_email body) (userRoutes.c_password body)) s1))
     = true.
Proof.
  intros Hlaw Hfn Hem Hpw Hrole Hnew Hfree Hbadge. cbn zeta.
  unfold userRoutes.createUser. rewrite Hfn, Hem, Hpw. cbn [orb].
  assert (Hguard : negb (falsy (userRoutes.c_role body))
                   && negb (userRoutes.known_role (str (userRoutes.c_role body))) = false).
  { destruct Hrole as [-> | ->]; [reflexivity | apply andb_false_r]. }
  rewrite Hguard, Hnew, Hfree. cbn [fst snd userRoutes.replied_ok].
  split; [reflexivity |].
  rewrite lookup_insert_eq. cbn [fmap option_fmap option_map emailVerified role].
  split; [reflexivity |]. split; [reflexivity |].
  unfold authController.login. cbn [l_email l_password]. rewrite Hem, Hpw. cbn [orb].
  match goal with |- context [<[env_oid e := ?u]> s] => set (u0 := u) end.
  rewrite <- (insert_insert_eq s (env_oid e) u0 u0).
  rewrite (findOne_by_email_new s (env_oid e) u0 u0 _ Hnew) by reflexivity.
  cbn [emailVerified u0 negb]. unfold matchPassword. cbn [password u0].
  rewrite Hlaw, Hbadge. reflexivity.
Qed.

End UserRoutes.

(* ===================================================================== *)
(** * Properties of the mail transport                                    *)
(* ===================================================================== *)

Section MailTransport.
Import sendEmail.

Lemma includes_app (c : ascii) (a b : string) :
  includes c (a ++ b) = includes c a || includes c b.
Proof.
  induction a as [| d a IH]; simpl; [reflexivity |].
  rewrite IH. apply orb_assoc.
Qed.

Lemma includes_nonempty (c : ascii) (s : string) : includes c s = true -> s <> "".
Proof. intros Hi ->. discriminate. Qed.

Lemma formatFromEmail_brackets (email : option string) (name : string) :
  includes lt_sign (formatFromEmail email name) = true
  /\ includes gt_sign (formatFromEmail email name) = true.
Proof.
  unfold formatFromEmail.
  destruct (falsy email).
  { rewrite !includes_app. cbn. rewrite !orb_true_r. split; reflexivity. }
  destruct (includes lt_sign (str email) && includes gt_sign (str email)) eqn:Hb.
  { apply andb_prop in Hb. exact Hb. }
  destruct (includes at_sign (str email));
    rewrite !includes_app; cbn; rewrite !orb_true_r; split; reflexivity.
Qed.

(** X19. The sender that [formatFromEmail] returns always has an opening
    and a closing angle bracket, whatever the configured address and
    name, and formatting it again, under any name, gives it back
    unchanged. *)
Theorem formatFromEmail_is_well_formed (email : option string) (name name' : string) :
  includes lt_sign (formatFromEmail email name) = true
  /\ includes gt_sign (formatFromEmail email name) = true
  /\ formatFromEmail (Some (formatFromEmail email name)) name' = formatFromEmail email name.
Proof.
  destruct (formatFromEmail_brackets email name) as [Hlt Hgt].
  split; [exact Hlt |]. split; [exact Hgt |].
  pose proof (includes_nonempty _ _ Hlt) as Hne. apply String.eqb_neq in Hne.
  set (r := formatFromEmail email name) in *.
  unfold formatFromEmail, falsy.
  change (str (Some r)) with r.
  rewrite Hne, Hlt, Hgt. reflexivity.
Qed.

(** X20. [sendEmail] asks the provider only for a request that passed
    its checks: when it returns, an API key is configured, the recipient
    contains an at sign, subject and body are not empty, and the
    provider accepted a message to that recipient with that subject and
    body and a sender in angle brackets. When a check fails the error is
    thrown whatever the provider would have answered. *)
Theorem sendEmail_checks_before_sending
    (E : MailEnv) (resend resend' : OutMail -> string + option string) (options : Options) :
  (forall id, sendEmail E resend options = inr id ->
     falsy (RESEND_API_KEY E) = false
     /\ includes at_sign (str (o_email options)) = true
     /\ str (o_subject options) <> "" /\ str (o_html options) <> ""
     /\ exists mail data,
          resend mail = inr data /\ id = env_or data "unknown"
          /\ m_to mail = str (o_email options)
          /\ m_subject mail = str (o_subject options)
          /\ m_html mail = str (o_html options)
          /\ includes lt_sign (m_from mail) = true /\ includes gt_sign (m_from mail) = true)
  /\ (falsy (RESEND_API_KEY E) = true
      \/ includes at_sign (str (o_email options)) = false
      \/ falsy (o_subject options) = true \/ falsy (o_html options) = true ->
      sendEmail E resend options = sendEmail E resend' options
      /\ exists message, sendEmail E resend options = inl message).
Proof.
  unfold sendEmail. split.
  - intros id.
    destruct (falsy (RESEND_API_KEY E)); [discriminate |].
    destruct (falsy (o_email options) || negb (includes at_sign (str (o_email options))))
      eqn:Hrcpt; [discriminate |].
    destruct (falsy (o_subject options)) eqn:Hsub; [discriminate |].
    destruct (falsy (o_html options)) eqn:Hhtml; [discriminate |].
    cbn zeta.
    destruct (resend _) as [message | data] eqn:Hsend; [discriminate |].
    intros [= <-].
    apply orb_false_elim in Hrcpt as [_ Hat]. apply negb_false_iff in Hat.
    unfold falsy in Hsub, Hhtml. apply String.eqb_neq in Hsub. apply String.eqb_neq in Hhtml.
    repeat split; try assumption.
    eexists _, data. split; [exact Hsend |]. cbn.
    destruct (formatFromEmail_brackets (FROM_EMAIL E) (env_or (FROM_NAME E) "EduWave"))
      as [Hlt Hgt].
    repeat split; assumption.
  - intros Hbad.
    destruct (falsy (RESEND_API_KEY E)); [split; eauto |].
    destruct (falsy (o_email options)) eqn:Hem; cbn [orb]; [split; eauto |].
    destruct (includes at_sign (str (o_email options))) eqn:Hat; cbn [negb]; [| split; eauto].
    destruct (falsy (o_subject options)); [split; eauto |].
    destruct (falsy (o_html options)); [split; eauto |].
    exfalso. destruct Hbad as [H | [H | [H | H]]]; discriminate.
Qed.

End MailTransport.

(* ===================================================================== *)
(** * Further properties of course progress                               *)
(* ===================================================================== *)

Section CourseProgressMore.
Import JsNumber JsNumberFacts CourseProgress.

Lemma fl_equal (x y : Q) : (x == y)%Q -> (fl x == fl y)%Q.
Proof.
  intros Heq. apply Qle_antisym; apply fl_mono; rewrite Heq; apply Qle_refl.
Qed.

Lemma percentage_complete (t : Z) : 0 < t -> percentage t t = 100.
Proof.
  intros Ht. unfold percentage. apply Z.ltb_lt in Ht as Hb. rewrite Hb.
  unfold JsNumber.mul, JsNumber.div.
  assert (HT : ~ (inject_Z t == 0)%Q).
  { intros H0. assert (Hq : (0 < inject_Z t)%Q) by (rewrite <- (Zlt_Qlt 0); exact Ht).
    rewrite H0 in Hq. discriminate. }
  assert (H1 : (fl (inject_Z t / inject_Z t) == 1)%Q).
  { rewrite (fl_equal _ 1); [apply fl_1 | field; exact HT]. }
  assert (H100 : (fl (fl (inject_Z t / inject_Z t) * 100) == 100)%Q).
  { rewrite (fl_equal _ 100); [apply fl_100 | rewrite H1; reflexivity]. }
  assert (Hb' : 100 <= Math_round (fl (fl (inject_Z t / inject_Z t) * 100)) <= 100).
  { apply Math_round_bounds; rewrite H100; apply Qle_refl. }
  lia.
Qed.

(** X21. With the same number of lessons in the course, completing more
    of them never lowers the progress computed. *)
Theorem percentage_is_monotone (c1 c2 t : Z) :
  c1 <= c2 -> percentage c1 t <= percentage c2 t.
Proof.
  intros Hc. unfold percentage. destruct (0 <? t) eqn:Ht; [| lia].
  apply Z.ltb_lt in Ht.
  assert (HT : (0 < inject_Z t)%Q) by (rewrite <- (Zlt_Qlt 0); exact Ht).
  unfold Math_round, JsNumber.mul, JsNumber.div.
  apply Qfloor_resp_le.
  apply Qplus_le_l.
  apply fl_mono.
  apply Qmult_le_compat_r; [| discriminate].
  apply fl_mono.
  unfold Qdiv. apply Qmult_le_compat_r.
  - rewrite <- Zle_Qle. exact Hc.
  - apply Qinv_le_0_compat, Qlt_le_weak, HT.
Qed.

(** X22. For a count n of at most 2^32 - 1, [updateProgress] returns:
    it lists the lessons 0 .. n-1 as completed (none for a negative
    count), stamps the access time, and leaves the user, the course, the
    current lesson and the start time alone; when all the lessons of a
    course are completed the progress is 100 and the completion time is
    set, to the clock if it was not set before. For a larger count it
    throws RangeError, with nothing assigned. *)
Theorem updateProgress_records_completion (now c total : Z) (this : t) :
  (c <= max_array_length ->
   exists after,
     updateProgress now c total this = inr after
     /\ length (completedLessons after) = Z.to_nat c
     /\ (forall i, (i < Z.to_nat c)%nat -> completedLessons after !! i = Some (Z.of_nat i))
     /\ lastAccessedAt after = now
     /\ userId after = userId this /\ courseId after = courseId this
     /\ currentLesson after = currentLesson this /\ startedAt after = startedAt this
     /\ (0 < total -> c = total ->
         progress after = 100
         /\ completedAt after = Some (default now (completedAt this))))
  /\ (max_array_length < c -> updateProgress now c total this = inl RangeError).
Proof.
  split.
  - intros Hc. unfold updateProgress, Array_from_length.
    rewrite (proj2 (Z.ltb_ge _ _) Hc).
    eexists. split; [reflexivity |]. cbn. unfold range.
    split; [rewrite length_map, length_seq; reflexivity |].
    split.
    { intros i Hi. rewrite list_lookup_fmap.
      rewrite lookup_seq_lt by exact Hi. reflexivity. }
    repeat split; try reflexivity.
    + subst c. apply percentage_complete. assumption.
    + subst c. rewrite percentage_complete by assumption. cbn.
      destruct (completedAt this) as [d |]; reflexivity.
  - intros Hc. unfold updateProgress, Array_from_length.
    rewrite (proj2 (Z.ltb_lt _ _) Hc). reflexivity.
Qed.

End CourseProgressMore.

(* ===================================================================== *)
(** * Further properties of the user routes and of the two controllers    *)
(* ===================================================================== *)

Section UserRoutesMore.
Context {K : Crypto}.
Context {J : JsEngine}.
Context {D : ObjectIds}.
Variable P : ProcessEnv.
Variable odm :
  gmap N User -> N -> option string -> option string -> string + (User -> string * string).

(** X23. A caller whose stored role is not admin changes nothing but the
    name and the email of their own document: after any request to the
    user routes every document is as it was, except that the caller's
    own may have another name and email; password, role, verification
    and tokens stay. *)
Theorem non_admin_changes_own_profile_only
    (e : Env) (bearer : option Jwt) (r : userRoutes.Route) (s : gmap N User) :
  (forall id u, authController.protect P e bearer s = inr (id, u) -> role u <> "admin") ->
  forall id,
    fst (userRoutes.serve P odm e bearer r s) !! id = s !! id
    \/ exists au fn em,
         authController.protect P e bearer s = inr (id, au)
         /\ fst (userRoutes.serve P odm e bearer r s) !! id
            = Some (userRoutes.set_profile fn em au).
Proof.
  intros Hplain id. unfold userRoutes.serve.
  destruct r as [| | id0 | body | id0 body | id0 nr | id0]; cbn [userRoutes.roles_allowed].
  - destruct (authController.protect P e bearer s) as [? | ?]; left; reflexivity.
  - destruct (auth.guard P _ e bearer s) as [? | ?]; left; reflexivity.
  - destruct (authController.protect P e bearer s) as [? | ?]; left; reflexivity.
  - destruct (guard_admin_refuses P e bearer s Hplain) as [resp ->]. left. reflexivity.
  - destruct (authController.protect P e bearer s) as [resp | [aid au]] eqn:Hp;
      [left; reflexivity |].
    pose proof (Hplain aid au eq_refl) as Hne. apply String.eqb_neq in Hne.
    apply protect_inr in Hp as Hin. destruct Hin as (tok & _ & _ & Hau).
    unfold userRoutes.updateUser. cbn [fst snd]. rewrite Hne. cbn [negb andb].
    destruct (String.eqb_spec (toString aid) id0) as [<- | Hd]; cbn [negb];
      [| left; reflexivity].
    rewrite cast_toString.
    destruct (odm s aid _ _) as [msg | values]; [left; reflexivity |].
    unfold findById. rewrite Hau. cbn [fst]. unfold save.
    destruct (decide (aid = id)) as [<- | Hd].
    + right. exists au, (fst (values au)), (snd (values au)).
      split; [reflexivity |]. apply lookup_insert_eq.
    + left. apply lookup_insert_ne. exact Hd.
  - destruct (guard_admin_refuses P e bearer s Hplain) as [resp ->]. left. reflexivity.
  - destruct (guard_admin_refuses P e bearer s Hplain) as [resp ->]. left. reflexivity.
Qed.

End UserRoutesMore.

Section TwoControllers.
Context {K : Crypto}.
Context {J : JsEngine}.

(** X24. The two controllers on the verification link of an unverified
    user, sent as an API request with the token as it was generated,
    whose hash no other document holds. Before the expiry both verify
    the user and leave the same store; after it both refuse and change
    nothing; at the very millisecond of the expiry the current
    controller still verifies while the earlier one refuses. *)
Theorem verification_expiry_in_both_controllers
    (e : Env) (token : string) (s : gmap N User) (id : N) (u : User) (exp : Z) :
  clean_token token ->
  s !! id = Some u ->
  emailVerificationToken u = Some (sha256_hex token) ->
  emailVerificationExpire u = Some exp ->
  emailVerified u = false ->
  (forall id2 u2, s !! id2 = Some u2 ->
                  by_verification_token (sha256_hex token) u2 = true -> id2 = id) ->
  let verified := save id (set_verification None None (set_emailVerified true u)) s in
  let current := authController.verifyEmail e (mkVerifyReq token false) s in
  let earlier := authController_legacy.verifyEmail e token s in
  (env_now e < exp ->
   current = (verified, json 200 true "Email verified successfully") /\ earlier = current)
  /\ (exp < env_now e ->
      current = (s, json 400 false
                      "Verification token has expired. Please request a new verification email.")
      /\ earlier = (s, json 400 false "Invalid or expired verification token"))
  /\ (exp = env_now e ->
      current = (verified, json 200 true "Email verified successfully")
      /\ earlier = (s, json 400 false "Invalid or expired verification token")).
Proof.
  intros Hclean Hs Htok Hexp Hver Honly verified current earlier.
  assert (Hheld : by_verification_token (sha256_hex token) u = true).
  { unfold by_verification_token, opt_is. rewrite Htok. apply String.eqb_refl. }
  assert (Hcur : current
                 = if exp <? env_now e
                   then (s, json 400 false
                              "Verification token has expired. Please request a new verification email.")
                   else (verified, json 200 true "Email verified successfully")).
  { unfold current. rewrite verifyEmail_api.
    - rewrite (clean_verify_token _ _ Hclean).
      rewrite (findOne_only _ s id u Hs Hheld Honly), Hexp, Hver. reflexivity.
    - reflexivity.
    - rewrite (clean_verify_token _ _ Hclean). apply Hclean. }
  assert (Hold : earlier
                 = if env_now e <? exp
                   then (verified, json 200 true "Email verified successfully")
                   else (s, json 400 false "Invalid or expired verification token")).
  { unfold earlier, authController_legacy.verifyEmail.
    destruct (env_now e <? exp) eqn:Hlive.
    - rewrite (findOne_only _ s id u Hs).
      + reflexivity.
      + unfold by_live_verification_token. fold (by_verification_token (sha256_hex token) u).
        rewrite Hheld, Hexp. cbn. exact Hlive.
      + intros id2 u2 Hs2 Hb. apply (Honly id2 u2 Hs2).
        unfold by_live_verification_token in Hb. apply andb_prop in Hb as [Hb _]. exact Hb.
    - rewrite findOne_None_intro; [reflexivity |].
      intros id2 u2 Hs2. unfold by_live_verification_token.
      destruct (opt_is (emailVerificationToken u2) (sha256_hex token)) eqn:Hb; [| reflexivity].
      pose proof (Honly id2 u2 Hs2 Hb) as ->.
      assert (u2 = u) by congruence. subst u2.
      rewrite Hexp. cbn. exact Hlive. }
  rewrite Hcur, Hold. split; [| split]; intros Hcmp.
  - rewrite (proj2 (Z.ltb_ge _ _)), (proj2 (Z.ltb_lt _ _)) by lia. split; reflexivity.
  - rewrite (proj2 (Z.ltb_lt _ _)), (proj2 (Z.ltb_ge _ _)) by lia. split; reflexivity.
  - rewrite !(proj2 (Z.ltb_ge _ _)) by lia. split; reflexivity.
Qed.

End TwoControllers.

(* ===================================================================== *)
(** * The further properties on the sample store                          *)
(* ===================================================================== *)

(** Reduces a statement about every document of a concrete store to one
    goal for each document. *)
Ltac each_document :=
  match goal with
  | |- forall id u, ?s !! id = Some u -> @?Q id u => apply (store_forall Q s)
  end;
  match goal with
  | |- Forall _ (map_to_list ?s) =>
      let l := eval vm_compute in (map_to_list s) in
      change (map_to_list s) with l
  end;
  repeat match goal with |- Forall _ _ => constructor end;
  cbn.

Lemma lifecycle_keeps_users_and_roles_witness :
  exists u',
    authController.run (H := Sample.crypto) (J := Sample.engine) Sample.penv Scenario.trace Sample.store !! 1%N
    = Some u'
    /\ fullName u' = "Ada" /\ email u' = "ada@example.com" /\ role u' = "user"
    /\ (true = true -> emailVerified u' = true).
Proof.
  refine (proj1 (lifecycle_keeps_users_and_roles (K := Sample.crypto) Sample.penv
                   Scenario.trace Sample.store) 1%N Sample.ada _).
  reflexivity.
Defined.

Lemma lifecycle_keeps_verified_cleared_witness :
  verified_means_cleared
    (authController.run (H := Sample.crypto) (J := Sample.engine) Sample.penv Scenario.trace Sample.store).
Proof.
  apply (lifecycle_keeps_verified_cleared (K := Sample.crypto)).
  unfold verified_means_cleared. each_document; intros; try discriminate; split; reflexivity.
Defined.

Lemma lifecycle_keeps_pairs_together_witness :
  pairs_together
    (authController.run (H := Sample.crypto) (J := Sample.engine) Sample.penv Scenario.trace Sample.store).
Proof.
  apply (lifecycle_keeps_pairs_together (K := Sample.crypto)).
  unfold pairs_together. each_document;
    repeat split; intros [x Hx]; try discriminate; eauto.
Defined.

Lemma lifecycle_keeps_emails_distinct_witness :
  emails_distinct
    (authController.run (H := Sample.crypto) (J := Sample.engine) Sample.penv Scenario.trace Sample.store).
Proof.
  apply (lifecycle_keeps_emails_distinct (K := Sample.crypto)).
  unfold emails_distinct. intros id1 id2 u1 u2 H1 H2. revert id2 u2 H2. revert id1 u1 H1.
  each_document; each_document; intros; try discriminate; reflexivity.
Defined.

(** Ada logs in at clock 2000; her tokens are tried at clock 3000. *)
Lemma login_tokens_work_witness :
  let e := Sample.env 2000 true in
  let e' := Sample.env 3000 true in
  let out := authController.login (H := Sample.crypto) Sample.penv e Scenario.ada_login
               Sample.store in
  exists id u u' access refresh,
    findOne (by_email "ada@example.com") Sample.store = Some (id, u)
    /\ emailVerified u = true
    /\ matchPassword (H := Sample.crypto) u "secret1" = true
    /\ fst out !! id = Some u'
    /\ fullName u' = fullName u /\ email u' = email u /\ password u' = password u
    /\ refreshToken u' = Some refresh
    /\ body (snd out)
       = Json true (Some "Login successful") (LoginData (view id u') access refresh)
    /\ jwt_id access = id /\ jwt_id refresh = id
    /\ (env_now e' / 1000 < env_now e / 1000 + access_expire Sample.penv ->
        authController.protect Sample.penv e' (Some access) (fst out) = inr (id, u'))
    /\ (env_now e / 1000 + access_expire Sample.penv <= env_now e' / 1000 ->
        authController.protect Sample.penv e' (Some access) (fst out)
        = inl (mkResponse 401
                 (Json false (Some "Token expired. Please refresh your session.") ExpiredFlag)))
    /\ (env_now e' / 1000 < env_now e / 1000 + refresh_expire Sample.penv ->
        is_success (snd (authController.refreshToken Sample.penv e'
                           (mkRefreshReq (Some refresh)) (fst out)))
        = true).
Proof.
  intros e e' out.
  apply (login_tokens_work (K := Sample.crypto) Sample.penv e e' Scenario.ada_login
           Sample.store (fst out) (snd out)).
  - apply surjective_pairing.
  - vm_compute. reflexivity.
Defined.

Lemma tokens_are_not_interchangeable_witness :
  let e := Sample.env 2000 true in
  authController.refreshToken Sample.penv e (mkRefreshReq (Some Staff.ada_access)) Sample.store
  = (Sample.store, json 401 false "Invalid or expired refresh token")
  /\ authController.protect Sample.penv e (Some Sample.ada_token) Sample.store
     = inl (json 401 false "Not authorized to access this route")
  /\ auth.optionalAuth Sample.penv e (Some Sample.ada_token) Sample.store = None.
Proof.
  intros e.
  apply (tokens_are_not_interchangeable Sample.penv e Sample.store 1000 1%N).
  vm_compute. discriminate.
Defined.

Lemma logout_revokes_refresh_token_witness :
  let e := Sample.env 2000 true in
  let e' := Sample.env 3000 true in
  let s' := fst (authController.handle (H := Sample.crypto) (J := Sample.engine) Sample.penv e
                   (authController.Logout (Some Staff.ada_access)) Sample.store) in
  snd (authController.handle (H := Sample.crypto) (J := Sample.engine) Sample.penv e
         (authController.Logout (Some Staff.ada_access)) Sample.store)
  = json 200 true "Logged out successfully"
  /\ s' !! 1%N = Some (set_refreshToken None Sample.ada)
  /\ (forall tok, jwt_id tok = 1%N ->
        fst (authController.refreshToken Sample.penv e' (mkRefreshReq (Some tok)) s') = s'
        /\ status (snd (authController.refreshToken Sample.penv e' (mkRefreshReq (Some tok)) s'))
           = 401)
  /\ fst (authController.logout 1%N s') = s'.
Proof.
  intros e e'.
  apply (logout_revokes_refresh_token (K := Sample.crypto) Sample.penv e e'
           (Some Staff.ada_access) Sample.store 1%N Sample.ada).
  reflexivity.
Defined.

Lemma failed_requests_change_nothing_witness :
  fst (authController.login (H := Sample.crypto) Sample.penv (Sample.env 2000 true)
         (mkLoginReq (Some "ada@example.com") (Some "guess")) Sample.store)
  = Sample.store.
Proof.
  refine (proj1 (proj2 (failed_requests_change_nothing (K := Sample.crypto) Sample.penv
                          (Sample.env 2000 true) Sample.store))
            (mkLoginReq (Some "ada@example.com") (Some "guess")) _).
  vm_compute. reflexivity.
Defined.

Lemma resendVerification_rotates_witness :
  let e := Sample.env 2000 false in
  let req := mkEmailReq (Some "Bob@Example.com") (Some "localhost:3000") in
  let s' := fst (authController.resendVerification (H := Sample.crypto) (J := Sample.engine) e req Sample.store) in
  s' !! 2%N = Some (set_verification (Some "sha256:c0ffee") (Some (2000 + day_ms)) Sample.bob)
  /\ status (snd (authController.resendVerification (H := Sample.crypto) (J := Sample.engine) e req Sample.store))
     = 500
  /\ authController.verifyEmail (H := Sample.crypto) (Sample.env 2500 true)
       (mkVerifyReq "tok-b" false) s'
     = (s', json 400 false
              "Invalid verification token. The token may be incorrect or already used.").
Proof.
  intros e req.
  apply (resendVerification_rotates (K := Sample.crypto) e (Sample.env 2500 true) req
           (mkVerifyReq "tok-b" false) Sample.store 2%N Sample.bob).
  - reflexivity.
  - vm_compute. reflexivity.
  - reflexivity.
  - reflexivity.
  - vm_compute. discriminate.
  - vm_compute. discriminate.
  - each_document; intros; try discriminate; reflexivity.
Defined.

Lemma register_verify_login_witness :
  let e := Sample.env 2000 true in
  let credentials := mkLoginReq (Some "eve@example.com") (Some "pw1234") in
  let link := mkVerifyReq "c0ffee" false in
  let s1 := fst (authController.register (H := Sample.crypto) e Scenario.eve_reg Sample.store) in
  let s2 := fst (authController.verifyEmail (H := Sample.crypto) (Sample.env 3000 true)
                   link s1) in
  status (snd (authController.register (H := Sample.crypto) e Scenario.eve_reg Sample.store))
  = 201
  /\ authController.login (H := Sample.crypto) Sample.penv (Sample.env 2500 true) credentials s1
     = (s1, json 403 false "Please verify your email before logging in")
  /\ snd (authController.verifyEmail (H := Sample.crypto) (Sample.env 3000 true) link s1)
     = json 200 true "Email verified successfully"
  /\ (emailVerified <$> s2 !! 7%N) = Some true
  /\ is_success (snd (authController.login (H := Sample.crypto) Sample.penv
                        (Sample.env 4000 true) credentials s2)) = true.
Proof.
  intros e.
  apply (register_verify_login (K := Sample.crypto) Sample.penv e (Sample.env 2500 true)
           (Sample.env 3000 true) (Sample.env 4000 true) Scenario.eve_reg Sample.store).
  - intros p. apply String.eqb_refl.
  - repeat split.
  - left. reflexivity.
  - vm_compute. reflexivity.
  - reflexivity.
  - split; [discriminate | split; reflexivity].
  - each_document; reflexivity.
  - vm_compute. discriminate.
  - reflexivity.
Defined.

Lemma forgot_reset_login_witness :
  let e := Sample.env 2000 true in
  let reset := mkResetReq (Some "c0ffee") (Some "newpass1") (Some "newpass1") in
  let s1 := fst (authController.forgotPassword (H := Sample.crypto) (J := Sample.engine)
                   Sample.penv e
                   (mkEmailReq (Some "cy@example.com") (Some "localhost:3000")) Sample.store) in
  let s2 := fst (authController.resetPassword (H := Sample.crypto) (Sample.env 3000 true)
                   reset s1) in
  let u2 := set_reset None None (set_password "bcrypt:newpass1" Sample.cy) in
  snd (authController.resetPassword (H := Sample.crypto) (Sample.env 3000 true) reset s1)
  = json 200 true "Password reset successfully"
  /\ s2 !! 3%N = Some u2
  /\ matchPassword (H := Sample.crypto) u2 "newpass1" = true
  /\ refreshToken u2 = refreshToken Sample.cy
  /\ authController.resetPassword (H := Sample.crypto) (Sample.env 4000 true) reset s2
     = (s2, json 400 false "Invalid or expired password reset token").
Proof.
  intros e.
  apply (forgot_reset_login (K := Sample.crypto) (J := Sample.engine) Sample.penv
           e (Sample.env 3000 true) (Sample.env 4000 true)
           (mkEmailReq (Some "cy@example.com") (Some "localhost:3000")) "newpass1"
           Sample.store 3%N Sample.cy).
  - intros p. apply String.eqb_refl.
  - reflexivity.
  - vm_compute. reflexivity.
  - reflexivity.
  - reflexivity.
  - discriminate.
  - reflexivity.
  - each_document; intros; try discriminate; reflexivity.
  - vm_compute. lia.
  - vm_compute. reflexivity.
Defined.

Lemma optionalAuth_agrees_with_protect_witness :
  auth.optionalAuth Sample.penv (Sample.env 2000 true) (Some Staff.ada_access) Sample.store
  = Some (1%N, Sample.ada).
Proof.
  refine (proj2 (proj1 (optionalAuth_agrees_with_protect Sample.penv (Sample.env 2000 true)
                          (Some Staff.ada_access) Sample.store) (1%N, Sample.ada)) _).
  reflexivity.
Defined.

Lemma guard_reads_the_stored_role_witness :
  (exists actor,
      auth.guard Sample.penv ["admin"] (Sample.env 2000 true) (Some Staff.ada_access)
        (save 1%N (userRoutes.set_role "admin" Sample.ada) Staff.store) = inr actor)
  <-> In "admin" ["admin"].
Proof.
  refine (proj2 (guard_reads_the_stored_role Sample.penv ["admin"] (Sample.env 2000 true)
                   (Some Staff.ada_access) Staff.store)
            Staff.ada_access 1%N Sample.ada "admin" _ _ _).
  - reflexivity.
  - reflexivity.
  - reflexivity.
Defined.

Lemma only_admin_changes_roles_witness :
  role <$> (fst (userRoutes.serve (H := Sample.crypto) (D := Sample.ids) Sample.penv Staff.odm
                   (Sample.env 2000 true) (Some Staff.ada_access)
                   (userRoutes.UpdateRole Staff.bob_id (Some "admin")) Staff.store) !! 2%N)
  = role <$> (Staff.store !! 2%N).
Proof.
  refine (only_admin_changes_roles (K := Sample.crypto) (D := Sample.ids) Sample.penv Staff.odm
            (Sample.env 2000 true) (Some Staff.ada_access)
            (userRoutes.UpdateRole Staff.bob_id (Some "admin")) Staff.store _ 2%N).
  intros id u Hp. vm_compute in Hp. injection Hp as <- <-. discriminate.
Defined.

Lemma roles_stay_known_witness :
  roles_known (fst (userRoutes.serve (H := Sample.crypto) (D := Sample.ids) Sample.penv Staff.odm
                      (Sample.env 2000 true) (Some Staff.dana_access)
                      (userRoutes.UpdateRole Staff.bob_id (Some "instructor")) Staff.store))
  /\ roles_known (authController.run (H := Sample.crypto) (J := Sample.engine) Sample.penv Scenario.trace
                    Staff.store).
Proof.
  apply (roles_stay_known (K := Sample.crypto)).
  unfold roles_known. each_document; reflexivity.
Defined.

(** Erin names her own id in capitals: the guard lets the request
    through and her document is removed. *)
Lemma delete_guard_compares_id_strings_witness :
  let reply :=
    userRoutes.serve (H := Sample.crypto) (D := Sample.ids) Sample.penv Staff.odm
      (Sample.env 2000 true) (Some Staff.erin_access)
      (userRoutes.DeleteUser Staff.erin_id_capitals) Staff.store2 in
  reply = (delete 171%N Staff.store2,
           userRoutes.Answer 200 true (Some "User deleted successfully") userRoutes.NoPayload)
  /\ fst reply !! 171%N = None.
Proof.
  intros reply.
  refine (proj2 (proj2 (delete_guard_compares_id_strings (K := Sample.crypto) (D := Sample.ids)
                          Sample.penv Staff.odm (Sample.env 2000 true)
                          (Some Staff.erin_access)
                          (userRoutes.DeleteUser Staff.erin_id_capitals)
                          Staff.store2 171%N Staff.erin _))
            Staff.erin_id_capitals _ _ _).
  - reflexivity.
  - reflexivity.
  - vm_compute. discriminate.
  - vm_compute. reflexivity.
Defined.

(** Finn reads his own profile under his id in lower case, and is
    refused under the same id in capitals. *)
Lemma plain_user_reads_own_profile_only_witness :
  let serve := userRoutes.serve (H := Sample.crypto) (D := Sample.ids) Sample.penv Staff.odm
                 (Sample.env 2000 true) (Some Staff.finn_access) in
  snd (serve (userRoutes.GetUser "0000000000000000000000ac") Staff.store2)
  = userRoutes.Answer 200 true None
      (userRoutes.OneUser 172%N (userRoutes.select_public Staff.finn))
  /\ snd (serve (userRoutes.GetUser Staff.finn_id_capitals) Staff.store2)
     = userRoutes.Answer 403 false (Some "Not authorized to view this user profile")
         userRoutes.NoPayload
  /\ userRoutes.replied_ok (snd (serve userRoutes.ListUsers Staff.store2)) = false.
Proof.
  intros serve.
  destruct (plain_user_reads_own_profile_only (K := Sample.crypto) (D := Sample.ids)
              Sample.penv Staff.odm (Sample.env 2000 true) (Some Staff.finn_access)
              Staff.store2 172%N Staff.finn eq_refl ltac:(discriminate) ltac:(discriminate))
    as (_ & Hown & Hother & Hlist).
  split; [exact Hown |]. split; [| exact Hlist].
  apply Hother.
  - vm_compute. discriminate.
  - vm_compute. reflexivity.
Defined.

Lemma created_user_can_log_in_witness :
  let e := Sample.env 2000 true in
  let s1 := fst (userRoutes.createUser (H := Sample.crypto) e Scenario.eve_body Staff.store) in
  userRoutes.replied_ok
    (snd (userRoutes.createUser (H := Sample.crypto) e Scenario.eve_body Staff.store)) = true
  /\ (emailVerified <$> s1 !! 7%N) = Some true
  /\ (role <$> s1 !! 7%N) = Some "instructor"
  /\ is_success (snd (authController.login (H := Sample.crypto) Sample.penv
                        (Sample.env 3000 true)
                        (mkLoginReq (Some "eve@example.com") (Some "pw1234")) s1))
     = true.
Proof.
  intros e.
  apply (created_user_can_log_in (K := Sample.crypto) Sample.penv e (Sample.env 3000 true)
           Scenario.eve_body Staff.store).
  - intros p. apply String.eqb_refl.
  - reflexivity.
  - reflexivity.
  - reflexivity.
  - right. reflexivity.
  - vm_compute. reflexivity.
  - reflexivity.
  - reflexivity.
Defined.

Lemma sendEmail_checks_before_sending_witness :
  falsy (sendEmail.RESEND_API_KEY Scenario.mail_env) = false
  /\ includes sendEmail.at_sign (str (sendEmail.o_email Scenario.welcome)) = true
  /\ str (sendEmail.o_subject Scenario.welcome) <> ""
  /\ str (sendEmail.o_html Scenario.welcome) <> ""
  /\ exists mail data,
       Scenario.provider mail = inr data /\ "msg-1" = env_or data "unknown"
       /\ sendEmail.m_to mail = str (sendEmail.o_email Scenario.welcome)
       /\ sendEmail.m_subject mail = str (sendEmail.o_subject Scenario.welcome)
       /\ sendEmail.m_html mail = str (sendEmail.o_html Scenario.welcome)
       /\ includes sendEmail.lt_sign (sendEmail.m_from mail) = true
       /\ includes sendEmail.gt_sign (sendEmail.m_from mail) = true.
Proof.
  refine (proj1 (sendEmail_checks_before_sending Scenario.mail_env Scenario.provider
                   Scenario.provider Scenario.welcome) "msg-1" _).
  reflexivity.
Defined.

Lemma percentage_is_monotone_witness :
  CourseProgress.percentage 1 3 <= CourseProgress.percentage 2 3.
Proof. apply percentage_is_monotone. lia. Defined.

(** All four lessons of the sample course, completed at clock 500. *)
Lemma updateProgress_records_completion_witness :
  exists after,
    CourseProgress.updateProgress 500 4 4 Sample.course = inr after
    /\ CourseProgress.completedLessons after = [0; 1; 2; 3]
    /\ CourseProgress.progress after = 100
    /\ CourseProgress.completedAt after = Some 500.
Proof.
  destruct (proj1 (updateProgress_records_completion 500 4 4 Sample.course))
    as (after & Hrun & _ & _ & _ & _ & _ & _ & _ & Hdone).
  - unfold CourseProgress.max_array_length. lia.
  - exists after. split; [exact Hrun |].
    destruct (Hdone ltac:(lia) eq_refl) as [Hprogress Hat].
    split; [| split; [exact Hprogress | exact Hat]].
    vm_compute in Hrun. injection Hrun as <-. reflexivity.
Defined.

Lemma non_admin_changes_own_profile_only_witness :
  let after :=
    fst (userRoutes.serve (H := Sample.crypto) (D := Sample.ids) Sample.penv Staff.odm (Sample.env 2000 true)
           (Some Staff.ada_access) (userRoutes.UpdateUser Staff.ada_id Scenario.ada_update)
           Staff.store) in
  after !! 1%N = Staff.store !! 1%N
  \/ exists au fn em,
       authController.protect Sample.penv (Sample.env 2000 true) (Some Staff.ada_access)
         Staff.store = inr (1%N, au)
       /\ after !! 1%N = Some (userRoutes.set_profile fn em au).
Proof.
  intros after.
  refine (non_admin_changes_own_profile_only (K := Sample.crypto) (D := Sample.ids)
            Sample.penv Staff.odm (Sample.env 2000 true) (Some Staff.ada_access)
            (userRoutes.UpdateUser Staff.ada_id Scenario.ada_update) Staff.store _ 1%N).
  intros id u Hp. vm_compute in Hp. injection Hp as <- <-. discriminate.
Defined.

Lemma verification_expiry_in_both_controllers_witness :
  let e := Sample.env 5000 true in
  authController.verifyEmail (H := Sample.crypto) e (mkVerifyReq "tok-b" false) Sample.store
  = (save 2%N (set_verification None None (set_emailVerified true Sample.bob)) Sample.store,
     json 200 true "Email verified successfully")
  /\ authController_legacy.verifyEmail (H := Sample.crypto) e "tok-b" Sample.store
     = (Sample.store, json 400 false "Invalid or expired verification token").
Proof.
  intros e.
  refine (proj2 (proj2 (verification_expiry_in_both_controllers (K := Sample.crypto)
                          e "tok-b" Sample.store 2%N Sample.bob 5000 _ _ _ _ _ _)) _).
  - split; [discriminate | split; reflexivity].
  - reflexivity.
  - reflexivity.
  - reflexivity.
  - reflexivity.
  - each_document; intros; try discriminate; reflexivity.
  - reflexivity.
Defined.
